(** * aks-engine, package [api]: the canonical cluster model and its
      derived-property queries

    A shallow embedding of the Go sources [pkg/api/const.go] (constants,
    the [Properties] struct graph and the methods defined on it) together
    with the conversion scenario exercised by the converter tests.

    Conventions of the embedding.
    - A Go [string] is a byte sequence; it is a Rocq [string] here.
    - A pointer field [*T] is an [option T]; [None] is the [nil] pointer.
    - A slice [[]*AgentPoolProfile] is an [option (list AgentPoolProfile)]:
      [None] is the [nil] slice, which the source tells apart from an
      empty one.  The elements themselves are taken to be non-nil.
    - Run-time panics (nil dereference, index out of range) are explicit:
      a method that can panic returns a [result].
    - Only the struct fields read or written by the embedded methods are
      kept in the records. *)

From Stdlib Require Import ZArith String Ascii List Lia Bool.
From stdpp Require Import base option list strings gmap.

(** ** Run-time failures *)

Inductive RuntimeError : Type :=
  | NilDereference
  | IndexOutOfRange.

Inductive result (A : Type) : Type :=
  | Ret (a : A)
  | Panic (e : RuntimeError).

Arguments Ret {A} a.
Arguments Panic {A} e.

Definition rbind {A B : Type} (r : result A) (k : A -> result B) : result B :=
  match r with
  | Ret a => k a
  | Panic e => Panic e
  end.

Notation "x <~ r ;; k" := (rbind r (fun x => k))
  (at level 100, r at next level, k at level 200, right associativity).

(** [l[i]] on a Go slice, the index being a Go [int]. *)
Definition index {A : Type} (l : list A) (i : Z) : result A :=
  if (i <? 0)%Z then Panic IndexOutOfRange
  else match l !! Z.to_nat i with
       | Some x => Ret x
       | None => Panic IndexOutOfRange
       end.

(** [l[i] = x] on a Go slice. *)
Definition store {A : Type} (l : list A) (i : Z) (x : A) : result (list A) :=
  if (i <? 0)%Z then Panic IndexOutOfRange
  else if (Z.to_nat i <? length l)%nat then Ret (<[Z.to_nat i := x]> l)
  else Panic IndexOutOfRange.

(** ** Constants (const.go) *)

Definition OSType := string.
Definition Distro := string.

Definition DCOS : string := "DCOS".
Definition Swarm : string := "Swarm".
Definition Kubernetes : string := "Kubernetes".
Definition SwarmMode : string := "SwarmMode".

Definition Windows : OSType := "Windows".
Definition Linux : OSType := "Linux".

Definition AKS1604Deprecated : Distro := "aks".
Definition AKS1804Deprecated : Distro := "aks-1804".
Definition AKSDockerEngine : Distro := "aks-docker-engine".
Definition AKSUbuntu1604 : Distro := "aks-ubuntu-16.04".
Definition AKSUbuntu1804 : Distro := "aks-ubuntu-18.04".

Definition AvailabilitySet : string := "AvailabilitySet".
Definition DefaultOrchestratorName : string := "k8s".
Definition DefaultHostedProfileMasterName : string := "aks".
Definition DefaultFirstConsecutiveKubernetesStaticIP : string := "10.240.255.5".
Definition DefaultFirstConsecutiveKubernetesStaticIPVMSS : string := "10.240.0.4".
Definition DefaultKubernetesFirstConsecutiveStaticIPOffset : Z := 5.
Definition DefaultKubernetesFirstConsecutiveStaticIPOffsetVMSS : Z := 4.
Definition DefaultSubnetNameResourceSegmentIndex : Z := 10.
Definition DefaultVnetResourceGroupSegmentIndex : Z := 4.
Definition DefaultVnetNameResourceSegmentIndex : Z := 8.
Definition VirtualMachineScaleSets : string := "VirtualMachineScaleSets".

(** ** Struct graph *)

Module KubernetesAddon.
Record t : Type := mk {
  Name : string;
  Enabled : option bool;
  Data : string
}.
(** The zero value [KubernetesAddon{}]. *)
Definition zero : t := {| Name := ""; Enabled := None; Data := "" |}.
End KubernetesAddon.

Module KubernetesConfig.
Record t : Type := mk {
  Addons : list KubernetesAddon.t
}.
End KubernetesConfig.

Module OrchestratorProfile.
Record t : Type := mk {
  OrchestratorType : string;
  OrchestratorVersion : string;
  KubernetesConfig : option KubernetesConfig.t
}.
End OrchestratorProfile.

Module MasterProfile.
Record t : Type := mk {
  DNSPrefix : string;
  VnetSubnetID : string;
  AvailabilityProfile : string
}.

(** [func (m *MasterProfile) IsCustomVNET() bool] *)
Definition IsCustomVNET (m : t) : bool :=
  (0 <? String.length (VnetSubnetID m))%nat.
End MasterProfile.

Module AgentPoolProfile.
Record t : Type := mk {
  Name : string;
  OSType : OSType;
  AvailabilityProfile : string;
  VnetSubnetID : string
}.

(** [func (a *AgentPoolProfile) IsCustomVNET() bool] *)
Definition IsCustomVNET (a : t) : bool :=
  (0 <? String.length (VnetSubnetID a))%nat.
End AgentPoolProfile.

Module HostedMasterProfile.
Record t : Type := mk {
  DNSPrefix : string
}.
End HostedMasterProfile.

(** *** Custom cloud profile

    The struct declarations of the environment spec are not part of
    [const.go]; their fields are the ones the converter test
    [TestConvertAzureEnvironmentSpecConfigToVLabs] populates and reads.  A
    Go map is a finite map. *)

Module DockerSpecConfig.
Record t : Type := mk {
  DockerEngineRepo : string;
  DockerComposeDownloadURL : string
}.
End DockerSpecConfig.

Module KubernetesSpecConfig.
Record t : Type := mk {
  KubernetesImageBase : string;
  TillerImageBase : string;
  ACIConnectorImageBase : string;
  NVIDIAImageBase : string;
  AzureCNIImageBase : string;
  CalicoImageBase : string;
  EtcdDownloadURLBase : string;
  KubeBinariesSASURLBase : string;
  WindowsTelemetryGUID : string;
  CNIPluginsDownloadURL : string;
  VnetCNILinuxPluginsDownloadURL : string;
  VnetCNIWindowsPluginsDownloadURL : string;
  ContainerdDownloadURLBase : string
}.
End KubernetesSpecConfig.

Module DCOSSpecConfig.
Record t : Type := mk {
  DCOS188BootstrapDownloadURL : string;
  DCOS190BootstrapDownloadURL : string;
  DCOS198BootstrapDownloadURL : string;
  DCOS110BootstrapDownloadURL : string;
  DCOS111BootstrapDownloadURL : string;
  DCOSWindowsBootstrapDownloadURL : string;
  DcosRepositoryURL : string;
  DcosClusterPackageListID : string;
  DcosProviderPackageID : string
}.
End DCOSSpecConfig.

Module AzureEndpointConfig.
Record t : Type := mk {
  ResourceManagerVMDNSSuffix : string
}.
End AzureEndpointConfig.

Module AzureOSImageConfig.
Record t : Type := mk {
  ImageOffer : string;
  ImageSku : string;
  ImagePublisher : string;
  ImageVersion : string
}.
End AzureOSImageConfig.

Module AzureEnvironmentSpecConfig.
Record t : Type := mk {
  CloudName : string;
  DockerSpecConfig : DockerSpecConfig.t;
  KubernetesSpecConfig : KubernetesSpecConfig.t;
  DCOSSpecConfig : DCOSSpecConfig.t;
  EndpointConfig : AzureEndpointConfig.t;
  OSImageConfig : gmap Distro AzureOSImageConfig.t
}.
End AzureEnvironmentSpecConfig.

Module CustomCloudProfile.
Record t : Type := mk {
  AzureEnvironmentSpecConfig : option AzureEnvironmentSpecConfig.t;
  IdentitySystem : string;
  AuthenticationMethod : string
}.
End CustomCloudProfile.

Module Properties.
Record t : Type := mk {
  ClusterID : string;
  OrchestratorProfile : option OrchestratorProfile.t;
  MasterProfile : option MasterProfile.t;
  AgentPoolProfiles : option (list AgentPoolProfile.t);
  HostedMasterProfile : option HostedMasterProfile.t;
  CustomCloudProfile : option CustomCloudProfile.t
}.

Definition setClusterID (p : t) (id : string) : t :=
    {| ClusterID := id;
       OrchestratorProfile := OrchestratorProfile p;
       MasterProfile := MasterProfile p;
       AgentPoolProfiles := AgentPoolProfiles p;
       HostedMasterProfile := HostedMasterProfile p;
       CustomCloudProfile := CustomCloudProfile p |}.
End Properties.

Module ContainerService.
Record t : Type := mk {
  ID : string;
  Location : string;
  Name : string;
  Properties : option Properties.t
}.
End ContainerService.

(** The elements a [range] over the agent-pool slice visits; ranging over
    the nil slice visits nothing. *)
Definition pools (p : Properties.t) : list AgentPoolProfile.t :=
  default [] (Properties.AgentPoolProfiles p).

(** ** Methods of [KubernetesAddon] and [KubernetesConfig] *)

(** [func (a *KubernetesAddon) IsEnabled() bool] *)
Definition IsEnabled (a : KubernetesAddon.t) : bool :=
  match KubernetesAddon.Enabled a with
  | None => false
  | Some b => b
  end.

(** The loop of [GetAddonByName]: the first addon with the name wins
    ([break]); [kubeAddon] keeps its zero value when none matches. *)
Fixpoint firstAddonNamed (addonName : string) (addons : list KubernetesAddon.t)
  : KubernetesAddon.t :=
  match addons with
  | [] => KubernetesAddon.zero
  | addon :: rest =>
      if String.eqb (KubernetesAddon.Name addon) addonName then addon
      else firstAddonNamed addonName rest
  end.

(** [func (k *KubernetesConfig) GetAddonByName(addonName string) KubernetesAddon] *)
Definition GetAddonByName (k : KubernetesConfig.t) (addonName : string)
  : KubernetesAddon.t :=
  firstAddonNamed addonName (KubernetesConfig.Addons k).

(** [func (k *KubernetesConfig) IsAddonEnabled(addonName string) bool] *)
Definition IsAddonEnabled (k : KubernetesConfig.t) (addonName : string) : bool :=
  let kubeAddon := GetAddonByName k addonName in
  IsEnabled kubeAddon.

(** ** Topology predicates of [Properties] *)

(** [func (m *MasterProfile) IsVirtualMachineScaleSets() bool] *)
Definition IsVirtualMachineScaleSets (m : MasterProfile.t) : bool :=
  String.eqb (MasterProfile.AvailabilityProfile m) VirtualMachineScaleSets.

(** [func (o *OrchestratorProfile) IsKubernetes() bool] *)
Definition IsKubernetes (o : OrchestratorProfile.t) : bool :=
  String.eqb (OrchestratorProfile.OrchestratorType o) Kubernetes.

(** [func (p *Properties) HasWindows() bool]: the loop returns at the first
    Windows pool and falls through to [false]. *)
Fixpoint anyWindows (l : list AgentPoolProfile.t) : bool :=
  match l with
  | [] => false
  | agentPoolProfile :: rest =>
      if String.eqb (AgentPoolProfile.OSType agentPoolProfile) Windows then true
      else anyWindows rest
  end.

Definition HasWindows (p : Properties.t) : bool := anyWindows (pools p).

(** [func (p *Properties) IsHostedMasterProfile() bool] *)
Definition IsHostedMasterProfile (p : Properties.t) : bool :=
  match Properties.HostedMasterProfile p with
  | Some _ => true
  | None => false
  end.

(** [func (p *Properties) AreAgentProfilesCustomVNET() bool] *)
Fixpoint allCustomVNET (l : list AgentPoolProfile.t) : bool :=
  match l with
  | [] => true
  | agentPoolProfile :: rest =>
      if negb (AgentPoolProfile.IsCustomVNET agentPoolProfile) then false
      else allCustomVNET rest
  end.

Definition AreAgentProfilesCustomVNET (p : Properties.t) : bool :=
  match Properties.AgentPoolProfiles p with
  | Some l => allCustomVNET l
  | None => false
  end.

(** [func (p *Properties) K8sOrchestratorName() string]; the receiver's
    [OrchestratorProfile] is dereferenced without a nil check. *)
Definition K8sOrchestratorName (p : Properties.t) : result string :=
  match Properties.OrchestratorProfile p with
  | None => Panic NilDereference
  | Some o =>
      if IsKubernetes o then
        match Properties.HostedMasterProfile p with
        | Some _ => Ret DefaultHostedProfileMasterName
        | None => Ret DefaultOrchestratorName
        end
      else Ret ""
  end.

(** ** Cluster ID (GetClusterID, lines 1564-1585) *)

Section Naming.

Local Open Scope Z_scope.

(** [hash/fnv]: the 64-bit FNV-1a hash.  [fnv64a_Write h s] is the state
    after [h.Write([]byte(s))]; the multiplication wraps at 64 bits. *)
Definition offset64 : Z := 14695981039346656037.
Definition prime64 : Z := 1099511628211.

Definition New64a : Z := offset64.

Fixpoint fnv64a_Write (h : Z) (s : string) : Z :=
  match s with
  | EmptyString => h
  | String c rest =>
      fnv64a_Write ((Z.lxor h (Z.of_N (N_of_ascii c)) * prime64) mod 2 ^ 64) rest
  end.

Definition Sum64 (h : Z) : Z := h.

(** The conversion [int64(u)] of a [uint64]. *)
Definition int64 (u : Z) : Z := if u <? 2 ^ 63 then u else u - 2 ^ 64.

(** [fmt.Sprintf("%08d", n)] for a non-negative [n]: the decimal digits of
    [n], padded on the left with zeros to a width of at least 8. *)
Definition digitChar (d : Z) : ascii := ascii_of_N (48 + Z.to_N d).

Fixpoint decimalDigits (fuel : nat) (n : Z) (acc : string) : string :=
  match fuel with
  | O => acc
  | S fuel' =>
      let acc' := String (digitChar (n mod 10)) acc in
      if n <? 10 then acc' else decimalDigits fuel' (n / 10) acc'
  end.

Definition formatDecimal (n : Z) : string :=
  decimalDigits (S (Z.to_nat (Z.log2 n))) n EmptyString.

Fixpoint zeros (k : nat) : string :=
  match k with
  | O => EmptyString
  | S k' => String "0"%char (zeros k')
  end.

Definition Sprintf_08d (n : Z) : string :=
  let s := formatDecimal n in
  (zeros (8 - String.length s) +:+ s)%string.

(** [math/rand] is outside the repository: [randUint32 seed] stands for
    [rand.New(rand.NewSource(seed)).Uint32()], a function of the seed. *)
Variable randUint32 : Z -> Z.

(** The bytes fed to the hash: the master DNS prefix when there is a master
    profile, else the hosted-master DNS prefix, else the name of the first
    agent pool; nothing is written when none of them is there. *)
Definition clusterIDSource (p : Properties.t) : string :=
  match Properties.MasterProfile p with
  | Some m => MasterProfile.DNSPrefix m
  | None =>
      match Properties.HostedMasterProfile p with
      | Some h => HostedMasterProfile.DNSPrefix h
      | None =>
          match pools p with
          | first :: _ => AgentPoolProfile.Name first
          | [] => EmptyString
          end
      end
  end.

(** The right-hand side of the assignment to [p.ClusterID]. *)
Definition newClusterID (p : Properties.t) : string :=
  let uniqueNameSuffixSize := 8%nat in
  let h := fnv64a_Write New64a (clusterIDSource p) in
  let r := randUint32 (int64 (Sum64 h)) in
  substring 0 uniqueNameSuffixSize (Sprintf_08d r).

(** [func (p *Properties) GetClusterID() string]: the returned string and
    the receiver after the call. *)
Definition GetClusterID (p : Properties.t) : string * Properties.t :=
  if String.eqb (Properties.ClusterID p) EmptyString then
    let p' := Properties.setClusterID p (newClusterID p) in
    (Properties.ClusterID p', p')
  else (Properties.ClusterID p, p).

(** *** Methods that thread the receiver and may panic *)

Definition Method (A : Type) : Type := Properties.t -> result (A * Properties.t).

Definition mret {A : Type} (a : A) : Method A := fun p => Ret (a, p).

Definition mbind {A B : Type} (m : Method A) (k : A -> Method B) : Method B :=
  fun p => match m p with
           | Ret (a, p') => k a p'
           | Panic e => Panic e
           end.

Definition query {A : Type} (f : Properties.t -> result A) : Method A :=
  fun p => match f p with
           | Ret a => Ret (a, p)
           | Panic e => Panic e
           end.

Definition clusterID : Method string := fun p => Ret (GetClusterID p).

Notation "x <- m ;;; k" := (mbind m (fun x => k))
  (at level 100, m at next level, k at level 200, right associativity).

(** [func (p *Properties) GetMasterVMPrefix() string] *)
Definition GetMasterVMPrefix : Method string :=
  name <- query K8sOrchestratorName ;;;
  id <- clusterID ;;;
  mret (name +:+ "-master-" +:+ id +:+ "-")%string.

(** [func (p *Properties) GetResourcePrefix() string] *)
Definition GetResourcePrefix : Method string :=
  fun p =>
    if IsHostedMasterProfile p then
      (name <- query K8sOrchestratorName ;;;
       id <- clusterID ;;;
       mret (name +:+ "-agentpool-" +:+ id +:+ "-")%string) p
    else
      (name <- query K8sOrchestratorName ;;;
       id <- clusterID ;;;
       mret (name +:+ "-master-" +:+ id +:+ "-")%string) p.

(** [func (p *Properties) GetRouteTableName() string] *)
Definition GetRouteTableName : Method string :=
  prefix <- GetResourcePrefix ;;; mret (prefix +:+ "routetable")%string.

(** [func (p *Properties) GetNSGName() string] *)
Definition GetNSGName : Method string :=
  prefix <- GetResourcePrefix ;;; mret (prefix +:+ "nsg")%string.

(** [strings.Split(s, "/")]: the substrings between the slashes; the empty
    string yields one empty segment. *)
Fixpoint splitSlash (s : string) : list string :=
  match s with
  | EmptyString => [EmptyString]
  | String c rest =>
      if Ascii.eqb c "/"%char then EmptyString :: splitSlash rest
      else match splitSlash rest with
           | seg :: segs => String c seg :: segs
           | [] => [String c EmptyString]
           end
  end.

(** [strings.Split(id, "/")[i]] *)
Definition segment (id : string) (i : Z) : result string :=
  index (splitSlash id) i.

(** [p.AgentPoolProfiles[0]] *)
Definition firstAgentPool (p : Properties.t) : result AgentPoolProfile.t :=
  match Properties.AgentPoolProfiles p with
  | None => Panic IndexOutOfRange
  | Some l => index l 0
  end.

(** [p.MasterProfile.IsCustomVNET()], which reads through the pointer. *)
Definition masterIsCustomVNET (p : Properties.t) : result bool :=
  match Properties.MasterProfile p with
  | None => Panic NilDereference
  | Some m => Ret (MasterProfile.IsCustomVNET m)
  end.

Definition masterVnetSubnetID (p : Properties.t) : result string :=
  match Properties.MasterProfile p with
  | None => Panic NilDereference
  | Some m => Ret (MasterProfile.VnetSubnetID m)
  end.

(** [!p.IsHostedMasterProfile() && p.MasterProfile.IsCustomVNET()]: the
    right operand is evaluated for a self-hosted cluster only. *)
Definition selfHostedOnCustomVNET (p : Properties.t) : result bool :=
  if negb (IsHostedMasterProfile p) then masterIsCustomVNET p else Ret false.

(** [func (p *Properties) GetVNetResourceGroupName() string] *)
Definition GetVNetResourceGroupName (p : Properties.t) : result string :=
  if IsHostedMasterProfile p && AreAgentProfilesCustomVNET p then
    a <~ firstAgentPool p ;;
    segment (AgentPoolProfile.VnetSubnetID a) DefaultVnetResourceGroupSegmentIndex
  else
    custom <~ selfHostedOnCustomVNET p ;;
    if custom : bool then
      id <~ masterVnetSubnetID p ;;
      segment id DefaultVnetResourceGroupSegmentIndex
    else Ret EmptyString.

(** [func (p *Properties) GetVirtualNetworkName() string] *)
Definition GetVirtualNetworkName : Method string :=
  fun p =>
    if IsHostedMasterProfile p && AreAgentProfilesCustomVNET p then
      query (fun p =>
        a <~ firstAgentPool p ;;
        segment (AgentPoolProfile.VnetSubnetID a) DefaultVnetNameResourceSegmentIndex) p
    else
      match selfHostedOnCustomVNET p with
      | Panic e => Panic e
      | Ret true =>
          query (fun p =>
            id <~ masterVnetSubnetID p ;;
            segment id DefaultVnetNameResourceSegmentIndex) p
      | Ret false =>
          (name <- query K8sOrchestratorName ;;;
           id <- clusterID ;;;
           mret (name +:+ "-vnet-" +:+ id)%string) p
      end.

(** [func (p *Properties) GetSubnetName() string] *)
Definition GetSubnetName (p : Properties.t) : result string :=
  if IsHostedMasterProfile p then
    if AreAgentProfilesCustomVNET p then
      a <~ firstAgentPool p ;;
      segment (AgentPoolProfile.VnetSubnetID a) DefaultSubnetNameResourceSegmentIndex
    else
      name <~ K8sOrchestratorName p ;; Ret (name +:+ "-subnet")%string
  else
    custom <~ masterIsCustomVNET p ;;
    if custom : bool then
      id <~ masterVnetSubnetID p ;;
      segment id DefaultSubnetNameResourceSegmentIndex
    else
      name <~ K8sOrchestratorName p ;; Ret (name +:+ "-subnet")%string.

End Naming.

(** ** First static IP of the master subnet (lines 1799-1826) *)

Section StaticIP.

Local Open Scope Z_scope.

(** *** The parts of Go's [net] package the method calls

    An [IP] and an [IPMask] are byte slices, here lists of integers in
    [0, 255]. *)

Definition IPv4len : Z := 4.
Definition IPv6len : Z := 16.
Definition big : Z := 0xFFFFFF.

Definition isDigit (c : ascii) : bool :=
  let n := Z.of_N (N_of_ascii c) in (48 <=? n) && (n <=? 57).

(** [dtoi]: the decimal number at the start of [s].  The result is the
    number, the rest of the string after its digits (the source returns the
    count of bytes consumed) and the [ok] flag. *)
Fixpoint dtoi_loop (s : string) (n : Z) (consumed : bool) : Z * string * bool :=
  match s with
  | String c rest =>
      if isDigit c then
        let n' := n * 10 + (Z.of_N (N_of_ascii c) - 48) in
        if big <=? n' then (big, s, false) else dtoi_loop rest n' true
      else (if consumed then (n, s, true) else (0, s, false))
  | EmptyString => if consumed then (n, s, true) else (0, s, false)
  end.

Definition dtoi (s : string) : Z * string * bool := dtoi_loop s 0 false.

(** [c > 1 && s[0] == '0'], for the [c] bytes that [dtoi] consumed of [s]
    leaving [rest]: a field of several digits that starts with a zero. *)
Definition hasLeadingZero (s rest : string) : bool :=
  (1 <? String.length s - String.length rest)%nat
  && match s with
     | String c _ => Ascii.eqb c "0"%char
     | EmptyString => false
     end.

(** [parseIPv4]: four decimal fields separated by dots, each at most 255.
    A field of several digits that starts with a zero is refused, as [net]
    does since Go 1.17 (earlier releases read such a field as a decimal
    number); on every other string the releases agree. *)
Fixpoint parseIPv4_fields (k : nat) (first : bool) (s : string) : option (list Z) :=
  match k with
  | O => if String.eqb s EmptyString then Some [] else None
  | S k' =>
      match s with
      | EmptyString => None
      | String c rest =>
          let afterDot :=
            if first then Some s
            else if Ascii.eqb c "."%char then Some rest else None in
          match afterDot with
          | None => None
          | Some s1 =>
              match dtoi s1 with
              | (n, s2, ok) =>
                  if negb ok || (0xFF <? n) then None
                  else if hasLeadingZero s1 s2 then None
                  else option_map (cons n) (parseIPv4_fields k' false s2)
              end
          end
      end
  end.

Definition parseIPv4 (s : string) : option (list Z) := parseIPv4_fields 4 true s.

(** [CIDRMask(ones, bits)] for [bits] 32 or 128 and [0 <= ones <= bits]. *)
Fixpoint CIDRMask_bytes (l : nat) (n : Z) : list Z :=
  match l with
  | O => []
  | S l' =>
      if 8 <=? n then 0xff :: CIDRMask_bytes l' (n - 8)
      else (255 - Z.shiftr 0xff n) :: CIDRMask_bytes l' 0
  end.

Definition CIDRMask (ones bits : Z) : list Z :=
  CIDRMask_bytes (Z.to_nat (bits / 8)) ones.

(** [simpleMaskLength] and [IPMask.Size]. *)
Fixpoint leadingOnes (fuel : nat) (v : Z) : Z * Z :=
  match fuel with
  | O => (0, v)
  | S fuel' =>
      if Z.eqb (Z.land v 0x80) 0 then (0, v)
      else let '(k, v') := leadingOnes fuel' (Z.shiftl v 1 mod 256) in (k + 1, v')
  end.

Fixpoint simpleMaskLength (mask : list Z) : Z :=
  match mask with
  | [] => 0
  | v :: rest =>
      if Z.eqb v 0xff then
        let n := simpleMaskLength rest in
        if Z.eqb n (-1) then -1 else 8 + n
      else
        let '(k, v') := leadingOnes 8 v in
        if negb (Z.eqb v' 0) then -1
        else if forallb (Z.eqb 0) rest then k else -1
  end.

Definition Size (mask : list Z) : Z * Z :=
  let ones := simpleMaskLength mask in
  if Z.eqb ones (-1) then (0, 0) else (ones, Z.of_nat (length mask) * 8).

(** [ip.Mask(mask)] once both have the same length. *)
Fixpoint maskBytes (ip mask : list Z) : list Z :=
  match ip, mask with
  | b :: ip', m :: mask' => Z.land b m :: maskBytes ip' mask'
  | _, _ => []
  end.

Record IPNet : Type := mkIPNet {
  IP : list Z;
  Mask : list Z
}.

(** [strings.IndexByte(s, '/')] as the two halves [s[:i]] and [s[i+1:]]. *)
Fixpoint cutSlash (s : string) : option (string * string) :=
  match s with
  | EmptyString => None
  | String c rest =>
      if Ascii.eqb c "/"%char then Some (EmptyString, rest)
      else match cutSlash rest with
           | Some (a, b) => Some (String c a, b)
           | None => None
           end
  end.

(** The textual IPv6 syntax is not modelled: [parseIPv6] stands for Go's
    parser of the same name (16 bytes on success), and [ipv6String] for the
    branch of [IP.String] that prints an address which is not IPv4. *)
Variable parseIPv6 : string -> option (list Z).
Variable ipv6String : list Z -> string.

(** [net.ParseCIDR]; only the [*IPNet] result is used by the caller, and
    [None] is the error result. *)
Definition ParseCIDR (s : string) : option IPNet :=
  match cutSlash s with
  | None => None
  | Some (addr, mask) =>
      let '(iplen, ip) :=
        match parseIPv4 addr with
        | Some ip4 => (IPv4len, Some ip4)
        | None => (IPv6len, parseIPv6 addr)
        end in
      match dtoi mask with
      | (n, rest, ok) =>
          match ip with
          | None => None
          | Some ip =>
              if negb ok || negb (String.eqb rest EmptyString)
                 || (n <? 0) || (8 * iplen <? n)
              then None
              else
                let m := CIDRMask n (8 * iplen) in
                Some {| IP := maskBytes ip m; Mask := m |}
          end
      end
  end.

(** [uitoa] on a byte, and [IP.String]. *)
Definition uitoa (n : Z) : string := formatDecimal n.

Definition To4 (ip : list Z) : option (list Z) :=
  match ip with
  | [_; _; _; _] => Some ip
  | [0; 0; 0; 0; 0; 0; 0; 0; 0; 0; 0xff; 0xff; a; b; c; d] => Some [a; b; c; d]
  | _ => None
  end.

Definition IP_String (ip : list Z) : string :=
  match ip with
  | [] => "<nil>"%string
  | _ =>
      match To4 ip with
      | Some [a; b; c; d] =>
          (uitoa a +:+ "." +:+ uitoa b +:+ "." +:+ uitoa c +:+ "." +:+ uitoa d)%string
      | _ => ipv6String ip
      end
  end.

(** *** The method *)

(** [for i := firstOctet + 1; i < lastOctet; i++ { subnet.IP[i] = 255 }],
    with [count] bounding the number of iterations. *)
Fixpoint fillOctets (count : nat) (i lastOctet : Z) (ip : list Z) : result (list Z) :=
  match count with
  | O => Ret ip
  | S count' =>
      if i <? lastOctet then
        ip' <~ store ip i 255 ;; fillOctets count' (i + 1) lastOctet ip'
      else Ret ip
  end.

(** [func (m *MasterProfile) GetFirstConsecutiveStaticIPAddress(subnetStr string) string] *)
Definition GetFirstConsecutiveStaticIPAddress (m : MasterProfile.t)
    (subnetStr : string) : result string :=
  match ParseCIDR subnetStr with
  | None => Ret DefaultFirstConsecutiveKubernetesStaticIP
  | Some subnet =>
      let '(ones, bits) := Size (Mask subnet) in
      let firstOctet := ones / 8 in
      let lastOctet := bits / 8 - 1 in
      if IsVirtualMachineScaleSets m then
        ip <~ store (IP subnet) lastOctet
                DefaultKubernetesFirstConsecutiveStaticIPOffsetVMSS ;;
        Ret (IP_String ip)
      else
        b <~ index (IP subnet) firstOctet ;;
        ip1 <~ store (IP subnet) firstOctet
                 (Z.lor b ((Z.shiftl 1 (8 - ones mod 8) mod 256 - 1) mod 256)) ;;
        ip2 <~ fillOctets (Z.to_nat (lastOctet - firstOctet)) (firstOctet + 1)
                 lastOctet ip1 ;;
        ip3 <~ store ip2 lastOctet DefaultKubernetesFirstConsecutiveStaticIPOffset ;;
        Ret (IP_String ip3)
  end.

End StaticIP.

(** ** The [vlabs] schema of the custom cloud profile

    Package [vlabs] declares its own copies of the structs; the fields are
    the ones the converter test reads from the converted document. *)

Module vlabs.
Definition Distro := string.

Module DockerSpecConfig.
Record t : Type := mk {
  DockerEngineRepo : string;
  DockerComposeDownloadURL : string
}.
End DockerSpecConfig.

Module KubernetesSpecConfig.
Record t : Type := mk {
  KubernetesImageBase : string;
  TillerImageBase : string;
  ACIConnectorImageBase : string;
  NVIDIAImageBase : string;
  AzureCNIImageBase : string;
  CalicoImageBase : string;
  EtcdDownloadURLBase : string;
  KubeBinariesSASURLBase : string;
  WindowsTelemetryGUID : string;
  CNIPluginsDownloadURL : string;
  VnetCNILinuxPluginsDownloadURL : string;
  VnetCNIWindowsPluginsDownloadURL : string;
  ContainerdDownloadURLBase : string
}.
End KubernetesSpecConfig.

Module DCOSSpecConfig.
Record t : Type := mk {
  DCOS188BootstrapDownloadURL : string;
  DCOS190BootstrapDownloadURL : string;
  DCOS198BootstrapDownloadURL : string;
  DCOS110BootstrapDownloadURL : string;
  DCOS111BootstrapDownloadURL : string;
  DCOSWindowsBootstrapDownloadURL : string;
  DcosRepositoryURL : string;
  DcosClusterPackageListID : string;
  DcosProviderPackageID : string
}.
End DCOSSpecConfig.

Module AzureEndpointConfig.
Record t : Type := mk {
  ResourceManagerVMDNSSuffix : string
}.
End AzureEndpointConfig.

Module AzureOSImageConfig.
Record t : Type := mk {
  ImageOffer : string;
  ImageSku : string;
  ImagePublisher : string;
  ImageVersion : string
}.
End AzureOSImageConfig.

Module AzureEnvironmentSpecConfig.
Record t : Type := mk {
  CloudName : string;
  DockerSpecConfig : DockerSpecConfig.t;
  KubernetesSpecConfig : KubernetesSpecConfig.t;
  DCOSSpecConfig : DCOSSpecConfig.t;
  EndpointConfig : AzureEndpointConfig.t;
  OSImageConfig : gmap Distro AzureOSImageConfig.t
}.
End AzureEnvironmentSpecConfig.

Module CustomCloudProfile.
Record t : Type := mk {
  AzureEnvironmentSpecConfig : option AzureEnvironmentSpecConfig.t;
  IdentitySystem : string;
  AuthenticationMethod : string
}.
End CustomCloudProfile.

Module Properties.
Record t : Type := mk {
  CustomCloudProfile : option CustomCloudProfile.t
}.
End Properties.

Module ContainerService.
Record t : Type := mk {
  ID : string;
  Location : string;
  Name : string;
  Properties : option Properties.t
}.
End ContainerService.
End vlabs.

(** ** Conversion of the custom cloud profile to [vlabs] *)

(** Modelled from the spec: the converter [ConvertContainerServiceToVLabs]
    and its helpers live in a file that is not among the sources; only the
    test that calls it is.  Section 4.3 of the specification describes it as
    a field-by-field copy, map-valued fields being converted by iterating
    over the source entries and re-keying each one into the target map
    type.  The definitions below are that description, restricted to the
    custom cloud profile. *)
Definition convertDockerSpecConfigToVLabs (api : DockerSpecConfig.t) : vlabs.DockerSpecConfig.t :=
  {| vlabs.DockerSpecConfig.DockerEngineRepo := DockerSpecConfig.DockerEngineRepo api;
     vlabs.DockerSpecConfig.DockerComposeDownloadURL := DockerSpecConfig.DockerComposeDownloadURL api |}.

Definition convertKubernetesSpecConfigToVLabs (api : KubernetesSpecConfig.t) : vlabs.KubernetesSpecConfig.t :=
  {| vlabs.KubernetesSpecConfig.KubernetesImageBase := KubernetesSpecConfig.KubernetesImageBase api;
     vlabs.KubernetesSpecConfig.TillerImageBase := KubernetesSpecConfig.TillerImageBase api;
     vlabs.KubernetesSpecConfig.ACIConnectorImageBase := KubernetesSpecConfig.ACIConnectorImageBase api;
     vlabs.KubernetesSpecConfig.NVIDIAImageBase := KubernetesSpecConfig.NVIDIAImageBase api;
     vlabs.KubernetesSpecConfig.AzureCNIImageBase := KubernetesSpecConfig.AzureCNIImageBase api;
     vlabs.KubernetesSpecConfig.CalicoImageBase := KubernetesSpecConfig.CalicoImageBase api;
     vlabs.KubernetesSpecConfig.EtcdDownloadURLBase := KubernetesSpecConfig.EtcdDownloadURLBase api;
     vlabs.KubernetesSpecConfig.KubeBinariesSASURLBase := KubernetesSpecConfig.KubeBinariesSASURLBase api;
     vlabs.KubernetesSpecConfig.WindowsTelemetryGUID := KubernetesSpecConfig.WindowsTelemetryGUID api;
     vlabs.KubernetesSpecConfig.CNIPluginsDownloadURL := KubernetesSpecConfig.CNIPluginsDownloadURL api;
     vlabs.KubernetesSpecConfig.VnetCNILinuxPluginsDownloadURL := KubernetesSpecConfig.VnetCNILinuxPluginsDownloadURL api;
     vlabs.KubernetesSpecConfig.VnetCNIWindowsPluginsDownloadURL := KubernetesSpecConfig.VnetCNIWindowsPluginsDownloadURL api;
     vlabs.KubernetesSpecConfig.ContainerdDownloadURLBase := KubernetesSpecConfig.ContainerdDownloadURLBase api |}.

Definition convertDCOSSpecConfigToVLabs (api : DCOSSpecConfig.t) : vlabs.DCOSSpecConfig.t :=
  {| vlabs.DCOSSpecConfig.DCOS188BootstrapDownloadURL := DCOSSpecConfig.DCOS188BootstrapDownloadURL api;
     vlabs.DCOSSpecConfig.DCOS190BootstrapDownloadURL := DCOSSpecConfig.DCOS190BootstrapDownloadURL api;
     vlabs.DCOSSpecConfig.DCOS198BootstrapDownloadURL := DCOSSpecConfig.DCOS198BootstrapDownloadURL api;
     vlabs.DCOSSpecConfig.DCOS110BootstrapDownloadURL := DCOSSpecConfig.DCOS110BootstrapDownloadURL api;
     vlabs.DCOSSpecConfig.DCOS111BootstrapDownloadURL := DCOSSpecConfig.DCOS111BootstrapDownloadURL api;
     vlabs.DCOSSpecConfig.DCOSWindowsBootstrapDownloadURL := DCOSSpecConfig.DCOSWindowsBootstrapDownloadURL api;
     vlabs.DCOSSpecConfig.DcosRepositoryURL := DCOSSpecConfig.DcosRepositoryURL api;
     vlabs.DCOSSpecConfig.DcosClusterPackageListID := DCOSSpecConfig.DcosClusterPackageListID api;
     vlabs.DCOSSpecConfig.DcosProviderPackageID := DCOSSpecConfig.DcosProviderPackageID api |}.

Definition convertAzureEndpointConfigToVLabs (api : AzureEndpointConfig.t) : vlabs.AzureEndpointConfig.t :=
  {| vlabs.AzureEndpointConfig.ResourceManagerVMDNSSuffix := AzureEndpointConfig.ResourceManagerVMDNSSuffix api |}.

Definition convertAzureOSImageConfigToVLabs (api : AzureOSImageConfig.t) : vlabs.AzureOSImageConfig.t :=
  {| vlabs.AzureOSImageConfig.ImageOffer := AzureOSImageConfig.ImageOffer api;
     vlabs.AzureOSImageConfig.ImageSku := AzureOSImageConfig.ImageSku api;
     vlabs.AzureOSImageConfig.ImagePublisher := AzureOSImageConfig.ImagePublisher api;
     vlabs.AzureOSImageConfig.ImageVersion := AzureOSImageConfig.ImageVersion api |}.

(** [for k, v := range api.OSImageConfig { out[vlabs.Distro(string(k))] = ... }] *)
Definition convertOSImageConfigToVLabs (m : gmap Distro AzureOSImageConfig.t)
  : gmap vlabs.Distro vlabs.AzureOSImageConfig.t :=
  map_fold (fun (k : Distro) (v : AzureOSImageConfig.t) out =>
              <[ (k : vlabs.Distro) := convertAzureOSImageConfigToVLabs v ]> out)
           (∅ : gmap vlabs.Distro vlabs.AzureOSImageConfig.t) m.

Definition convertAzureEnvironmentSpecConfigToVLabs
    (api : AzureEnvironmentSpecConfig.t) : vlabs.AzureEnvironmentSpecConfig.t :=
  {| vlabs.AzureEnvironmentSpecConfig.CloudName :=
       AzureEnvironmentSpecConfig.CloudName api;
     vlabs.AzureEnvironmentSpecConfig.DockerSpecConfig :=
       convertDockerSpecConfigToVLabs (AzureEnvironmentSpecConfig.DockerSpecConfig api);
     vlabs.AzureEnvironmentSpecConfig.KubernetesSpecConfig :=
       convertKubernetesSpecConfigToVLabs
         (AzureEnvironmentSpecConfig.KubernetesSpecConfig api);
     vlabs.AzureEnvironmentSpecConfig.DCOSSpecConfig :=
       convertDCOSSpecConfigToVLabs (AzureEnvironmentSpecConfig.DCOSSpecConfig api);
     vlabs.AzureEnvironmentSpecConfig.EndpointConfig :=
       convertAzureEndpointConfigToVLabs (AzureEnvironmentSpecConfig.EndpointConfig api);
     vlabs.AzureEnvironmentSpecConfig.OSImageConfig :=
       convertOSImageConfigToVLabs (AzureEnvironmentSpecConfig.OSImageConfig api) |}.

Definition convertCustomCloudProfileToVLabs (api : CustomCloudProfile.t)
  : vlabs.CustomCloudProfile.t :=
  {| vlabs.CustomCloudProfile.AzureEnvironmentSpecConfig :=
       option_map convertAzureEnvironmentSpecConfigToVLabs
         (CustomCloudProfile.AzureEnvironmentSpecConfig api);
     vlabs.CustomCloudProfile.IdentitySystem := CustomCloudProfile.IdentitySystem api;
     vlabs.CustomCloudProfile.AuthenticationMethod :=
       CustomCloudProfile.AuthenticationMethod api |}.

Definition convertPropertiesToVLabs (api : Properties.t) : vlabs.Properties.t :=
  {| vlabs.Properties.CustomCloudProfile :=
       option_map convertCustomCloudProfileToVLabs (Properties.CustomCloudProfile api) |}.

Definition ConvertContainerServiceToVLabs (api : ContainerService.t)
  : vlabs.ContainerService.t :=
  {| vlabs.ContainerService.ID := ContainerService.ID api;
     vlabs.ContainerService.Location := ContainerService.Location api;
     vlabs.ContainerService.Name := ContainerService.Name api;
     vlabs.ContainerService.Properties :=
       option_map convertPropertiesToVLabs (ContainerService.Properties api) |}.

(** ** Version converters, as section 4.3 of the specification states them *)

Module Converter.

  (** Modelled from the spec: the per-version converters ([ToVersioned] and
      [ToCanonical] of each external schema version) are not among the
      sources.  The specification describes them by rules: a field-by-field
      copy with renames, fields the version lacks being dropped; the inverse
      renames on the way back, fields the version lacks keeping their zero
      value; legacy distro aliases accepted and mapped to their modern
      equivalent on [ToCanonical] and never produced by [ToVersioned]; failure
      on an absent required field and on an enum value outside the closed set
      of the version.  A document is a finite map from field names to scalar
      values; a field with its zero value is absent from the map. *)

Inductive Version : Type :=
    | V20160330 | V20160930 | V20170131 | V20170701 | VLabs
    | V20170831 | V20180331.

Inductive FieldKind : Type :=
    | PlainField
    | EnumField (allowed : list string)
    | DistroField.

Record FieldRule : Type := mkRule {
  canonicalName : string;
  externalName : string;
  required : bool;
  kind : FieldKind
}.

Inductive ConversionError : Type :=
    | MissingRequiredField (name : string)
    | ValueOutsideEnum (name value : string).

Inductive outcome (A : Type) : Type :=
    | Converted (a : A)
    | Failed (e : ConversionError).

Arguments Converted {A} a.
Arguments Failed {A} e.


  (** The closed-set check of an enum field. *)
Definition admits (k : FieldKind) (v : string) : bool :=
    match k with
    | EnumField allowed => bool_decide (v ∈ allowed)
    | _ => true
    end.

Section Rules.

    (** The specification leaves the modern equivalent of the docker-engine
        alias unnamed. *)
Variable dockerEngineEquivalent : Distro.

Definition modernDistro (d : Distro) : Distro :=
      if String.eqb d AKS1604Deprecated then AKSUbuntu1604
      else if String.eqb d AKS1804Deprecated then AKSUbuntu1804
      else if String.eqb d AKSDockerEngine then dockerEngineEquivalent
      else d.

    (** The value stored in the canonical document for an external one. *)
Definition toCanonicalValue (k : FieldKind) (v : string) : string :=
      match k with
      | DistroField => modernDistro v
      | _ => v
      end.

Fixpoint toVersionedFields (rules : list FieldRule)
        (c : gmap string string) (out : gmap string string)
      : outcome (gmap string string) :=
      match rules with
      | [] => Converted out
      | r :: rest =>
          match c !! canonicalName r with
          | None =>
              if required r then Failed (MissingRequiredField (canonicalName r))
              else toVersionedFields rest c out
          | Some v =>
              if admits (kind r) v
              then toVersionedFields rest c (<[externalName r := v]> out)
              else Failed (ValueOutsideEnum (canonicalName r) v)
          end
      end.

Fixpoint toCanonicalFields (rules : list FieldRule)
        (x : gmap string string) (out : gmap string string)
      : outcome (gmap string string) :=
      match rules with
      | [] => Converted out
      | r :: rest =>
          match x !! externalName r with
          | None =>
              if required r then Failed (MissingRequiredField (externalName r))
              else toCanonicalFields rest x out
          | Some v =>
              if admits (kind r) v
              then toCanonicalFields rest x
                     (<[canonicalName r := toCanonicalValue (kind r) v]> out)
              else Failed (ValueOutsideEnum (externalName r) v)
          end
      end.

    (** The field table of each version is given neither by the sources nor
        by the specification: it stays a parameter, and what is proved of the
        converters is proved for every table. *)
Variable schema : Version -> list FieldRule.

Definition ToVersioned (V : Version) (c : gmap string string)
      : outcome (gmap string string) :=
      toVersionedFields (schema V) c ∅.

Definition ToCanonical (V : Version) (x : gmap string string)
      : outcome (gmap string string) :=
      toCanonicalFields (schema V) x ∅.

    (** The fields of the canonical document that version [V] can represent. *)
Definition representable (V : Version) : list string :=
      canonicalName <$> schema V.

    (** A field table renames one-to-one: the specification has
        [ToCanonical] apply the inverse renames. *)
Definition wellFormed (V : Version) : Prop :=
      NoDup (canonicalName <$> schema V) /\ NoDup (externalName <$> schema V).

End Rules.

End Converter.

(** ** Concurrent calls of [GetClusterID] on one receiver

    The goroutines are interleaved statement by statement.  The reads and
    the write of [p.ClusterID] are not synchronised in the method (each call
    locks a mutex of its own), so the program has a data race, and Go
    promises nothing about what a racing read of a string observes: the
    program may behave in ways no interleaving of whole statements shows.
    Every run of this model is a run the program can make, not the other
    way round; the model serves to exhibit runs, not to bound them. *)

Module Race.

  (** The statements of the method body a goroutine is about to execute. *)
Inductive pc : Type :=
    | AtNewMutex              (* var mutex = &sync.Mutex{} *)
    | AtCheck                 (* if p.ClusterID == "" *)
    | AtHash                  (* h := fnv.New64a() ... r := rand.New(...) *)
    | AtLock (seed : Z)       (* mutex.Lock() *)
    | AtAssign (seed : Z)     (* p.ClusterID = fmt.Sprintf(...)[:8] *)
    | AtUnlock                (* mutex.Unlock() *)
    | AtReturn                (* return p.ClusterID *)
    | Returned (id : string).

Record goroutine : Type := mkGoroutine {
  at_ : pc;
  mutex : option nat        (* the local variable: a pointer into the heap *)
}.

Record state : Type := mkState {
  receiver : Properties.t;  (* the shared [*p] *)
  mutexes : list bool;      (* the allocated mutexes; [true] is locked *)
  goroutines : list goroutine;
  hashed : nat;             (* how many times the hash was computed *)
  assigned : nat            (* how many times [p.ClusterID] was written *)
}.

Definition start (p : Properties.t) (n : nat) : state :=
    {| receiver := p; mutexes := [];
       goroutines := replicate n {| at_ := AtNewMutex; mutex := None |};
       hashed := 0; assigned := 0 |}.

Section Steps.

Variable randUint32 : Z -> Z.

Definition setGoroutine (st : state) (i : nat) (g : goroutine) : state :=
      {| receiver := receiver st; mutexes := mutexes st;
         goroutines := <[i := g]> (goroutines st);
         hashed := hashed st; assigned := assigned st |}.

    (** One statement of goroutine [i]; [None] when it cannot move: it has
        returned, or it waits for a locked mutex. *)
Definition step (i : nat) (st : state) : option state :=
      match goroutines st !! i with
      | None => None
      | Some g =>
          match at_ g with
          | AtNewMutex =>
              Some {| receiver := receiver st;
                      mutexes := mutexes st ++ [false];
                      goroutines :=
                        <[i := {| at_ := AtCheck;
                                  mutex := Some (length (mutexes st)) |}]>
                          (goroutines st);
                      hashed := hashed st; assigned := assigned st |}
          | AtCheck =>
              if String.eqb (Properties.ClusterID (receiver st)) EmptyString
              then Some (setGoroutine st i {| at_ := AtHash; mutex := mutex g |})
              else Some (setGoroutine st i {| at_ := AtReturn; mutex := mutex g |})
          | AtHash =>
              let h := fnv64a_Write New64a (clusterIDSource (receiver st)) in
              Some {| receiver := receiver st; mutexes := mutexes st;
                      goroutines :=
                        <[i := {| at_ := AtLock (int64 (Sum64 h));
                                  mutex := mutex g |}]> (goroutines st);
                      hashed := S (hashed st); assigned := assigned st |}
          | AtLock seed =>
              match mutex g with
              | None => None
              | Some mu =>
                  match mutexes st !! mu with
                  | Some false =>
                      Some {| receiver := receiver st;
                              mutexes := <[mu := true]> (mutexes st);
                              goroutines :=
                                <[i := {| at_ := AtAssign seed; mutex := mutex g |}]>
                                  (goroutines st);
                              hashed := hashed st; assigned := assigned st |}
                  | _ => None
                  end
              end
          | AtAssign seed =>
              let id := substring 0 8 (Sprintf_08d (randUint32 seed)) in
              Some {| receiver := Properties.setClusterID (receiver st) id;
                      mutexes := mutexes st;
                      goroutines :=
                        <[i := {| at_ := AtUnlock; mutex := mutex g |}]>
                          (goroutines st);
                      hashed := hashed st; assigned := S (assigned st) |}
          | AtUnlock =>
              match mutex g with
              | None => None
              | Some mu =>
                  Some {| receiver := receiver st;
                          mutexes := <[mu := false]> (mutexes st);
                          goroutines :=
                            <[i := {| at_ := AtReturn; mutex := mutex g |}]>
                              (goroutines st);
                          hashed := hashed st; assigned := assigned st |}
              end
          | AtReturn =>
              Some (setGoroutine st i
                      {| at_ := Returned (Properties.ClusterID (receiver st));
                         mutex := mutex g |})
          | Returned _ => None
          end
      end.

    (** A schedule names the goroutine that moves next. *)
Fixpoint run (schedule : list nat) (st : state) : option state :=
      match schedule with
      | [] => Some st
      | i :: rest =>
          match step i st with
          | Some st' => run rest st'
          | None => None
          end
      end.

    (** Both goroutines hold a locked mutex and are about to write. *)
Definition inCriticalSection (st : state) (i : nat) : bool :=
      match goroutines st !! i with
      | Some g => match at_ g with AtAssign _ => true | _ => false end
      | None => false
      end.

Definition results (st : state) : list (option string) :=
      (fun g => match at_ g with Returned id => Some id | _ => None end)
        <$> goroutines st.

End Steps.

End Race.

(** ** Predicates used to state properties *)

(** Every byte of the string is a decimal digit. *)
Fixpoint allDigits (s : string) : bool :=
  match s with
  | EmptyString => true
  | String c rest => isDigit c && allDigits rest
  end.

(** The number a string of decimal digits denotes, continuing from [v]. *)
Fixpoint decimalValue (v : Z) (s : string) : Z :=
  match s with
  | EmptyString => v
  | String c rest => decimalValue (10 * v + (Z.of_N (N_of_ascii c) - 48))%Z rest
  end.

(** The seed of the generator: the hash of the identifying string, as
    [int64]. *)
Definition raceSeed (p : Properties.t) : Z :=
  int64 (Sum64 (fnv64a_Write New64a (clusterIDSource p))).

(** ** Sample inputs *)

Definition noPools : Properties.t :=
  {| Properties.ClusterID := "";
     Properties.OrchestratorProfile := None;
     Properties.MasterProfile := None;
     Properties.AgentPoolProfiles := Some [];
     Properties.HostedMasterProfile := None;
     Properties.CustomCloudProfile := None |}.

Definition unsetAddon : KubernetesAddon.t :=
  {| KubernetesAddon.Name := "tiller"; KubernetesAddon.Enabled := None;
     KubernetesAddon.Data := "" |}.

Definition shadowedAddon : KubernetesAddon.t :=
  {| KubernetesAddon.Name := "tiller"; KubernetesAddon.Enabled := Some true;
     KubernetesAddon.Data := "" |}.

Definition sampleConfig : KubernetesConfig.t :=
  {| KubernetesConfig.Addons := [unsetAddon; shadowedAddon] |}.


Definition sampleRand (seed : Z) : Z := (seed mod 2 ^ 32)%Z.

Definition sampleSubnetID : string :=
  "/subscriptions/SUB/resourceGroups/RG/providers/Microsoft.Network/virtualNetworks/VNET/subnets/SUBNET".

Definition kubernetesProfile : OrchestratorProfile.t :=
  {| OrchestratorProfile.OrchestratorType := Kubernetes;
     OrchestratorProfile.OrchestratorVersion := "1.11.6";
     OrchestratorProfile.KubernetesConfig := None |}.

Definition swarmProfile : OrchestratorProfile.t :=
  {| OrchestratorProfile.OrchestratorType := Swarm;
     OrchestratorProfile.OrchestratorVersion := "";
     OrchestratorProfile.KubernetesConfig := None |}.

Definition sampleMaster : MasterProfile.t :=
  {| MasterProfile.DNSPrefix := "blueorange";
     MasterProfile.VnetSubnetID := "";
     MasterProfile.AvailabilityProfile := AvailabilitySet |}.

Definition sampleMasterVMSS : MasterProfile.t :=
  {| MasterProfile.DNSPrefix := "blueorange";
     MasterProfile.VnetSubnetID := "";
     MasterProfile.AvailabilityProfile := VirtualMachineScaleSets |}.

Definition customVNETMaster : MasterProfile.t :=
  {| MasterProfile.DNSPrefix := "blueorange";
     MasterProfile.VnetSubnetID := sampleSubnetID;
     MasterProfile.AvailabilityProfile := AvailabilitySet |}.

Definition customVNETAgent : AgentPoolProfile.t :=
  {| AgentPoolProfile.Name := "sampleAgent";
     AgentPoolProfile.OSType := Linux;
     AgentPoolProfile.AvailabilityProfile := AvailabilitySet;
     AgentPoolProfile.VnetSubnetID := sampleSubnetID |}.

Definition selfHostedCluster : Properties.t :=
  {| Properties.ClusterID := "";
     Properties.OrchestratorProfile := Some kubernetesProfile;
     Properties.MasterProfile := Some sampleMaster;
     Properties.AgentPoolProfiles := Some [customVNETAgent];
     Properties.HostedMasterProfile := None;
     Properties.CustomCloudProfile := None |}.

Definition swarmCluster : Properties.t :=
  {| Properties.ClusterID := "";
     Properties.OrchestratorProfile := Some swarmProfile;
     Properties.MasterProfile := Some sampleMaster;
     Properties.AgentPoolProfiles := None;
     Properties.HostedMasterProfile := None;
     Properties.CustomCloudProfile := None |}.

Definition selfHostedCustomVNET : Properties.t :=
  {| Properties.ClusterID := "";
     Properties.OrchestratorProfile := Some kubernetesProfile;
     Properties.MasterProfile := Some customVNETMaster;
     Properties.AgentPoolProfiles := None;
     Properties.HostedMasterProfile := None;
     Properties.CustomCloudProfile := None |}.

Definition hostedCustomVNET : Properties.t :=
  {| Properties.ClusterID := "";
     Properties.OrchestratorProfile := Some kubernetesProfile;
     Properties.MasterProfile := None;
     Properties.AgentPoolProfiles := Some [customVNETAgent];
     Properties.HostedMasterProfile :=
       Some {| HostedMasterProfile.DNSPrefix := "blueorange" |};
     Properties.CustomCloudProfile := None |}.

(** A subnet ID cut after the virtual network: it has segments 0 to 8. *)
Definition shortSubnetID : string :=
  "/subscriptions/SUB/resourceGroups/RG/providers/Microsoft.Network/virtualNetworks/VNET".

Definition shortIDMaster : MasterProfile.t :=
  {| MasterProfile.DNSPrefix := "blueorange";
     MasterProfile.VnetSubnetID := shortSubnetID;
     MasterProfile.AvailabilityProfile := AvailabilitySet |}.

Definition shortIDCluster : Properties.t :=
  {| Properties.ClusterID := "";
     Properties.OrchestratorProfile := Some kubernetesProfile;
     Properties.MasterProfile := Some shortIDMaster;
     Properties.AgentPoolProfiles := None;
     Properties.HostedMasterProfile := None;
     Properties.CustomCloudProfile := None |}.

Definition presetCluster : Properties.t :=
  {| Properties.ClusterID := "abc";
     Properties.OrchestratorProfile := Some kubernetesProfile;
     Properties.MasterProfile := Some sampleMaster;
     Properties.AgentPoolProfiles := None;
     Properties.HostedMasterProfile := None;
     Properties.CustomCloudProfile := None |}.

(** Stand-ins for the unmodelled IPv6 routines, used where a closed term is
    needed: a parser that accepts nothing, a printer that prints nothing. *)
Definition noIPv6 (s : string) : option (list Z) := None.
Definition blankIPv6 (ip : list Z) : string := "".

(** Two goroutines call [GetClusterID] on [selfHostedCluster].  In
    [bothLocked] each runs up to its own [mutex.Lock()]; [bothReturn] lets
    each finish. *)
Definition bothLocked : list nat := [0; 0; 0; 0; 1; 1; 1; 1].
Definition bothReturn : list nat := bothLocked ++ [0; 0; 0; 1; 1; 1].

(** The custom cloud profile of [TestConvertAzureEnvironmentSpecConfigToVLabs],
    with a second OS image entry of its own in place of the package-level
    [AKSUbuntu1604OSImageConfig]. *)
Definition testSpecConfig : AzureEnvironmentSpecConfig.t :=
  {| AzureEnvironmentSpecConfig.CloudName := "AzureStackCloud";
     AzureEnvironmentSpecConfig.DockerSpecConfig :=
       {| DockerSpecConfig.DockerEngineRepo := "DockerEngineRepo";
          DockerSpecConfig.DockerComposeDownloadURL := "DockerComposeDownloadURL" |};
     AzureEnvironmentSpecConfig.KubernetesSpecConfig :=
       {| KubernetesSpecConfig.KubernetesImageBase := "KubernetesImageBase";
          KubernetesSpecConfig.TillerImageBase := "TillerImageBase";
          KubernetesSpecConfig.ACIConnectorImageBase := "ACIConnectorImageBase";
          KubernetesSpecConfig.NVIDIAImageBase := "NVIDIAImageBase";
          KubernetesSpecConfig.AzureCNIImageBase := "AzureCNIImageBase";
          KubernetesSpecConfig.CalicoImageBase := "CalicoImageBase";
          KubernetesSpecConfig.EtcdDownloadURLBase := "EtcdDownloadURLBase";
          KubernetesSpecConfig.KubeBinariesSASURLBase := "KubeBinariesSASURLBase";
          KubernetesSpecConfig.WindowsTelemetryGUID := "WindowsTelemetryGUID";
          KubernetesSpecConfig.CNIPluginsDownloadURL := "CNIPluginsDownloadURL";
          KubernetesSpecConfig.VnetCNILinuxPluginsDownloadURL :=
            "VnetCNILinuxPluginsDownloadURL";
          KubernetesSpecConfig.VnetCNIWindowsPluginsDownloadURL :=
            "VnetCNIWindowsPluginsDownloadURL";
          KubernetesSpecConfig.ContainerdDownloadURLBase :=
            "ContainerdDownloadURLBase" |};
     AzureEnvironmentSpecConfig.DCOSSpecConfig :=
       {| DCOSSpecConfig.DCOS188BootstrapDownloadURL := "DCOS188BootstrapDownloadURL";
          DCOSSpecConfig.DCOS190BootstrapDownloadURL := "DCOS190BootstrapDownloadURL";
          DCOSSpecConfig.DCOS198BootstrapDownloadURL := "DCOS198BootstrapDownloadURL";
          DCOSSpecConfig.DCOS110BootstrapDownloadURL := "DCOS110BootstrapDownloadURL";
          DCOSSpecConfig.DCOS111BootstrapDownloadURL := "DCOS111BootstrapDownloadURL";
          DCOSSpecConfig.DCOSWindowsBootstrapDownloadURL :=
            "DCOSWindowsBootstrapDownloadURL";
          DCOSSpecConfig.DcosRepositoryURL := "DcosRepositoryURL";
          DCOSSpecConfig.DcosClusterPackageListID := "DcosClusterPackageListID";
          DCOSSpecConfig.DcosProviderPackageID := "DcosProviderPackageID" |};
     AzureEnvironmentSpecConfig.EndpointConfig :=
       {| AzureEndpointConfig.ResourceManagerVMDNSSuffix :=
            "ResourceManagerVMDNSSuffix" |};
     AzureEnvironmentSpecConfig.OSImageConfig :=
       <[ ("Test" : Distro) :=
            {| AzureOSImageConfig.ImageOffer := "ImageOffer";
               AzureOSImageConfig.ImageSku := "ImageSku";
               AzureOSImageConfig.ImagePublisher := "ImagePublisher";
               AzureOSImageConfig.ImageVersion := "ImageVersion" |} ]>
       (<[ AKSUbuntu1604 :=
            {| AzureOSImageConfig.ImageOffer := "aks";
               AzureOSImageConfig.ImageSku := "aks-ubuntu-1604";
               AzureOSImageConfig.ImagePublisher := "microsoft-aks";
               AzureOSImageConfig.ImageVersion := "latest" |} ]> ∅) |}.

Definition testCustomCloud : CustomCloudProfile.t :=
  {| CustomCloudProfile.AzureEnvironmentSpecConfig := Some testSpecConfig;
     CustomCloudProfile.IdentitySystem := "adfs";
     CustomCloudProfile.AuthenticationMethod := "client_certificate" |}.

Definition testProperties : Properties.t :=
  {| Properties.ClusterID := "";
     Properties.OrchestratorProfile := None;
     Properties.MasterProfile := None;
     Properties.AgentPoolProfiles := None;
     Properties.HostedMasterProfile := None;
     Properties.CustomCloudProfile := Some testCustomCloud |}.

Definition testContainerService : ContainerService.t :=
  {| ContainerService.ID := "";
     ContainerService.Location := "";
     ContainerService.Name := "";
     ContainerService.Properties := Some testProperties |}.





(** * Further methods of [Properties] and of the profiles *)

From stdpp Require sorting.

Notation "x <- m ;;; k" := (mbind m (fun x => k))
  (at level 100, m at next level, k at level 200, right associativity).

(** ** Addon names (const.go) *)

Definition AADPodIdentityAddonName : string := "aad-pod-identity".
Definition AppGwIngressAddonName : string := "appgw-ingress".
Definition ClusterAutoscalerAddonName : string := "cluster-autoscaler".
Definition ReschedulerAddonName : string := "rescheduler".
Definition NVIDIADevicePluginAddonName : string := "nvidia-device-plugin".
Definition IPMASQAgentAddonName : string := "ip-masq-agent".

(** ** Agent pools *)

Module Agent.

(** [func (a *AgentPoolProfile) IsWindows() bool] *)
Definition IsWindows (a : AgentPoolProfile.t) : bool :=
  String.eqb (AgentPoolProfile.OSType a) Windows.

(** [func (a *AgentPoolProfile) IsLinux() bool] *)
Definition IsLinux (a : AgentPoolProfile.t) : bool :=
  String.eqb (AgentPoolProfile.OSType a) Linux.

(** [func (a *AgentPoolProfile) IsAvailabilitySets() bool] *)
Definition IsAvailabilitySets (a : AgentPoolProfile.t) : bool :=
  String.eqb (AgentPoolProfile.AvailabilityProfile a) AvailabilitySet.

(** [func (a *AgentPoolProfile) IsVirtualMachineScaleSets() bool] *)
Definition IsVirtualMachineScaleSets (a : AgentPoolProfile.t) : bool :=
  String.eqb (AgentPoolProfile.AvailabilityProfile a) VirtualMachineScaleSets.

End Agent.

(** [for _, x := range l { if f(x) { return true } }; return false] *)
Fixpoint rangeAny {A : Type} (f : A -> bool) (l : list A) : bool :=
  match l with
  | [] => false
  | x :: rest => if f x then true else rangeAny f rest
  end.

(** [func (p *Properties) HasVMSSAgentPool() bool] *)
Definition HasVMSSAgentPool (p : Properties.t) : bool :=
  rangeAny (fun agentPoolProfile =>
              String.eqb (AgentPoolProfile.AvailabilityProfile agentPoolProfile)
                VirtualMachineScaleSets)
           (pools p).

(** [func (p *Properties) AnyAgentUsesVirtualMachineScaleSets() bool] *)
Definition AnyAgentUsesVirtualMachineScaleSets (p : Properties.t) : bool :=
  rangeAny Agent.IsVirtualMachineScaleSets (pools p).

(** [func (p *Properties) AnyAgentUsesAvailabilitySets() bool] *)
Definition AnyAgentUsesAvailabilitySets (p : Properties.t) : bool :=
  rangeAny Agent.IsAvailabilitySets (pools p).

(** [func (p *Properties) AnyAgentIsLinux() bool] *)
Definition AnyAgentIsLinux (p : Properties.t) : bool :=
  rangeAny Agent.IsLinux (pools p).

(** [func (p *Properties) GetAgentPoolIndexByName(name string) int]: the
    loop stops at the first pool of that name; [index] stays -1 otherwise. *)
Fixpoint indexOfName (name : string) (l : list AgentPoolProfile.t) (i : Z) : Z :=
  match l with
  | [] => (-1)%Z
  | profile :: rest =>
      if String.eqb (AgentPoolProfile.Name profile) name then i
      else indexOfName name rest (i + 1)%Z
  end.

Definition GetAgentPoolIndexByName (p : Properties.t) (name : string) : Z :=
  indexOfName name (pools p) 0%Z.

(** [func (p *Properties) GetPrimaryAvailabilitySetName() string] *)
Definition GetPrimaryAvailabilitySetName (randUint32 : Z -> Z) : Method string :=
  fun p =>
    match pools p with
    | first :: _ =>
        if String.eqb (AgentPoolProfile.AvailabilityProfile first) AvailabilitySet
        then (id <- clusterID randUint32 ;;;
              mret (AgentPoolProfile.Name first +:+ "-availabilitySet-" +:+ id)%string) p
        else mret EmptyString p
    | [] => mret EmptyString p
    end.

(** ** Addons *)

(** [func (k *KubernetesConfig) GetAddonScript(addonName string) string] *)
Definition GetAddonScript (k : KubernetesConfig.t) (addonName : string) : string :=
  let kubeAddon := GetAddonByName k addonName in
  KubernetesAddon.Data kubeAddon.

(** [func (k *KubernetesConfig) IsAADPodIdentityEnabled() bool] and its
    siblings. *)
Definition IsAADPodIdentityEnabled (k : KubernetesConfig.t) : bool :=
  IsAddonEnabled k AADPodIdentityAddonName.

Definition IsClusterAutoscalerEnabled (k : KubernetesConfig.t) : bool :=
  IsAddonEnabled k ClusterAutoscalerAddonName.

Definition IsAppGWIngressEnabled (k : KubernetesConfig.t) : bool :=
  IsAddonEnabled k AppGwIngressAddonName.

Definition IsReschedulerEnabled (k : KubernetesConfig.t) : bool :=
  IsAddonEnabled k ReschedulerAddonName.

(** [func (p *Properties) IsNVIDIADevicePluginEnabled() bool] *)
Definition IsNVIDIADevicePluginEnabled (p : Properties.t) : bool :=
  match Properties.OrchestratorProfile p with
  | None => false
  | Some o =>
      match OrchestratorProfile.KubernetesConfig o with
      | None => false
      | Some k => IsAddonEnabled k NVIDIADevicePluginAddonName
      end
  end.

(** ** Predicates used to state properties *)

(** No byte of the string is a slash. *)
Fixpoint noSlash (s : string) : bool :=
  match s with
  | EmptyString => true
  | String c rest => negb (Ascii.eqb c "/"%char) && noSlash rest
  end.

(** ** Sample inputs of the further properties *)


(** * The structs with the further fields the remaining methods read

    The records of the first part keep the fields its methods touch.  The
    records below describe the same Go structs with more of their fields;
    each comes with the function [forget] onto the smaller record, through
    which the methods of the first part apply to it. *)

(** ** More constants (const.go) *)

Definition Ubuntu : Distro := "ubuntu".
Definition Ubuntu1804 : Distro := "ubuntu-18.04".
Definition RHEL : Distro := "rhel".
Definition CoreOS : Distro := "coreos".
Definition ACC1604 : Distro := "acc-16.04".

Definition StorageAccount : string := "StorageAccount".
Definition ManagedDisks : string := "ManagedDisks".
Definition Ephemeral : string := "Ephemeral".
Definition ScaleSetPriorityLow : string := "Low".

Definition NetworkPluginAzure : string := "azure".
Definition NetworkPolicyCilium : string := "cilium".
Definition DefaultVNETCIDR : string := "10.0.0.0/8".
Definition DefaultCNICIDR : string := "168.63.129.16/32".

(** [for _, x := range l { if !f(x) { return false } }], the value being
    whether the loop ran to its end. *)
Fixpoint rangeAll {A : Type} (f : A -> bool) (l : list A) : bool :=
  match l with
  | [] => true
  | x :: rest => if negb (f x) then false else rangeAll f rest
  end.

(** ** Feature flags *)

Module FeatureFlags.
Record t : Type := mk {
  EnableCSERunInBackground : bool;
  BlockOutboundInternet : bool;
  EnableIPv6DualStack : bool
}.

(** [func (f *FeatureFlags) IsFeatureEnabled(feature string) bool]; the
    receiver may be nil. *)
Definition IsFeatureEnabled (f : option t) (feature : string) : bool :=
  match f with
  | Some f =>
      if String.eqb feature "CSERunInBackground" then EnableCSERunInBackground f
      else if String.eqb feature "BlockOutboundInternet" then BlockOutboundInternet f
      else if String.eqb feature "EnableIPv6DualStack" then EnableIPv6DualStack f
      else false
  | None => false
  end.
End FeatureFlags.

(** ** Kubernetes configuration *)

Module PrivateJumpboxProfile.
Record t : Type := mk {
  StorageProfile : string
}.
End PrivateJumpboxProfile.

Module PrivateCluster.
Record t : Type := mk {
  Enabled : option bool;
  JumpboxProfile : option PrivateJumpboxProfile.t
}.
End PrivateCluster.

Module FullKubernetesConfig.
Record t : Type := mk {
  ClusterSubnet : string;
  NetworkPolicy : string;
  NetworkPlugin : string;
  UseManagedIdentity : bool;
  UserAssignedID : string;
  UserAssignedClientID : string;
  EnableRbac : option bool;
  PrivateCluster : option PrivateCluster.t;
  Addons : list KubernetesAddon.t;
  KubeletConfig : gmap string string
}.

Definition forget (k : t) : KubernetesConfig.t :=
  {| KubernetesConfig.Addons := Addons k |}.

(** [func (k *KubernetesConfig) IsIPMasqAgentEnabled() bool] *)
Definition IsIPMasqAgentEnabled (k : t) : bool :=
  IsAddonEnabled (forget k) IPMASQAgentAddonName.

(** [func (k *KubernetesConfig) IsRBACEnabled() bool] *)
Definition IsRBACEnabled (k : t) : bool :=
  match EnableRbac k with
  | Some b => b
  | None => false
  end.

(** [func (k *KubernetesConfig) UserAssignedIDEnabled() bool] *)
Definition UserAssignedIDEnabled (k : t) : bool :=
  UseManagedIdentity k && negb (String.eqb (UserAssignedID k) EmptyString).

(** [func (k *KubernetesConfig) UserAssignedClientIDEnabled() bool] *)
Definition UserAssignedClientIDEnabled (k : t) : bool :=
  UseManagedIdentity k && negb (String.eqb (UserAssignedClientID k) EmptyString).

(** [func (k *KubernetesConfig) GetUserAssignedID() string] *)
Definition GetUserAssignedID (k : t) : string :=
  if UserAssignedIDEnabled k then UserAssignedID k else EmptyString.

(** [func (k *KubernetesConfig) GetUserAssignedClientID() string] *)
Definition GetUserAssignedClientID (k : t) : string :=
  if UserAssignedClientIDEnabled k then UserAssignedClientID k else EmptyString.

(** [func (k *KubernetesConfig) PrivateJumpboxProvision() bool]; the
    receiver may be nil, and [*k.PrivateCluster.Enabled] reads through a
    pointer that is not checked. *)
Definition PrivateJumpboxProvision (k : option t) : result bool :=
  match k with
  | None => Ret false
  | Some k =>
      match PrivateCluster k with
      | None => Ret false
      | Some pc =>
          match PrivateCluster.Enabled pc with
          | None => Panic NilDereference
          | Some enabled =>
              if enabled then
                match PrivateCluster.JumpboxProfile pc with
                | Some _ => Ret true
                | None => Ret false
                end
              else Ret false
          end
      end
  end.

(** [sort.Strings]: the keys in increasing byte-wise order. *)
Definition stringLe (a b : string) : Prop := String.leb a b = true.

#[global] Instance stringLe_dec (a b : string) : Decision (stringLe a b).
Proof. unfold stringLe. apply _. Defined.

Definition sortStrings (keys : list string) : list string :=
  sorting.merge_sort stringLe keys.

(** [m[key]] on a Go map: the zero value for a missing key. *)
Definition mapIndex (m : gmap string string) (key : string) : string :=
  default EmptyString (m !! key).

(** The two loops after the keys have been collected: sort, then write
    [key=value ] for each key. *)
Definition writeKubeletConfig (m : gmap string string) (keys : list string)
  : string :=
  foldl (fun buf key => (buf +:+ (key +:+ "=" +:+ mapIndex m key +:+ " "))%string)
        EmptyString (sortStrings keys).

(** The order in which [range] visits a map is not specified; this is one
    order, and the properties of the method are stated for every order. *)
Definition rangeKeys (m : gmap string string) : list string :=
  (map_to_list m).*1.

(** [func (k *KubernetesConfig) GetOrderedKubeletConfigString() string] *)
Definition GetOrderedKubeletConfigString (k : t) : string :=
  writeKubeletConfig (KubeletConfig k) (rangeKeys (KubeletConfig k)).

(** [strings.TrimSuffix(s, suffix)] *)
Definition TrimSuffix (s suffix : string) : string :=
  let n := String.length s in
  let k := String.length suffix in
  if (k <=? n)%nat && String.eqb (substring (n - k) k s) suffix
  then substring 0 (n - k) s
  else s.

(** The one-character string holding a double quote. *)
Definition doubleQuote : string := String (ascii_of_nat 34) EmptyString.

(** The second loop of the Powershell variant: [key=value] between double
    quotes, followed by a comma and a space, for each key. *)
Definition writeKubeletConfigForPowershell (m : gmap string string)
  (keys : list string) : string :=
  foldl (fun buf key =>
           (buf +:+ (doubleQuote +:+ key +:+ "=" +:+ mapIndex m key
                     +:+ doubleQuote +:+ ", "))%string)
        EmptyString (sortStrings keys).

(** [func (k *KubernetesConfig) GetOrderedKubeletConfigStringForPowershell() string] *)
Definition GetOrderedKubeletConfigStringForPowershell (k : t) : string :=
  TrimSuffix (writeKubeletConfigForPowershell (KubeletConfig k)
                (rangeKeys (KubeletConfig k))) ", ".

End FullKubernetesConfig.

(** One entry of the Powershell list: [key=value] between double quotes. *)
Definition doubleQuoteOf (key value : string) : string :=
  (FullKubernetesConfig.doubleQuote +:+ key +:+ "=" +:+ value
   +:+ FullKubernetesConfig.doubleQuote)%string.

(** ** Orchestrator profile *)

Module FullOrchestratorProfile.
Record t : Type := mk {
  OrchestratorType : string;
  OrchestratorVersion : string;
  KubernetesConfig : option FullKubernetesConfig.t
}.

Definition forget (o : t) : OrchestratorProfile.t :=
  {| OrchestratorProfile.OrchestratorType := OrchestratorType o;
     OrchestratorProfile.OrchestratorVersion := OrchestratorVersion o;
     OrchestratorProfile.KubernetesConfig :=
       option_map FullKubernetesConfig.forget (KubernetesConfig o) |}.

(** [func (o *OrchestratorProfile) IsSwarmMode() bool] *)
Definition IsSwarmMode (o : t) : bool := String.eqb (OrchestratorType o) SwarmMode.

(** [func (o *OrchestratorProfile) IsDCOS() bool] *)
Definition IsDCOS (o : t) : bool := String.eqb (OrchestratorType o) DCOS.

(** [func (o *OrchestratorProfile) IsAzureCNI() bool] *)
Definition IsAzureCNI (o : t) : bool :=
  match KubernetesConfig o with
  | Some k => String.eqb (FullKubernetesConfig.NetworkPlugin k) NetworkPluginAzure
  | None => false
  end.

(** [func (o *OrchestratorProfile) RequireRouteTable() bool]; the policy and
    the plugin are read through [o.KubernetesConfig] without a nil check. *)
Definition RequireRouteTable (o : t) : result bool :=
  if String.eqb (OrchestratorType o) Kubernetes then
    if IsAzureCNI o then Ret false
    else
      match KubernetesConfig o with
      | None => Panic NilDereference
      | Some k =>
          if String.eqb NetworkPolicyCilium (FullKubernetesConfig.NetworkPolicy k)
             || String.eqb "flannel" (FullKubernetesConfig.NetworkPlugin k)
          then Ret false
          else Ret true
      end
  else Ret false.

(** [func (o *OrchestratorProfile) IsPrivateCluster() bool]; [to.Bool] of a
    nil pointer is [false]. *)
Definition IsPrivateCluster (o : t) : bool :=
  if negb (IsKubernetes (forget o)) then false
  else
    match KubernetesConfig o with
    | None => false
    | Some k =>
        match FullKubernetesConfig.PrivateCluster k with
        | None => false
        | Some pc => default false (PrivateCluster.Enabled pc)
        end
    end.
End FullOrchestratorProfile.

(** ** Master profile *)

Module FullMasterProfile.
Record t : Type := mk {
  Count : Z;
  DNSPrefix : string;
  VnetSubnetID : string;
  VnetCidr : string;
  StorageProfile : string;
  Distro : Distro;
  AvailabilityProfile : string;
  AvailabilityZones : option (list string);
  FQDN : string
}.

Definition forget (m : t) : MasterProfile.t :=
  {| MasterProfile.DNSPrefix := DNSPrefix m;
     MasterProfile.VnetSubnetID := VnetSubnetID m;
     MasterProfile.AvailabilityProfile := AvailabilityProfile m |}.

(** [func (m *MasterProfile) IsManagedDisks() bool] *)
Definition IsManagedDisks (m : t) : bool := String.eqb (StorageProfile m) ManagedDisks.

(** [func (m *MasterProfile) IsStorageAccount() bool] *)
Definition IsStorageAccount (m : t) : bool := String.eqb (StorageProfile m) StorageAccount.

(** [func (m *MasterProfile) IsRHEL() bool] *)
Definition IsRHEL (m : t) : bool := String.eqb (Distro m) RHEL.

(** [func (m *MasterProfile) IsCoreOS() bool] *)
Definition IsCoreOS (m : t) : bool := String.eqb (Distro m) CoreOS.

(** [func (m *MasterProfile) IsVHDDistro() bool] *)
Definition IsVHDDistro (m : t) : bool :=
  String.eqb (Distro m) AKSUbuntu1604 || String.eqb (Distro m) AKSUbuntu1804.

(** [func (m *MasterProfile) HasAvailabilityZones() bool] *)
Definition HasAvailabilityZones (m : t) : bool :=
  match AvailabilityZones m with
  | Some zones => (0 <? length zones)%nat
  | None => false
  end.

(** [func (m *MasterProfile) IsUbuntu1604() bool] *)
Definition IsUbuntu1604 (m : t) : bool :=
  String.eqb (Distro m) AKSUbuntu1604 || String.eqb (Distro m) Ubuntu
  || String.eqb (Distro m) ACC1604.

(** [func (m *MasterProfile) IsUbuntu1804() bool] *)
Definition IsUbuntu1804 (m : t) : bool :=
  String.eqb (Distro m) AKSUbuntu1804 || String.eqb (Distro m) Ubuntu1804.

(** [func (m *MasterProfile) IsUbuntu() bool] *)
Definition IsUbuntu (m : t) : bool := IsUbuntu1604 m || IsUbuntu1804 m.

(** [func (m *MasterProfile) IsUbuntuNonVHD() bool] *)
Definition IsUbuntuNonVHD (m : t) : bool := IsUbuntu m && negb (IsVHDDistro m).

(** [func (m *MasterProfile) HasMultipleNodes() bool] *)
Definition HasMultipleNodes (m : t) : bool := (1 <? Count m)%Z.
End FullMasterProfile.

(** ** Agent pool profile *)

Module FullAgentPoolProfile.
Record t : Type := mk {
  Name : string;
  Count : Z;
  VMSize : string;
  OSType : OSType;
  AvailabilityProfile : string;
  ScaleSetPriority : string;
  StorageProfile : string;
  DiskSizesGB : list Z;
  VnetSubnetID : string;
  Distro : Distro;
  AvailabilityZones : option (list string);
  WindowsNameVersion : string
}.

Definition forget (a : t) : AgentPoolProfile.t :=
  {| AgentPoolProfile.Name := Name a;
     AgentPoolProfile.OSType := OSType a;
     AgentPoolProfile.AvailabilityProfile := AvailabilityProfile a;
     AgentPoolProfile.VnetSubnetID := VnetSubnetID a |}.

(** [func (a *AgentPoolProfile) IsRHEL() bool] *)
Definition IsRHEL (a : t) : bool :=
  String.eqb (OSType a) Linux && String.eqb (Distro a) RHEL.

(** [func (a *AgentPoolProfile) IsCoreOS() bool] *)
Definition IsCoreOS (a : t) : bool :=
  String.eqb (OSType a) Linux && String.eqb (Distro a) CoreOS.

(** [func (a *AgentPoolProfile) IsVHDDistro() bool] *)
Definition IsVHDDistro (a : t) : bool :=
  String.eqb (Distro a) AKSUbuntu1604 || String.eqb (Distro a) AKSUbuntu1804.

(** [func (a *AgentPoolProfile) IsLowPriorityScaleSet() bool] *)
Definition IsLowPriorityScaleSet (a : t) : bool :=
  String.eqb (AvailabilityProfile a) VirtualMachineScaleSets
  && String.eqb (ScaleSetPriority a) ScaleSetPriorityLow.

(** [func (a *AgentPoolProfile) IsManagedDisks() bool] *)
Definition IsManagedDisks (a : t) : bool := String.eqb (StorageProfile a) ManagedDisks.

(** [func (a *AgentPoolProfile) IsStorageAccount() bool] *)
Definition IsStorageAccount (a : t) : bool := String.eqb (StorageProfile a) StorageAccount.

(** [func (a *AgentPoolProfile) IsEphemeral() bool] *)
Definition IsEphemeral (a : t) : bool := String.eqb (StorageProfile a) Ephemeral.

(** [func (a *AgentPoolProfile) HasDisks() bool] *)
Definition HasDisks (a : t) : bool := (0 <? length (DiskSizesGB a))%nat.

(** [func (a *AgentPoolProfile) HasAvailabilityZones() bool] *)
Definition HasAvailabilityZones (a : t) : bool :=
  match AvailabilityZones a with
  | Some zones => (0 <? length zones)%nat
  | None => false
  end.

(** [func (a *AgentPoolProfile) IsUbuntu1604() bool] *)
Definition IsUbuntu1604 (a : t) : bool :=
  if negb (String.eqb (OSType a) Windows) then
    String.eqb (Distro a) AKSUbuntu1604 || String.eqb (Distro a) Ubuntu
    || String.eqb (Distro a) ACC1604
  else false.

(** [func (a *AgentPoolProfile) IsUbuntu1804() bool] *)
Definition IsUbuntu1804 (a : t) : bool :=
  if negb (String.eqb (OSType a) Windows) then
    String.eqb (Distro a) AKSUbuntu1804 || String.eqb (Distro a) Ubuntu1804
  else false.

(** [func (a *AgentPoolProfile) IsUbuntu() bool] *)
Definition IsUbuntu (a : t) : bool := IsUbuntu1604 a || IsUbuntu1804 a.

(** [func (a *AgentPoolProfile) IsUbuntuNonVHD() bool] *)
Definition IsUbuntuNonVHD (a : t) : bool := IsUbuntu a && negb (IsVHDDistro a).
End FullAgentPoolProfile.

(** ** Hosted master profile *)

Module FullHostedMasterProfile.
Record t : Type := mk {
  FQDN : string;
  DNSPrefix : string;
  IPMasqAgent : bool
}.

Definition forget (h : t) : HostedMasterProfile.t :=
  {| HostedMasterProfile.DNSPrefix := DNSPrefix h |}.
End FullHostedMasterProfile.

(** ** Properties *)

Module ClusterMetadata.
Record t : Type := mk {
  SubnetName : string;
  VNetResourceGroupName : string;
  VirtualNetworkName : string;
  SecurityGroupName : string;
  RouteTableName : string;
  PrimaryAvailabilitySetName : string;
  PrimaryScaleSetName : string;
  ResourcePrefix : string
}.
End ClusterMetadata.

Module FullProperties.
Record t : Type := mk {
  ClusterID : string;
  OrchestratorProfile : option FullOrchestratorProfile.t;
  MasterProfile : option FullMasterProfile.t;
  AgentPoolProfiles : option (list FullAgentPoolProfile.t);
  HostedMasterProfile : option FullHostedMasterProfile.t;
  CustomCloudProfile : option CustomCloudProfile.t;
  FeatureFlags : option FeatureFlags.t
}.

Definition forget (p : t) : Properties.t :=
  {| Properties.ClusterID := ClusterID p;
     Properties.OrchestratorProfile :=
       option_map FullOrchestratorProfile.forget (OrchestratorProfile p);
     Properties.MasterProfile := option_map FullMasterProfile.forget (MasterProfile p);
     Properties.AgentPoolProfiles :=
       option_map (map FullAgentPoolProfile.forget) (AgentPoolProfiles p);
     Properties.HostedMasterProfile :=
       option_map FullHostedMasterProfile.forget (HostedMasterProfile p);
     Properties.CustomCloudProfile := CustomCloudProfile p |}.

Definition setClusterID (p : t) (id : string) : t :=
  {| ClusterID := id;
     OrchestratorProfile := OrchestratorProfile p;
     MasterProfile := MasterProfile p;
     AgentPoolProfiles := AgentPoolProfiles p;
     HostedMasterProfile := HostedMasterProfile p;
     CustomCloudProfile := CustomCloudProfile p;
     FeatureFlags := FeatureFlags p |}.

(** The agent pools a [range] loop visits. *)
Definition pools (p : t) : list FullAgentPoolProfile.t :=
  default [] (AgentPoolProfiles p).

(** [func (p *Properties) HasCoreOS() bool] *)
Definition HasCoreOS (p : t) : bool :=
  rangeAny (fun a => String.eqb (FullAgentPoolProfile.Distro a) CoreOS) (pools p).

(** The last condition of [HasManagedDisks] and [HasStorageAccountDisks],
    for the storage profile each of them names: the jumpbox of a private
    cluster uses it. *)
Definition jumpboxStorageIs (storage : string) (p : t) : result bool :=
  match OrchestratorProfile p with
  | None => Ret false
  | Some o =>
      match FullOrchestratorProfile.KubernetesConfig o with
      | None => Ret false
      | Some k =>
          provision <~ FullKubernetesConfig.PrivateJumpboxProvision (Some k) ;;
          if provision : bool then
            match FullKubernetesConfig.PrivateCluster k with
            | None => Panic NilDereference
            | Some pc =>
                match PrivateCluster.JumpboxProfile pc with
                | None => Panic NilDereference
                | Some j =>
                    Ret (String.eqb (PrivateJumpboxProfile.StorageProfile j) storage)
                end
            end
          else Ret false
      end
  end.

(** [func (p *Properties) HasManagedDisks() bool] *)
Definition HasManagedDisks (p : t) : result bool :=
  if match MasterProfile p with
     | Some m => String.eqb (FullMasterProfile.StorageProfile m) ManagedDisks
     | None => false
     end
  then Ret true
  else if rangeAny (fun a => String.eqb (FullAgentPoolProfile.StorageProfile a) ManagedDisks)
                   (pools p)
  then Ret true
  else
    jumpbox <~ jumpboxStorageIs ManagedDisks p ;;
    if jumpbox : bool then Ret true else Ret false.

(** [func (p *Properties) HasStorageAccountDisks() bool] *)
Definition HasStorageAccountDisks (p : t) : result bool :=
  if match MasterProfile p with
     | Some m => String.eqb (FullMasterProfile.StorageProfile m) StorageAccount
     | None => false
     end
  then Ret true
  else if rangeAny (fun a => String.eqb (FullAgentPoolProfile.StorageProfile a) StorageAccount)
                   (pools p)
  then Ret true
  else
    jumpbox <~ jumpboxStorageIs StorageAccount p ;;
    if jumpbox : bool then Ret true else Ret false.

(** [func (p *Properties) HasEphemeralDisks() bool] *)
Definition HasEphemeralDisks (p : t) : bool :=
  rangeAny (fun a => String.eqb (FullAgentPoolProfile.StorageProfile a) Ephemeral) (pools p).

(** [func (p *Properties) IsIPMasqAgentEnabled() bool] *)
Definition IsIPMasqAgentEnabled (p : t) : result bool :=
  match HostedMasterProfile p with
  | Some h => Ret (FullHostedMasterProfile.IPMasqAgent h)
  | None =>
      match OrchestratorProfile p with
      | None => Panic NilDereference
      | Some o =>
          match FullOrchestratorProfile.KubernetesConfig o with
          | None => Panic NilDereference
          | Some k => Ret (FullKubernetesConfig.IsIPMasqAgentEnabled k)
          end
      end
  end.

(** [func (p *Properties) HasZonesForAllAgentPools() bool] *)
Definition HasZonesForAllAgentPools (p : t) : bool :=
  if (0 <? length (pools p))%nat
  then rangeAll FullAgentPoolProfile.HasAvailabilityZones (pools p)
  else false.

(** [func (p *Properties) IsVHDDistroForAllNodes() bool] *)
Definition IsVHDDistroForAllNodes (p : t) : bool :=
  if negb (rangeAll FullAgentPoolProfile.IsVHDDistro (pools p)) then false
  else match MasterProfile p with
       | Some m => FullMasterProfile.IsVHDDistro m
       | None => true
       end.

(** [func (p *Properties) IsUbuntuDistroForAllNodes() bool] *)
Definition IsUbuntuDistroForAllNodes (p : t) : bool :=
  if negb (rangeAll
             (fun ap => negb (negb (String.eqb (FullAgentPoolProfile.Distro ap) Ubuntu)
                              && negb (String.eqb (FullAgentPoolProfile.Distro ap) Ubuntu1804)))
             (pools p))
  then false
  else match MasterProfile p with
       | Some m => String.eqb (FullMasterProfile.Distro m) Ubuntu
                   || String.eqb (FullMasterProfile.Distro m) Ubuntu1804
       | None => true
       end.

(** [func (p *Properties) HasUbuntuDistroNodes() bool] *)
Definition HasUbuntuDistroNodes (p : t) : bool :=
  if rangeAny (fun ap => String.eqb (FullAgentPoolProfile.Distro ap) Ubuntu
                         || String.eqb (FullAgentPoolProfile.Distro ap) Ubuntu1804)
              (pools p)
  then true
  else match MasterProfile p with
       | Some m => String.eqb (FullMasterProfile.Distro m) Ubuntu
                   || String.eqb (FullMasterProfile.Distro m) Ubuntu1804
       | None => false
       end.

(** [func (p *Properties) HasUbuntu1604DistroNodes() bool] *)
Definition HasUbuntu1604DistroNodes (p : t) : bool :=
  if rangeAny (fun ap => String.eqb (FullAgentPoolProfile.Distro ap) Ubuntu) (pools p)
  then true
  else match MasterProfile p with
       | Some m => String.eqb (FullMasterProfile.Distro m) Ubuntu
       | None => false
       end.

(** [func (p *Properties) HasUbuntu1804DistroNodes() bool] *)
Definition HasUbuntu1804DistroNodes (p : t) : bool :=
  if rangeAny (fun ap => String.eqb (FullAgentPoolProfile.Distro ap) Ubuntu1804) (pools p)
  then true
  else match MasterProfile p with
       | Some m => String.eqb (FullMasterProfile.Distro m) Ubuntu1804
       | None => false
       end.

(** [func (p *Properties) HasAvailabilityZones() bool] *)
Definition HasAvailabilityZones (p : t) : bool :=
  let hasZones := match MasterProfile p with
                  | Some m => FullMasterProfile.HasAvailabilityZones m
                  | None => false
                  end in
  if negb hasZones
     && match AgentPoolProfiles p with Some _ => true | None => false end
  then rangeAny FullAgentPoolProfile.HasAvailabilityZones (pools p)
  else hasZones.

(** [strings.Split(s, ",")] *)
Fixpoint splitComma (s : string) : list string :=
  match s with
  | EmptyString => [EmptyString]
  | String c rest =>
      if Ascii.eqb c ","%char then EmptyString :: splitComma rest
      else match splitComma rest with
           | seg :: segs => String c seg :: segs
           | [] => [String c EmptyString]
           end
  end.

(** [func (p *Properties) GetNonMasqueradeCIDR() string] *)
Definition GetNonMasqueradeCIDR (p : t) : result string :=
  if negb (IsHostedMasterProfile (forget p)) then
    match OrchestratorProfile p with
    | None => Panic NilDereference
    | Some o =>
        if FullOrchestratorProfile.IsAzureCNI o then
          if match MasterProfile p with
             | Some m => MasterProfile.IsCustomVNET (FullMasterProfile.forget m)
             | None => false
             end
          then
            match MasterProfile p with
            | Some m => Ret (FullMasterProfile.VnetCidr m)
            | None => Panic NilDereference
            end
          else Ret DefaultVNETCIDR
        else if FeatureFlags.IsFeatureEnabled (FeatureFlags p) "EnableIPv6DualStack" then
          match FullOrchestratorProfile.KubernetesConfig o with
          | None => Panic NilDereference
          | Some k => index (splitComma (FullKubernetesConfig.ClusterSubnet k)) 0
          end
        else
          match FullOrchestratorProfile.KubernetesConfig o with
          | None => Panic NilDereference
          | Some k => Ret (FullKubernetesConfig.ClusterSubnet k)
          end
    end
  else Ret EmptyString.

(** [func (p *Properties) GetAzureCNICidr() string] *)
Definition GetAzureCNICidr (p : t) : string :=
  if match OrchestratorProfile p with
     | Some o => FullOrchestratorProfile.IsAzureCNI o
     | None => false
     end
  then DefaultCNICIDR
  else EmptyString.

(** [func (p *Properties) GetMasterFQDN() string] *)
Definition GetMasterFQDN (p : t) : result string :=
  match HostedMasterProfile p with
  | Some h => Ret (FullHostedMasterProfile.FQDN h)
  | None =>
      match MasterProfile p with
      | Some m => Ret (FullMasterProfile.FQDN m)
      | None => Panic NilDereference
      end
  end.
End FullProperties.

(** *** Methods of [Properties] that thread the receiver *)

Definition FullMethod (A : Type) : Type :=
  FullProperties.t -> result (A * FullProperties.t).

Definition fret {A : Type} (a : A) : FullMethod A := fun p => Ret (a, p).

Definition fbind {A B : Type} (m : FullMethod A) (k : A -> FullMethod B)
  : FullMethod B :=
  fun p => match m p with
           | Ret (a, p') => k a p'
           | Panic e => Panic e
           end.

Notation "x <<- m ;;; k" := (fbind m (fun x => k))
  (at level 100, m at next level, k at level 200, right associativity).

(** A method of the first part run on the larger record: the only field such
    a method assigns is [ClusterID]. *)
Definition lift {A : Type} (m : Method A) : FullMethod A :=
  fun p => match m (FullProperties.forget p) with
           | Ret (a, q) => Ret (a, FullProperties.setClusterID p (Properties.ClusterID q))
           | Panic e => Panic e
           end.

(** [s[:n]] on a string. *)
Definition slicePrefix (s : string) (n : nat) : result string :=
  if (String.length s <? n)%nat then Panic IndexOutOfRange
  else Ret (substring 0 n s).

(** [fmt.Sprintf("%02d", n)]: the sign counts in the width. *)
Definition Sprintf_02d (n : Z) : string :=
  if (n <? 0)%Z then ("-" +:+ formatDecimal (- n))%string
  else let s := formatDecimal n in (zeros (2 - String.length s) +:+ s)%string.

Section FullNaming.

Variable randUint32 : Z -> Z.

(** [func (p *Properties) GetAgentVMPrefix(a *AgentPoolProfile, index int) string],
    for a non-nil [a]; the operands of each [+] are taken from left to
    right. *)
Definition GetAgentVMPrefix (a : FullAgentPoolProfile.t) (index : Z)
  : FullMethod string :=
  nameSuffix <<- lift (clusterID randUint32) ;;;
  if negb (index =? -1)%Z then
    if Agent.IsWindows (FullAgentPoolProfile.forget a) then
      if String.eqb (FullAgentPoolProfile.WindowsNameVersion a) "v2" then
        (name <<- lift (query K8sOrchestratorName) ;;;
         fret (name +:+ FullAgentPoolProfile.Name a)%string)
      else
        (head <<- lift (query (fun _ => slicePrefix nameSuffix 4)) ;;;
         name <<- lift (query K8sOrchestratorName) ;;;
         fret (head +:+ name +:+ Sprintf_02d index)%string)
    else
      (name <<- lift (query K8sOrchestratorName) ;;;
       let vmPrefix :=
         (name +:+ "-" +:+ FullAgentPoolProfile.Name a +:+ "-" +:+ nameSuffix +:+ "-")%string in
       if Agent.IsVirtualMachineScaleSets (FullAgentPoolProfile.forget a)
       then fret (vmPrefix +:+ "vmss")%string
       else fret vmPrefix)
  else fret EmptyString.

(** [func (p *Properties) GetPrimaryScaleSetName() string] *)
Definition GetPrimaryScaleSetName : FullMethod string :=
  fun p =>
    match FullProperties.pools p with
    | first :: _ =>
        if String.eqb (FullAgentPoolProfile.AvailabilityProfile first) VirtualMachineScaleSets
        then GetAgentVMPrefix first 0 p
        else fret EmptyString p
    | [] => fret EmptyString p
    end.

(** [func (p *Properties) GetClusterMetadata() *ClusterMetadata]: the fields
    of the literal are evaluated in the order they are written. *)
Definition GetClusterMetadata : FullMethod ClusterMetadata.t :=
  subnetName <<- lift (query GetSubnetName) ;;;
  vnetResourceGroupName <<- lift (query GetVNetResourceGroupName) ;;;
  virtualNetworkName <<- lift (GetVirtualNetworkName randUint32) ;;;
  securityGroupName <<- lift (GetNSGName randUint32) ;;;
  routeTableName <<- lift (GetRouteTableName randUint32) ;;;
  primaryAvailabilitySetName <<- lift (GetPrimaryAvailabilitySetName randUint32) ;;;
  primaryScaleSetName <<- GetPrimaryScaleSetName ;;;
  resourcePrefix <<- lift (GetResourcePrefix randUint32) ;;;
  fret {| ClusterMetadata.SubnetName := subnetName;
          ClusterMetadata.VNetResourceGroupName := vnetResourceGroupName;
          ClusterMetadata.VirtualNetworkName := virtualNetworkName;
          ClusterMetadata.SecurityGroupName := securityGroupName;
          ClusterMetadata.RouteTableName := routeTableName;
          ClusterMetadata.PrimaryAvailabilitySetName := primaryAvailabilitySetName;
          ClusterMetadata.PrimaryScaleSetName := primaryScaleSetName;
          ClusterMetadata.ResourcePrefix := resourcePrefix |}.

End FullNaming.

(** The Kubernetes configuration has a private-cluster section whose
    [Enabled] pointer is nil. *)
Definition unsetPrivateClusterFlag (p : FullProperties.t) : Prop :=
  exists o k pc,
    FullProperties.OrchestratorProfile p = Some o
    /\ FullOrchestratorProfile.KubernetesConfig o = Some k
    /\ FullKubernetesConfig.PrivateCluster k = Some pc
    /\ PrivateCluster.Enabled pc = None.

(** Neither the master nor an agent pool has the storage profile. *)
Definition nobodyUses (p : FullProperties.t) (storage : string) : Prop :=
  (forall m, FullProperties.MasterProfile p = Some m ->
             FullMasterProfile.StorageProfile m <> storage)
  /\ (forall a, a ∈ FullProperties.pools p ->
                FullAgentPoolProfile.StorageProfile a <> storage).

(** A cluster without hosted master through whose orchestrator profile no
    Kubernetes configuration can be reached. *)
Definition noKubernetesConfig (p : FullProperties.t) : Prop :=
  FullProperties.HostedMasterProfile p = None
  /\ forall o, FullProperties.OrchestratorProfile p = Some o ->
               FullOrchestratorProfile.KubernetesConfig o = None.

(** What a method may do to its receiver: nothing, or assign the derived
    identifier to an empty [ClusterID]. *)
Definition onlySetsClusterID (randUint32 : Z -> Z) (q q' : Properties.t) : Prop :=
  q' = q
  \/ (Properties.ClusterID q = EmptyString
      /\ q' = Properties.setClusterID q (newClusterID randUint32 q)).

Definition frame (randUint32 : Z -> Z) {A : Type} (m : Method A) : Prop :=
  forall q a q', m q = Ret (a, q') -> onlySetsClusterID randUint32 q q'.

Definition fullOnlySetsClusterID (randUint32 : Z -> Z) (p p' : FullProperties.t)
  : Prop :=
  p' = p
  \/ (FullProperties.ClusterID p = EmptyString
      /\ p' = FullProperties.setClusterID p
                (newClusterID randUint32 (FullProperties.forget p))).

Definition fullFrame (randUint32 : Z -> Z) {A : Type} (m : FullMethod A) : Prop :=
  forall p a p', m p = Ret (a, p') -> fullOnlySetsClusterID randUint32 p p'.

(** A string without a comma. *)
Fixpoint noComma (s : string) : bool :=
  match s with
  | EmptyString => true
  | String c rest => negb (Ascii.eqb c ","%char) && noComma rest
  end.

(** ** Sample inputs for the larger records *)

Definition sampleKubeletConfig : FullKubernetesConfig.t :=
  {| FullKubernetesConfig.ClusterSubnet := "10.244.0.0/16,fc00::/48";
     FullKubernetesConfig.NetworkPolicy := "";
     FullKubernetesConfig.NetworkPlugin := "kubenet";
     FullKubernetesConfig.UseManagedIdentity := false;
     FullKubernetesConfig.UserAssignedID := "";
     FullKubernetesConfig.UserAssignedClientID := "";
     FullKubernetesConfig.EnableRbac := None;
     FullKubernetesConfig.PrivateCluster := None;
     FullKubernetesConfig.Addons := [];
     FullKubernetesConfig.KubeletConfig :=
       <["--node-status-update-frequency" := "10s"]>
         (<["--image-gc-high-threshold" := "85"]> ∅) |}.

Definition ubuntuAgent : FullAgentPoolProfile.t :=
  {| FullAgentPoolProfile.Name := "agentpool1";
     FullAgentPoolProfile.Count := 3;
     FullAgentPoolProfile.VMSize := "Standard_D2_v2";
     FullAgentPoolProfile.OSType := Linux;
     FullAgentPoolProfile.AvailabilityProfile := VirtualMachineScaleSets;
     FullAgentPoolProfile.ScaleSetPriority := "";
     FullAgentPoolProfile.StorageProfile := ManagedDisks;
     FullAgentPoolProfile.DiskSizesGB := [];
     FullAgentPoolProfile.VnetSubnetID := "";
     FullAgentPoolProfile.Distro := Ubuntu;
     FullAgentPoolProfile.AvailabilityZones := Some ["1"; "2"]%string;
     FullAgentPoolProfile.WindowsNameVersion := "" |}.

Definition vhdAgent : FullAgentPoolProfile.t :=
  {| FullAgentPoolProfile.Name := "agentpool2";
     FullAgentPoolProfile.Count := 2;
     FullAgentPoolProfile.VMSize := "Standard_D2_v2";
     FullAgentPoolProfile.OSType := Linux;
     FullAgentPoolProfile.AvailabilityProfile := AvailabilitySet;
     FullAgentPoolProfile.ScaleSetPriority := "";
     FullAgentPoolProfile.StorageProfile := StorageAccount;
     FullAgentPoolProfile.DiskSizesGB := [];
     FullAgentPoolProfile.VnetSubnetID := "";
     FullAgentPoolProfile.Distro := AKSUbuntu1604;
     FullAgentPoolProfile.AvailabilityZones := None;
     FullAgentPoolProfile.WindowsNameVersion := "" |}.

Definition windowsAgent : FullAgentPoolProfile.t :=
  {| FullAgentPoolProfile.Name := "winpool";
     FullAgentPoolProfile.Count := 2;
     FullAgentPoolProfile.VMSize := "Standard_D2_v2";
     FullAgentPoolProfile.OSType := Windows;
     FullAgentPoolProfile.AvailabilityProfile := AvailabilitySet;
     FullAgentPoolProfile.ScaleSetPriority := "";
     FullAgentPoolProfile.StorageProfile := ManagedDisks;
     FullAgentPoolProfile.DiskSizesGB := [];
     FullAgentPoolProfile.VnetSubnetID := "";
     FullAgentPoolProfile.Distro := "";
     FullAgentPoolProfile.AvailabilityZones := None;
     FullAgentPoolProfile.WindowsNameVersion := "" |}.

Definition vhdMaster : FullMasterProfile.t :=
  {| FullMasterProfile.Count := 3;
     FullMasterProfile.DNSPrefix := "mycluster";
     FullMasterProfile.VnetSubnetID := "";
     FullMasterProfile.VnetCidr := "";
     FullMasterProfile.StorageProfile := StorageAccount;
     FullMasterProfile.Distro := AKSUbuntu1604;
     FullMasterProfile.AvailabilityProfile := AvailabilitySet;
     FullMasterProfile.AvailabilityZones := None;
     FullMasterProfile.FQDN := "mycluster.westus.cloudapp.azure.com" |}.

Definition kubenetOrchestrator : FullOrchestratorProfile.t :=
  {| FullOrchestratorProfile.OrchestratorType := Kubernetes;
     FullOrchestratorProfile.OrchestratorVersion := "1.14.1";
     FullOrchestratorProfile.KubernetesConfig := Some sampleKubeletConfig |}.

Definition dualStack : FeatureFlags.t :=
  {| FeatureFlags.EnableCSERunInBackground := false;
     FeatureFlags.BlockOutboundInternet := false;
     FeatureFlags.EnableIPv6DualStack := true |}.

(** A self-hosted Kubernetes cluster with the given agent pools. *)
Definition clusterWith (id : string) (agents : list FullAgentPoolProfile.t)
  : FullProperties.t :=
  {| FullProperties.ClusterID := id;
     FullProperties.OrchestratorProfile := Some kubenetOrchestrator;
     FullProperties.MasterProfile := Some vhdMaster;
     FullProperties.AgentPoolProfiles := Some agents;
     FullProperties.HostedMasterProfile := None;
     FullProperties.CustomCloudProfile := None;
     FullProperties.FeatureFlags := Some dualStack |}.

Definition privateKubernetesConfig : FullKubernetesConfig.t :=
  {| FullKubernetesConfig.ClusterSubnet := "10.244.0.0/16";
     FullKubernetesConfig.NetworkPolicy := "";
     FullKubernetesConfig.NetworkPlugin := "kubenet";
     FullKubernetesConfig.UseManagedIdentity := false;
     FullKubernetesConfig.UserAssignedID := "";
     FullKubernetesConfig.UserAssignedClientID := "";
     FullKubernetesConfig.EnableRbac := Some true;
     FullKubernetesConfig.PrivateCluster :=
       Some {| PrivateCluster.Enabled := Some true;
               PrivateCluster.JumpboxProfile :=
                 Some {| PrivateJumpboxProfile.StorageProfile := ManagedDisks |} |};
     FullKubernetesConfig.Addons := [];
     FullKubernetesConfig.KubeletConfig := ∅ |}.

Definition privateOrchestrator : FullOrchestratorProfile.t :=
  {| FullOrchestratorProfile.OrchestratorType := Kubernetes;
     FullOrchestratorProfile.OrchestratorVersion := "1.14.1";
     FullOrchestratorProfile.KubernetesConfig := Some privateKubernetesConfig |}.

(** * Properties of the model *)

(** ** Shared lemmas *)

Lemma string_eqb_true (s t : string) : String.eqb s t = true <-> s = t.
Proof. apply String.eqb_eq. Qed.

Lemma string_eqb_false (s t : string) : String.eqb s t = false <-> s <> t.
Proof. apply String.eqb_neq. Qed.

Lemma anyWindows_exists (l : list AgentPoolProfile.t) :
  anyWindows l = true <->
  exists a, a ∈ l /\ AgentPoolProfile.OSType a = Windows.
Proof.
  induction l as [|a l IH]; simpl.
  - split; [discriminate|]. intros (a & Hin & _). inversion Hin.
  - destruct (String.eqb (AgentPoolProfile.OSType a) Windows) eqn:E.
    + split; [|reflexivity]. intros _. exists a. split; [left|].
      now apply string_eqb_true.
    + rewrite IH. apply string_eqb_false in E. split.
      * intros (b & Hb & Hw). exists b. split; [now right|assumption].
      * intros (b & Hb & Hw). inversion Hb; subst; [contradiction|].
        exists b. now split.
Qed.

Lemma firstAddonNamed_absent (name : string) (l : list KubernetesAddon.t) :
  (forall a, a ∈ l -> KubernetesAddon.Name a <> name) ->
  firstAddonNamed name l = KubernetesAddon.zero.
Proof.
  induction l as [|a l IH]; simpl; intros H; [reflexivity|].
  destruct (String.eqb (KubernetesAddon.Name a) name) eqn:E.
  - apply string_eqb_true in E. exfalso. apply (H a); [left|assumption].
  - apply IH. intros b Hb. apply H. now right.
Qed.

Lemma firstAddonNamed_first (name : string) (pre post : list KubernetesAddon.t)
    (a : KubernetesAddon.t) :
  (forall b, b ∈ pre -> KubernetesAddon.Name b <> name) ->
  KubernetesAddon.Name a = name ->
  firstAddonNamed name (pre ++ a :: post) = a.
Proof.
  induction pre as [|b pre IH]; simpl; intros Hpre Ha.
  - apply string_eqb_true in Ha. now rewrite Ha.
  - assert (Hb : KubernetesAddon.Name b <> name) by (apply Hpre; left).
    apply string_eqb_false in Hb. rewrite Hb. apply IH; [|assumption].
    intros c Hc. apply Hpre. now right.
Qed.

(** ** Topology predicates *)

(** C6. [HasWindows] is true exactly when some agent pool of the receiver
    has OS type Windows, and false when there is no agent pool.  It is a
    function of the receiver that yields the boolean and nothing else: the
    scan writes nothing. *)
Theorem HasWindows_iff_some_pool_is_Windows :
  (forall p : Properties.t,
      HasWindows p = true <->
      exists a, a ∈ pools p /\ AgentPoolProfile.OSType a = Windows)
  /\ (forall p : Properties.t, pools p = [] -> HasWindows p = false).
Proof.
  split.
  - intros p. unfold HasWindows. apply anyWindows_exists.
  - intros p H. unfold HasWindows. now rewrite H.
Qed.

Lemma HasWindows_iff_some_pool_is_Windows_witness :
  pools noPools = [] /\ HasWindows noPools = false.
Proof.
  split; [reflexivity|].
  apply (proj2 HasWindows_iff_some_pool_is_Windows noPools). reflexivity.
Defined.

(** ** Addons *)

(** C9. An addon whose [Enabled] is unset is not enabled; so
    [IsAddonEnabled] is false for a name no addon of the list carries and
    for a name whose first addon has [Enabled] unset.  The answer is read
    off the [Enabled] field of the addon found and nothing else. *)
Theorem IsAddonEnabled_unset_is_false :
  (forall a : KubernetesAddon.t,
      KubernetesAddon.Enabled a = None -> IsEnabled a = false)
  /\ (forall (k : KubernetesConfig.t) (name : string),
         (forall a, a ∈ KubernetesConfig.Addons k -> KubernetesAddon.Name a <> name) ->
         IsAddonEnabled k name = false)
  /\ (forall (k : KubernetesConfig.t) (name : string) pre a post,
         KubernetesConfig.Addons k = pre ++ a :: post ->
         (forall b, b ∈ pre -> KubernetesAddon.Name b <> name) ->
         KubernetesAddon.Name a = name ->
         KubernetesAddon.Enabled a = None ->
         IsAddonEnabled k name = false)
  /\ (forall (k : KubernetesConfig.t) (name : string),
         IsAddonEnabled k name = true <->
         KubernetesAddon.Enabled (GetAddonByName k name) = Some true).
Proof.
  repeat split.
  - intros a H. unfold IsEnabled. now rewrite H.
  - intros k name H. unfold IsAddonEnabled, GetAddonByName.
    now rewrite firstAddonNamed_absent.
  - intros k name pre a post Hl Hpre Hname Hen.
    unfold IsAddonEnabled, GetAddonByName. rewrite Hl.
    rewrite firstAddonNamed_first by assumption.
    unfold IsEnabled. now rewrite Hen.
  - unfold IsAddonEnabled, IsEnabled.
    destruct (KubernetesAddon.Enabled (GetAddonByName k name)) as [[]|];
      congruence.
  - unfold IsAddonEnabled, IsEnabled. intros H. now rewrite H.
Qed.

Lemma IsAddonEnabled_unset_is_false_witness :
  KubernetesAddon.Enabled unsetAddon = None
  /\ IsEnabled unsetAddon = false
  /\ IsAddonEnabled sampleConfig "tiller" = false
  /\ IsAddonEnabled sampleConfig "heapster" = false.
Proof.
  destruct IsAddonEnabled_unset_is_false as (H1 & H2 & H3 & _).
  split; [reflexivity|]. split; [|split].
  - apply H1. reflexivity.
  - apply (H3 sampleConfig "tiller"%string [] unsetAddon [shadowedAddon]);
      try reflexivity.
    intros b Hb. inversion Hb.
  - apply H2. intros a Ha. simpl in Ha.
    apply elem_of_cons in Ha as [->|Ha]; [discriminate|].
    apply elem_of_cons in Ha as [->|Ha]; [discriminate|]. inversion Ha.
Defined.

(** ** Orchestrator code and the names built from it *)

Section NamingFacts.

Variable randUint32 : Z -> Z.

Lemma IsKubernetes_true (o : OrchestratorProfile.t) :
  IsKubernetes o = true <-> OrchestratorProfile.OrchestratorType o = Kubernetes.
Proof. apply string_eqb_true. Qed.

Lemma IsKubernetes_false (o : OrchestratorProfile.t) :
  IsKubernetes o = false <-> OrchestratorProfile.OrchestratorType o <> Kubernetes.
Proof. apply string_eqb_false. Qed.

(** C10. With an orchestrator profile of type Kubernetes the orchestrator
    code is "aks" for a hosted master and "k8s" otherwise; with any other
    type it is empty, and the master VM prefix, the resource prefix, the
    route table and NSG names, and the default vnet and subnet names then
    start at the separator that follows the code. *)
Theorem K8sOrchestratorName_by_orchestrator_type :
  forall (p : Properties.t) (o : OrchestratorProfile.t),
    Properties.OrchestratorProfile p = Some o ->
    (OrchestratorProfile.OrchestratorType o = Kubernetes ->
       K8sOrchestratorName p =
       Ret (if IsHostedMasterProfile p then "aks" else "k8s")%string)
    /\ (OrchestratorProfile.OrchestratorType o <> Kubernetes ->
        let id := fst (GetClusterID randUint32 p) in
        let p' := snd (GetClusterID randUint32 p) in
        let role :=
          (if IsHostedMasterProfile p then "-agentpool-" else "-master-")%string in
        K8sOrchestratorName p = Ret EmptyString
        /\ GetMasterVMPrefix randUint32 p = Ret ("-master-" +:+ id +:+ "-", p')%string
        /\ GetResourcePrefix randUint32 p = Ret (role +:+ id +:+ "-", p')%string
        /\ GetRouteTableName randUint32 p
           = Ret ((role +:+ id +:+ "-") +:+ "routetable", p')%string
        /\ GetNSGName randUint32 p = Ret ((role +:+ id +:+ "-") +:+ "nsg", p')%string
        /\ ((IsHostedMasterProfile p = true /\ AreAgentProfilesCustomVNET p = false)
            \/ (IsHostedMasterProfile p = false
                /\ exists m, Properties.MasterProfile p = Some m
                             /\ MasterProfile.IsCustomVNET m = false) ->
            GetVirtualNetworkName randUint32 p = Ret ("-vnet-" +:+ id, p')%string
            /\ GetSubnetName p = Ret "-subnet"%string)).
Proof.
  intros p o Ho. split.
  - intros Hk. apply IsKubernetes_true in Hk.
    unfold K8sOrchestratorName, IsHostedMasterProfile. rewrite Ho, Hk.
    now destruct (Properties.HostedMasterProfile p).
  - intros Hk. apply IsKubernetes_false in Hk.
    assert (Hname : K8sOrchestratorName p = Ret EmptyString).
    { unfold K8sOrchestratorName. now rewrite Ho, Hk. }
    assert (Hprefix : GetResourcePrefix randUint32 p =
      Ret ((if IsHostedMasterProfile p then "-agentpool-" else "-master-")
             +:+ fst (GetClusterID randUint32 p) +:+ "-",
           snd (GetClusterID randUint32 p))%string).
    { unfold GetResourcePrefix, mbind, query, clusterID, mret.
      rewrite Hname.
      destruct (IsHostedMasterProfile p), (GetClusterID randUint32 p);
        reflexivity. }
    cbv zeta. repeat split.
    + exact Hname.
    + unfold GetMasterVMPrefix, mbind, query, clusterID, mret. rewrite Hname.
      now destruct (GetClusterID randUint32 p).
    + exact Hprefix.
    + unfold GetRouteTableName, mbind, mret. now rewrite Hprefix.
    + unfold GetNSGName, mbind, mret. now rewrite Hprefix.
    + unfold GetVirtualNetworkName, selfHostedOnCustomVNET, mbind, query, clusterID,
        mret, masterIsCustomVNET.
      destruct H as [[Hh Hc]|[Hh (m & Hm & Hc)]]; rewrite Hh.
      * rewrite Hc. simpl. rewrite Hname.
        now destruct (GetClusterID randUint32 p).
      * simpl. rewrite Hm, Hc, Hname.
        now destruct (GetClusterID randUint32 p).
    + unfold GetSubnetName, masterIsCustomVNET.
      destruct H as [[Hh Hc]|[Hh (m & Hm & Hc)]]; rewrite Hh.
      * rewrite Hc, Hname. reflexivity.
      * rewrite Hm. simpl. rewrite Hc, Hname. reflexivity.
Qed.

End NamingFacts.

Lemma K8sOrchestratorName_by_orchestrator_type_witness :
  Properties.OrchestratorProfile swarmCluster = Some swarmProfile
  /\ OrchestratorProfile.OrchestratorType swarmProfile <> Kubernetes
  /\ K8sOrchestratorName swarmCluster = Ret EmptyString
  /\ Properties.OrchestratorProfile selfHostedCluster = Some kubernetesProfile
  /\ OrchestratorProfile.OrchestratorType kubernetesProfile = Kubernetes
  /\ K8sOrchestratorName selfHostedCluster = Ret "k8s"%string.
Proof.
  pose proof (K8sOrchestratorName_by_orchestrator_type sampleRand
                swarmCluster swarmProfile eq_refl) as [_ Hs].
  pose proof (K8sOrchestratorName_by_orchestrator_type sampleRand
                selfHostedCluster kubernetesProfile eq_refl) as [Hk _].
  assert (Hne : OrchestratorProfile.OrchestratorType swarmProfile <> Kubernetes)
    by discriminate.
  split; [reflexivity|]. split; [exact Hne|].
  split; [exact (proj1 (Hs Hne))|].
  split; [reflexivity|]. split; [reflexivity|].
  exact (Hk eq_refl).
Defined.

(** ** Names of a custom VNET *)

(** The segments of a string are what lies between its slashes: a
    non-empty list of slash-free strings joined by slashes is split into
    that list, and every string is the join of its segments. *)
Lemma splitSlash_slash_free (s : string) :
  noSlash s = true -> splitSlash s = [s].
Proof.
  induction s as [|c s IH]; simpl; [reflexivity|].
  destruct (Ascii.eqb c "/"); simpl; [discriminate|].
  intros H. now rewrite IH.
Qed.

Lemma splitSlash_app_slash (s t : string) :
  noSlash s = true ->
  splitSlash (s +:+ String "/" t) = s :: splitSlash t.
Proof.
  induction s as [|c s IH]; intros H.
  - reflexivity.
  - change (String c s +:+ String "/" t)%string
      with (String c (s +:+ String "/" t)).
    simpl in *. destruct (Ascii.eqb c "/"); simpl in H; [discriminate|].
    now rewrite IH.
Qed.

Lemma splitSlash_concat (segs : list string) :
  segs <> [] ->
  Forall (fun s => noSlash s = true) segs ->
  splitSlash (String.concat "/" segs) = segs.
Proof.
  induction segs as [|s segs IH]; [congruence|]. intros _ Hall.
  apply Forall_cons in Hall as [Hs Hall].
  destruct segs as [|s' segs].
  - simpl. now apply splitSlash_slash_free.
  - change (String.concat "/" (s :: s' :: segs))
      with (s +:+ String "/" (String.concat "/" (s' :: segs)))%string.
    rewrite splitSlash_app_slash by exact Hs.
    f_equal. apply IH; [discriminate|exact Hall].
Qed.

Lemma splitSlash_noSlash (id seg : string) :
  seg ∈ splitSlash id -> noSlash seg = true.
Proof.
  revert seg. induction id as [|c rest IH]; intros seg Hin; simpl in Hin.
  - apply list_elem_of_singleton in Hin as ->. reflexivity.
  - destruct (Ascii.eqb c "/") eqn:Ec.
    + apply elem_of_cons in Hin as [->|Hin]; [reflexivity|now apply IH].
    + destruct (splitSlash rest) as [|h t] eqn:Es.
      * apply list_elem_of_singleton in Hin as ->. simpl. now rewrite Ec.
      * apply elem_of_cons in Hin as [->|Hin].
        -- simpl. rewrite Ec. simpl. apply IH. left.
        -- apply IH. now right.
Qed.

Lemma splitSlash_not_nil (s : string) : splitSlash s <> [].
Proof.
  destruct s as [|c s]; simpl; [discriminate|].
  destruct (Ascii.eqb c "/"); [discriminate|].
  destruct (splitSlash s); discriminate.
Qed.

Lemma concat_splitSlash (s : string) : String.concat "/" (splitSlash s) = s.
Proof.
  induction s as [|c s IH]; [reflexivity|]. simpl.
  destruct (Ascii.eqb c "/") eqn:Ec.
  - apply Ascii.eqb_eq in Ec as ->.
    pose proof (splitSlash_not_nil s) as Hne.
    destruct (splitSlash s) as [|h t]; [congruence|].
    change (String.concat "/" (EmptyString :: h :: t))
      with (String "/" (String.concat "/" (h :: t))).
    now rewrite IH.
  - pose proof (splitSlash_not_nil s) as Hne.
    destruct (splitSlash s) as [|h t]; [congruence|].
    destruct t as [|h' t].
    + simpl in *. now rewrite IH.
    + change (String.concat "/" (String c h :: h' :: t))
        with (String c (String.concat "/" (h :: h' :: t))).
      now rewrite IH.
Qed.

Lemma index_lookup {A : Type} (l : list A) (i : nat) :
  index l (Z.of_nat i)
  = match l !! i with
    | Some x => Ret x
    | None => Panic IndexOutOfRange
    end.
Proof.
  unfold index. destruct (Z.ltb_spec (Z.of_nat i) 0) as [Hlt|_]; [lia|].
  now rewrite Nat2Z.id.
Qed.

(** C7, as stated, fails: a self-hosted cluster is on a custom VNET as soon
    as the subnet ID of its master is not empty, and on an ID that stops
    after the virtual network (segments 0 to 8) [GetSubnetName] panics
    instead of returning a segment, although the two other queries
    return. *)
Lemma custom_VNET_short_ID_counterexample :
  Properties.HostedMasterProfile shortIDCluster = None
  /\ Properties.MasterProfile shortIDCluster = Some shortIDMaster
  /\ MasterProfile.IsCustomVNET shortIDMaster = true
  /\ GetVNetResourceGroupName shortIDCluster = Ret "RG"%string
  /\ GetVirtualNetworkName sampleRand shortIDCluster
     = Ret ("VNET"%string, shortIDCluster)
  /\ GetSubnetName shortIDCluster = Panic IndexOutOfRange
  /\ ~ exists subnet, GetSubnetName shortIDCluster = Ret subnet.
Proof.
  repeat split; try reflexivity.
  intros (subnet & H). vm_compute in H. discriminate H.
Qed.

(** C7, amended.  Let the subnet ID read by a cluster on a custom VNET (the
    ID of the master profile on a self-hosted cluster, of the first agent
    pool on a hosted-master cluster) be the slash-free strings [segs] joined
    by slashes.  Then the resource group is [segs] at index 4, the virtual
    network at index 8 and the subnet at index 10; a query whose index is
    beyond the last segment panics with an index out of range.  Every ID is
    such a join, so no ID is left out.  A hosted-master cluster whose agent
    pool list is empty but not nil counts as custom VNET, and there the
    three queries panic on [AgentPoolProfiles[0]]. *)
Theorem custom_VNET_names_are_fixed_segments :
  forall (randUint32 : Z -> Z) (p : Properties.t),
    (forall (id : string) (segs : list string),
        segs <> [] ->
        Forall (fun s => noSlash s = true) segs ->
        id = String.concat "/" segs ->
        (exists m,
            Properties.HostedMasterProfile p = None
            /\ Properties.MasterProfile p = Some m
            /\ MasterProfile.IsCustomVNET m = true
            /\ MasterProfile.VnetSubnetID m = id)
        \/ (exists h a rest,
               Properties.HostedMasterProfile p = Some h
               /\ Properties.AgentPoolProfiles p = Some (a :: rest)
               /\ AreAgentProfilesCustomVNET p = true
               /\ AgentPoolProfile.VnetSubnetID a = id) ->
        GetVNetResourceGroupName p
        = match segs !! 4%nat with
          | Some rg => Ret rg
          | None => Panic IndexOutOfRange
          end
        /\ GetVirtualNetworkName randUint32 p
           = match segs !! 8%nat with
             | Some vnet => Ret (vnet, p)
             | None => Panic IndexOutOfRange
             end
        /\ GetSubnetName p
           = match segs !! 10%nat with
             | Some subnet => Ret subnet
             | None => Panic IndexOutOfRange
             end)
    /\ (forall id : string,
          exists segs,
            segs <> [] /\ Forall (fun s => noSlash s = true) segs
            /\ id = String.concat "/" segs)
    /\ (forall h,
          Properties.HostedMasterProfile p = Some h ->
          Properties.AgentPoolProfiles p = Some [] ->
          AreAgentProfilesCustomVNET p = true
          /\ GetVNetResourceGroupName p = Panic IndexOutOfRange
          /\ GetVirtualNetworkName randUint32 p = Panic IndexOutOfRange
          /\ GetSubnetName p = Panic IndexOutOfRange).
Proof.
  intros randUint32 p. split; [|split].
  - intros id segs Hne Hall -> Hcase.
    assert (Hseg : forall i : nat,
              segment (String.concat "/" segs) (Z.of_nat i)
              = match segs !! i with
                | Some s => Ret s
                | None => Panic IndexOutOfRange
                end).
    { intros i. unfold segment.
      rewrite (splitSlash_concat segs Hne Hall). apply index_lookup. }
    unfold GetVNetResourceGroupName, GetVirtualNetworkName, GetSubnetName,
      selfHostedOnCustomVNET, IsHostedMasterProfile, masterIsCustomVNET,
      masterVnetSubnetID, firstAgentPool, query,
      DefaultVnetResourceGroupSegmentIndex, DefaultVnetNameResourceSegmentIndex,
      DefaultSubnetNameResourceSegmentIndex.
    change 4%Z with (Z.of_nat 4). change 8%Z with (Z.of_nat 8).
    change 10%Z with (Z.of_nat 10).
    destruct Hcase as [(m & Hh & Hm & Hc & Hid)|(h & a & rest & Hh & Ha & Hc & Hid)].
    + rewrite Hh, Hm. simpl. rewrite Hc, Hid. simpl. rewrite !Hseg.
      repeat split; try reflexivity. now destruct (segs !! 8%nat).
    + rewrite Hh, Hc, Ha. simpl. rewrite Hid. rewrite !Hseg.
      repeat split; try reflexivity. now destruct (segs !! 8%nat).
  - intros id. exists (splitSlash id). split; [apply splitSlash_not_nil|]. split.
    + apply Forall_forall. intros s Hs. now apply (splitSlash_noSlash id).
    + symmetry. apply concat_splitSlash.
  - intros h Hh Ha.
    unfold GetVNetResourceGroupName, GetVirtualNetworkName, GetSubnetName,
      IsHostedMasterProfile, firstAgentPool, query, AreAgentProfilesCustomVNET.
    rewrite Hh, Ha. simpl. repeat split.
Qed.

Lemma custom_VNET_names_are_fixed_segments_witness :
  (GetVNetResourceGroupName selfHostedCustomVNET = Ret "RG"%string
   /\ GetVirtualNetworkName sampleRand selfHostedCustomVNET
      = Ret ("VNET"%string, selfHostedCustomVNET)
   /\ GetSubnetName selfHostedCustomVNET = Ret "SUBNET"%string)
  /\ (GetVNetResourceGroupName hostedCustomVNET = Ret "RG"%string
      /\ GetVirtualNetworkName sampleRand hostedCustomVNET
         = Ret ("VNET"%string, hostedCustomVNET)
      /\ GetSubnetName hostedCustomVNET = Ret "SUBNET"%string)
  /\ (GetVNetResourceGroupName shortIDCluster = Ret "RG"%string
      /\ GetVirtualNetworkName sampleRand shortIDCluster
         = Ret ("VNET"%string, shortIDCluster)
      /\ GetSubnetName shortIDCluster = Panic IndexOutOfRange).
Proof.
  split; [|split].
  - apply (proj1 (custom_VNET_names_are_fixed_segments sampleRand
                    selfHostedCustomVNET) sampleSubnetID
             [""; "subscriptions"; "SUB"; "resourceGroups"; "RG"; "providers";
              "Microsoft.Network"; "virtualNetworks"; "VNET"; "subnets";
              "SUBNET"]%string).
    + discriminate.
    + repeat constructor.
    + reflexivity.
    + left. exists customVNETMaster. repeat split.
  - apply (proj1 (custom_VNET_names_are_fixed_segments sampleRand
                    hostedCustomVNET) sampleSubnetID
             [""; "subscriptions"; "SUB"; "resourceGroups"; "RG"; "providers";
              "Microsoft.Network"; "virtualNetworks"; "VNET"; "subnets";
              "SUBNET"]%string).
    + discriminate.
    + repeat constructor.
    + reflexivity.
    + right. exists {| HostedMasterProfile.DNSPrefix := "blueorange" |},
               customVNETAgent, []. repeat split.
  - apply (proj1 (custom_VNET_names_are_fixed_segments sampleRand
                    shortIDCluster) shortSubnetID
             [""; "subscriptions"; "SUB"; "resourceGroups"; "RG"; "providers";
              "Microsoft.Network"; "virtualNetworks"; "VNET"]%string).
    + discriminate.
    + repeat constructor.
    + reflexivity.
    + left. exists shortIDMaster. repeat split.
Defined.

(** ** First static IP address *)

Section StaticIPFacts.

Variable parseIPv6 : string -> option (list Z).
Variable ipv6String : list Z -> string.

Local Abbreviation parse := (ParseCIDR parseIPv6).
Local Abbreviation firstStaticIP :=
  (GetFirstConsecutiveStaticIPAddress parseIPv6 ipv6String).

(** The parse of the CIDR used in the examples of the specification. *)
Lemma ParseCIDR_10_240_0_0_16 :
  parse "10.240.0.0/16"
  = Some {| IP := [10; 240; 0; 0]%Z; Mask := [255; 255; 0; 0]%Z |}.
Proof. reflexivity. Qed.

Lemma ParseCIDR_without_slash :
  parse "not-a-cidr" = None.
Proof. reflexivity. Qed.

(** The two results the specification gives for "10.240.0.0/16". *)
Lemma first_static_IP_of_10_240_0_0_16 (m : MasterProfile.t) :
  firstStaticIP m "10.240.0.0/16"
  = Ret (if IsVirtualMachineScaleSets m then "10.240.0.4" else "10.240.255.5")%string.
Proof.
  unfold GetFirstConsecutiveStaticIPAddress.
  rewrite ParseCIDR_10_240_0_0_16.
  destruct (IsVirtualMachineScaleSets m); reflexivity.
Qed.

(** [Size] undoes [CIDRMask] on IPv4 prefix lengths. *)
Lemma Size_CIDRMask_IPv4 (ones : Z) :
  (0 <= ones <= 32)%Z -> Size (CIDRMask ones 32) = (ones, 32%Z).
Proof.
  intros H.
  assert (Hall : forallb (fun n => bool_decide (Size (CIDRMask n 32) = (n, 32%Z)))
                   (seqZ 0 33) = true) by (vm_compute; reflexivity).
  rewrite forallb_forall in Hall.
  specialize (Hall ones). rewrite bool_decide_eq_true in Hall.
  apply Hall. apply list_elem_of_In, elem_of_seqZ. lia.
Qed.

(** What the two branches do to an IPv4 subnet [a.b.c.d/ones].  With a
    scale-set master the last octet becomes 4 and nothing else changes.
    Otherwise the host bits of octet [ones / 8] are set, the octets after
    it and before the last become 255 and the last octet becomes 5; a
    prefix of 32 bits makes octet [ones / 8] the fifth of four. *)
Lemma first_static_IP_of_IPv4_subnet (m : MasterProfile.t) (s : string)
    (a b c d ones : Z) :
  parse s = Some {| IP := [a; b; c; d]; Mask := CIDRMask ones 32 |} ->
  (0 <= ones <= 32)%Z ->
  firstStaticIP m s =
  if IsVirtualMachineScaleSets m then Ret (IP_String ipv6String [a; b; c; 4%Z])
  else
    let hostBits := (2 ^ (8 - ones mod 8) - 1)%Z in
    match (ones / 8)%Z with
    | 0%Z => Ret (IP_String ipv6String [Z.lor a hostBits; 255; 255; 5]%Z)
    | 1%Z => Ret (IP_String ipv6String [a; Z.lor b hostBits; 255; 5]%Z)
    | 2%Z => Ret (IP_String ipv6String [a; b; Z.lor c hostBits; 5]%Z)
    | 3%Z => Ret (IP_String ipv6String [a; b; c; 5]%Z)
    | _ => Panic IndexOutOfRange
    end.
Proof.
  intros Hparse Hones.
  unfold GetFirstConsecutiveStaticIPAddress. rewrite Hparse.
  cbn [Mask IP]. rewrite Size_CIDRMask_IPv4 by assumption.
  assert (Hin : ones ∈ seqZ 0 33) by (apply elem_of_seqZ; lia).
  destruct (IsVirtualMachineScaleSets m).
  - reflexivity.
  - vm_compute in Hin.
    repeat (apply elem_of_cons in Hin as [->|Hin]; [reflexivity|]).
    inversion Hin.
Qed.

(** C2. A self-hosted master that is not a scale set, on the valid CIDR
    "10.0.0.1/32": the prefix fills the address, [firstOctet] is 4, and the
    method stops with an index out of range where the specification has it
    set the last octet to 5 and return. *)
Theorem first_static_IP_panics_on_full_prefix :
  firstStaticIP sampleMaster "10.0.0.1/32" = Panic IndexOutOfRange
  /\ firstStaticIP sampleMasterVMSS "10.0.0.1/32" = Ret "10.0.0.4"%string
  /\ firstStaticIP sampleMaster "10.240.0.0/16" = Ret "10.240.255.5"%string
  /\ firstStaticIP sampleMasterVMSS "10.240.0.0/16" = Ret "10.240.0.4"%string.
Proof. repeat split; reflexivity. Qed.

(** C3. A string that [net.ParseCIDR] rejects never makes the method fail:
    the result is the default address "10.240.255.5", whatever the
    availability profile of the master. *)
Theorem unparseable_CIDR_yields_default_IP :
  forall (m : MasterProfile.t) (s : string),
    parse s = None ->
    firstStaticIP m s = Ret "10.240.255.5"%string.
Proof.
  intros m s H. unfold GetFirstConsecutiveStaticIPAddress. now rewrite H.
Qed.

End StaticIPFacts.

Lemma unparseable_CIDR_yields_default_IP_witness :
  ParseCIDR noIPv6 "not-a-cidr" = None
  /\ GetFirstConsecutiveStaticIPAddress noIPv6 blankIPv6 sampleMaster "not-a-cidr"
     = Ret "10.240.255.5"%string
  /\ GetFirstConsecutiveStaticIPAddress noIPv6 blankIPv6 sampleMasterVMSS "not-a-cidr"
     = Ret "10.240.255.5"%string.
Proof.
  split; [reflexivity|].
  split; apply (unparseable_CIDR_yields_default_IP noIPv6 blankIPv6); reflexivity.
Defined.

(** ** Cluster ID *)

Lemma digitChar_isDigit (d : Z) :
  (0 <= d < 10)%Z -> isDigit (digitChar d) = true.
Proof.
  intros H. assert (Hd : d ∈ seqZ 0 10) by (apply elem_of_seqZ; lia).
  vm_compute in Hd.
  repeat (apply elem_of_cons in Hd as [->|Hd]; [reflexivity|]).
  inversion Hd.
Qed.

Lemma digitChar_value (d : Z) :
  (0 <= d < 10)%Z -> (Z.of_N (N_of_ascii (digitChar d)) - 48 = d)%Z.
Proof.
  intros H. assert (Hd : d ∈ seqZ 0 10) by (apply elem_of_seqZ; lia).
  vm_compute in Hd.
  repeat (apply elem_of_cons in Hd as [->|Hd]; [reflexivity|]).
  inversion Hd.
Qed.

Lemma decimalDigits_allDigits (fuel : nat) (n : Z) (acc : string) :
  allDigits acc = true -> allDigits (decimalDigits fuel n acc) = true.
Proof.
  revert n acc. induction fuel as [|fuel IH]; intros n acc Hacc; simpl.
  - assumption.
  - assert (Hd : allDigits (String (digitChar (n mod 10)) acc) = true).
    { simpl. rewrite digitChar_isDigit by (apply Z.mod_pos_bound; lia).
      assumption. }
    destruct (n <? 10)%Z; [exact Hd|]. now apply IH.
Qed.

Lemma allDigits_app (s t : string) :
  allDigits (s +:+ t) = allDigits s && allDigits t.
Proof.
  induction s as [|c s IH]; simpl; [reflexivity|].
  now rewrite IH, andb_assoc.
Qed.

Lemma allDigits_zeros (k : nat) : allDigits (zeros k) = true.
Proof. induction k; simpl; [reflexivity|assumption]. Qed.

Lemma length_zeros (k : nat) : String.length (zeros k) = k.
Proof. induction k; simpl; [reflexivity|now f_equal]. Qed.

Lemma length_append (s t : string) :
  String.length (s +:+ t) = String.length s + String.length t.
Proof. induction s as [|c s IH]; simpl; [reflexivity|now f_equal]. Qed.

Lemma Sprintf_08d_allDigits (n : Z) : allDigits (Sprintf_08d n) = true.
Proof.
  unfold Sprintf_08d, formatDecimal.
  rewrite allDigits_app, allDigits_zeros.
  rewrite decimalDigits_allDigits; reflexivity.
Qed.

Lemma Sprintf_08d_length (n : Z) : 8 <= String.length (Sprintf_08d n).
Proof.
  unfold Sprintf_08d. rewrite length_append, length_zeros. lia.
Qed.

Lemma substring_prefix_length (k : nat) (s : string) :
  k <= String.length s -> String.length (substring 0 k s) = k.
Proof.
  revert s. induction k as [|k IH]; intros s H.
  - now destruct s.
  - destruct s as [|c s]; simpl in *; [lia|]. f_equal. apply IH. lia.
Qed.

Lemma substring_prefix_allDigits (k : nat) (s : string) :
  allDigits s = true -> allDigits (substring 0 k s) = true.
Proof.
  revert s. induction k as [|k IH]; intros s H.
  - now destruct s.
  - destruct s as [|c s]; simpl in *; [reflexivity|].
    apply andb_true_iff in H as [Hc Hs]. rewrite Hc. now apply IH.
Qed.

(** The digits printed for a non-negative number denote that number. *)
Lemma decimalDigits_value (fuel : nat) (n : Z) (acc : string) (v : Z) :
  (0 <= n < 2 ^ Z.of_nat fuel)%Z ->
  exists k : Z, (0 <= k)%Z /\
    decimalValue v (decimalDigits fuel n acc) = decimalValue (v * 10 ^ k + n)%Z acc.
Proof.
  revert n acc v. induction fuel as [|fuel IH]; intros n acc v Hn.
  - exists 0%Z. simpl in *. split; [lia|]. f_equal. lia.
  - simpl decimalDigits. destruct (Z.ltb_spec n 10) as [Hlt|Hge].
    + exists 1%Z. split; [lia|]. simpl.
      rewrite digitChar_value by (apply Z.mod_pos_bound; lia).
      rewrite Z.mod_small by lia. f_equal. lia.
    + destruct (IH (n / 10)%Z (String (digitChar (n mod 10)) acc) v)
        as (k & Hk & E).
      { split; [apply Z.div_pos; lia|].
        apply Z.div_lt_upper_bound; [lia|].
        rewrite Nat2Z.inj_succ, Z.pow_succ_r in Hn by lia. lia. }
      exists (k + 1)%Z. split; [lia|]. rewrite E. simpl.
      rewrite digitChar_value by (apply Z.mod_pos_bound; lia).
      f_equal. rewrite Z.pow_add_r by lia.
      pose proof (Z.div_mod n 10). lia.
Qed.

Lemma formatDecimal_value (n : Z) :
  (0 <= n)%Z -> decimalValue 0%Z (formatDecimal n) = n.
Proof.
  intros Hn. unfold formatDecimal.
  destruct (decimalDigits_value (S (Z.to_nat (Z.log2 n))) n EmptyString 0%Z)
    as (k & _ & E).
  - split; [assumption|].
    rewrite Nat2Z.inj_succ, Z2Nat.id by apply Z.log2_nonneg.
    destruct (Z.eq_dec n 0%Z) as [->|Hnz]; [reflexivity|].
    apply Z.log2_spec. lia.
  - rewrite E. simpl. lia.
Qed.

(** C4 (as stated, for every receiver): a receiver whose [ClusterID] field
    already holds "abc" gets "abc" back, which is no 8-digit string. *)
Lemma GetClusterID_preset_counterexample :
  ~ (forall (randUint32 : Z -> Z) (p : Properties.t),
        String.length (fst (GetClusterID randUint32 p)) = 8
        /\ allDigits (fst (GetClusterID randUint32 p)) = true).
Proof.
  intros H. destruct (H sampleRand presetCluster) as [Hlen _].
  vm_compute in Hlen. discriminate.
Qed.

(** C4 (amended).  On a receiver whose [ClusterID] is empty the method
    hashes the master DNS prefix if there is a master profile, else the
    hosted-master DNS prefix, else the name of the first agent pool, with
    FNV-64a; the hash seeds the generator; the ID is the first 8 bytes of
    the random number printed with zero padding, an 8-digit string; it is
    stored in [ClusterID], and the next call returns it and leaves the
    receiver as it is.  A receiver whose [ClusterID] is not empty gets that
    stored string back, unchanged. *)
Theorem GetClusterID_derives_and_memoizes :
  forall (randUint32 : Z -> Z) (p : Properties.t),
    (Properties.ClusterID p = EmptyString ->
     let source :=
       match Properties.MasterProfile p with
       | Some m => MasterProfile.DNSPrefix m
       | None =>
           match Properties.HostedMasterProfile p with
           | Some h => HostedMasterProfile.DNSPrefix h
           | None =>
               match pools p with
               | first :: _ => AgentPoolProfile.Name first
               | [] => EmptyString
               end
           end
       end in
     let seed := int64 (fnv64a_Write offset64 source) in
     let id := substring 0 8 (Sprintf_08d (randUint32 seed)) in
     let p' := Properties.setClusterID p id in
     GetClusterID randUint32 p = (id, p')
     /\ String.length id = 8
     /\ allDigits id = true
     /\ Properties.ClusterID p' = id
     /\ GetClusterID randUint32 p' = (id, p'))
    /\ (Properties.ClusterID p <> EmptyString ->
        GetClusterID randUint32 p = (Properties.ClusterID p, p)).
Proof.
  intros randUint32 p. split.
  - intros Hempty. cbv zeta.
    set (id := substring 0 8 _).
    assert (Hlen : String.length id = 8).
    { apply substring_prefix_length, Sprintf_08d_length. }
    assert (Hid : GetClusterID randUint32 p = (id, Properties.setClusterID p id)).
    { unfold GetClusterID. rewrite Hempty. reflexivity. }
    repeat split.
    + exact Hid.
    + exact Hlen.
    + apply substring_prefix_allDigits, Sprintf_08d_allDigits.
    + unfold GetClusterID. simpl.
      destruct (String.eqb id EmptyString) eqn:E; [|reflexivity].
      apply string_eqb_true in E. rewrite E in Hlen. discriminate.
  - intros Hset. unfold GetClusterID.
    apply string_eqb_false in Hset. now rewrite Hset.
Qed.

Lemma GetClusterID_derives_and_memoizes_witness :
  Properties.ClusterID selfHostedCluster = EmptyString
  /\ String.length (fst (GetClusterID sampleRand selfHostedCluster)) = 8
  /\ Properties.ClusterID presetCluster <> EmptyString
  /\ GetClusterID sampleRand presetCluster = ("abc"%string, presetCluster).
Proof.
  destruct (GetClusterID_derives_and_memoizes sampleRand selfHostedCluster)
    as [Hnew _].
  destruct (GetClusterID_derives_and_memoizes sampleRand presetCluster)
    as [_ Hold].
  split; [reflexivity|]. split.
  - destruct (Hnew eq_refl) as (E & Hlen & _). rewrite E. exact Hlen.
  - split; [discriminate|]. apply Hold. discriminate.
Defined.

(** ** Concurrent first access *)

(** A derived cluster ID is never the empty string. *)
Lemma newClusterID_not_empty (randUint32 : Z -> Z) (p : Properties.t) :
  newClusterID randUint32 p <> EmptyString.
Proof.
  intros E.
  assert (H : String.length (newClusterID randUint32 p) = 8)
    by apply substring_prefix_length, Sprintf_08d_length.
  rewrite E in H. discriminate.
Qed.

(** C5. Two goroutines call [GetClusterID] on one fresh receiver.  Each
    allocates a mutex of its own, so locking never makes the other wait:
    there is a schedule in which both have passed the emptiness check,
    both hold a locked mutex and both are about to write.  Run to the end,
    the hash has been computed twice and the field written twice; the two
    calls return the same string, since both derive it from the same
    prefix. *)
Theorem concurrent_GetClusterID_computes_twice :
  forall randUint32 : Z -> Z,
    let run schedule := Race.run randUint32 schedule (Race.start selfHostedCluster 2) in
    Race.mutexes <$> run bothLocked = Some [true; true]
    /\ (fun st => Race.inCriticalSection st 0 && Race.inCriticalSection st 1)
         <$> run bothLocked = Some true
    /\ Race.hashed <$> run bothReturn = Some 2
    /\ Race.assigned <$> run bothReturn = Some 2
    /\ Race.results <$> run bothReturn
       = Some [Some (newClusterID randUint32 selfHostedCluster);
               Some (newClusterID randUint32 selfHostedCluster)].
Proof.
  intros randUint32 run. subst run. cbv beta.
  repeat split; vm_compute; reflexivity.
Qed.

(** ** Conversion of the custom cloud profile to vlabs *)

(** The loop over the OS image map converts every entry under its own key. *)
Lemma convertOSImageConfigToVLabs_fmap (m : gmap Distro AzureOSImageConfig.t) :
  convertOSImageConfigToVLabs m = convertAzureOSImageConfigToVLabs <$> m.
Proof.
  unfold convertOSImageConfigToVLabs.
  apply (map_fold_weak_ind
           (fun out (m : gmap Distro AzureOSImageConfig.t) =>
              out = convertAzureOSImageConfigToVLabs <$> m)).
  - now rewrite fmap_empty.
  - intros k v m' out _ ->. now rewrite fmap_insert.
Qed.

Lemma convertOSImageConfigToVLabs_lookup (m : gmap Distro AzureOSImageConfig.t)
    (k : Distro) :
  convertOSImageConfigToVLabs m !! (k : vlabs.Distro)
  = convertAzureOSImageConfigToVLabs <$> m !! k.
Proof. rewrite convertOSImageConfigToVLabs_fmap. apply lookup_fmap. Qed.

(** C8. A container service whose custom cloud profile carries an
    environment spec converts to a vlabs document that carries one too, in
    which the identity system, the authentication method, the cloud name and
    every field of the Kubernetes, Docker, DC/OS and endpoint configs equal
    the source, and in which every key of the source OS image map is present
    with the same offer, SKU, publisher and version; the converted map has no
    other key. *)
Theorem ConvertContainerServiceToVLabs_keeps_environment_spec :
  forall (cs : ContainerService.t) (p : Properties.t)
         (ccp : CustomCloudProfile.t) (spec : AzureEnvironmentSpecConfig.t),
    ContainerService.Properties cs = Some p ->
    Properties.CustomCloudProfile p = Some ccp ->
    CustomCloudProfile.AzureEnvironmentSpecConfig ccp = Some spec ->
    exists vp vccp vspec,
      vlabs.ContainerService.Properties (ConvertContainerServiceToVLabs cs) = Some vp
      /\ vlabs.Properties.CustomCloudProfile vp = Some vccp
      /\ vlabs.CustomCloudProfile.AzureEnvironmentSpecConfig vccp = Some vspec
      /\ vlabs.CustomCloudProfile.IdentitySystem vccp
         = CustomCloudProfile.IdentitySystem ccp
      /\ vlabs.CustomCloudProfile.AuthenticationMethod vccp
         = CustomCloudProfile.AuthenticationMethod ccp
      /\ vlabs.AzureEnvironmentSpecConfig.CloudName vspec
         = AzureEnvironmentSpecConfig.CloudName spec
      /\ vlabs.KubernetesSpecConfig.KubernetesImageBase
           (vlabs.AzureEnvironmentSpecConfig.KubernetesSpecConfig vspec)
         = KubernetesSpecConfig.KubernetesImageBase (AzureEnvironmentSpecConfig.KubernetesSpecConfig spec)
      /\ vlabs.KubernetesSpecConfig.TillerImageBase
           (vlabs.AzureEnvironmentSpecConfig.KubernetesSpecConfig vspec)
         = KubernetesSpecConfig.TillerImageBase (AzureEnvironmentSpecConfig.KubernetesSpecConfig spec)
      /\ vlabs.KubernetesSpecConfig.ACIConnectorImageBase
           (vlabs.AzureEnvironmentSpecConfig.KubernetesSpecConfig vspec)
         = KubernetesSpecConfig.ACIConnectorImageBase (AzureEnvironmentSpecConfig.KubernetesSpecConfig spec)
      /\ vlabs.KubernetesSpecConfig.NVIDIAImageBase
           (vlabs.AzureEnvironmentSpecConfig.KubernetesSpecConfig vspec)
         = KubernetesSpecConfig.NVIDIAImageBase (AzureEnvironmentSpecConfig.KubernetesSpecConfig spec)
      /\ vlabs.KubernetesSpecConfig.AzureCNIImageBase
           (vlabs.AzureEnvironmentSpecConfig.KubernetesSpecConfig vspec)
         = KubernetesSpecConfig.AzureCNIImageBase (AzureEnvironmentSpecConfig.KubernetesSpecConfig spec)
      /\ vlabs.KubernetesSpecConfig.CalicoImageBase
           (vlabs.AzureEnvironmentSpecConfig.KubernetesSpecConfig vspec)
         = KubernetesSpecConfig.CalicoImageBase (AzureEnvironmentSpecConfig.KubernetesSpecConfig spec)
      /\ vlabs.KubernetesSpecConfig.EtcdDownloadURLBase
           (vlabs.AzureEnvironmentSpecConfig.KubernetesSpecConfig vspec)
         = KubernetesSpecConfig.EtcdDownloadURLBase (AzureEnvironmentSpecConfig.KubernetesSpecConfig spec)
      /\ vlabs.KubernetesSpecConfig.KubeBinariesSASURLBase
           (vlabs.AzureEnvironmentSpecConfig.KubernetesSpecConfig vspec)
         = KubernetesSpecConfig.KubeBinariesSASURLBase (AzureEnvironmentSpecConfig.KubernetesSpecConfig spec)
      /\ vlabs.KubernetesSpecConfig.WindowsTelemetryGUID
           (vlabs.AzureEnvironmentSpecConfig.KubernetesSpecConfig vspec)
         = KubernetesSpecConfig.WindowsTelemetryGUID (AzureEnvironmentSpecConfig.KubernetesSpecConfig spec)
      /\ vlabs.KubernetesSpecConfig.CNIPluginsDownloadURL
           (vlabs.AzureEnvironmentSpecConfig.KubernetesSpecConfig vspec)
         = KubernetesSpecConfig.CNIPluginsDownloadURL (AzureEnvironmentSpecConfig.KubernetesSpecConfig spec)
      /\ vlabs.KubernetesSpecConfig.VnetCNILinuxPluginsDownloadURL
           (vlabs.AzureEnvironmentSpecConfig.KubernetesSpecConfig vspec)
         = KubernetesSpecConfig.VnetCNILinuxPluginsDownloadURL (AzureEnvironmentSpecConfig.KubernetesSpecConfig spec)
      /\ vlabs.KubernetesSpecConfig.VnetCNIWindowsPluginsDownloadURL
           (vlabs.AzureEnvironmentSpecConfig.KubernetesSpecConfig vspec)
         = KubernetesSpecConfig.VnetCNIWindowsPluginsDownloadURL (AzureEnvironmentSpecConfig.KubernetesSpecConfig spec)
      /\ vlabs.KubernetesSpecConfig.ContainerdDownloadURLBase
           (vlabs.AzureEnvironmentSpecConfig.KubernetesSpecConfig vspec)
         = KubernetesSpecConfig.ContainerdDownloadURLBase (AzureEnvironmentSpecConfig.KubernetesSpecConfig spec)
      /\ vlabs.DockerSpecConfig.DockerEngineRepo
           (vlabs.AzureEnvironmentSpecConfig.DockerSpecConfig vspec)
         = DockerSpecConfig.DockerEngineRepo (AzureEnvironmentSpecConfig.DockerSpecConfig spec)
      /\ vlabs.DockerSpecConfig.DockerComposeDownloadURL
           (vlabs.AzureEnvironmentSpecConfig.DockerSpecConfig vspec)
         = DockerSpecConfig.DockerComposeDownloadURL (AzureEnvironmentSpecConfig.DockerSpecConfig spec)
      /\ vlabs.DCOSSpecConfig.DCOS188BootstrapDownloadURL
           (vlabs.AzureEnvironmentSpecConfig.DCOSSpecConfig vspec)
         = DCOSSpecConfig.DCOS188BootstrapDownloadURL (AzureEnvironmentSpecConfig.DCOSSpecConfig spec)
      /\ vlabs.DCOSSpecConfig.DCOS190BootstrapDownloadURL
           (vlabs.AzureEnvironmentSpecConfig.DCOSSpecConfig vspec)
         = DCOSSpecConfig.DCOS190BootstrapDownloadURL (AzureEnvironmentSpecConfig.DCOSSpecConfig spec)
      /\ vlabs.DCOSSpecConfig.DCOS198BootstrapDownloadURL
           (vlabs.AzureEnvironmentSpecConfig.DCOSSpecConfig vspec)
         = DCOSSpecConfig.DCOS198BootstrapDownloadURL (AzureEnvironmentSpecConfig.DCOSSpecConfig spec)
      /\ vlabs.DCOSSpecConfig.DCOS110BootstrapDownloadURL
           (vlabs.AzureEnvironmentSpecConfig.DCOSSpecConfig vspec)
         = DCOSSpecConfig.DCOS110BootstrapDownloadURL (AzureEnvironmentSpecConfig.DCOSSpecConfig spec)
      /\ vlabs.DCOSSpecConfig.DCOS111BootstrapDownloadURL
           (vlabs.AzureEnvironmentSpecConfig.DCOSSpecConfig vspec)
         = DCOSSpecConfig.DCOS111BootstrapDownloadURL (AzureEnvironmentSpecConfig.DCOSSpecConfig spec)
      /\ vlabs.DCOSSpecConfig.DCOSWindowsBootstrapDownloadURL
           (vlabs.AzureEnvironmentSpecConfig.DCOSSpecConfig vspec)
         = DCOSSpecConfig.DCOSWindowsBootstrapDownloadURL (AzureEnvironmentSpecConfig.DCOSSpecConfig spec)
      /\ vlabs.DCOSSpecConfig.DcosRepositoryURL
           (vlabs.AzureEnvironmentSpecConfig.DCOSSpecConfig vspec)
         = DCOSSpecConfig.DcosRepositoryURL (AzureEnvironmentSpecConfig.DCOSSpecConfig spec)
      /\ vlabs.DCOSSpecConfig.DcosClusterPackageListID
           (vlabs.AzureEnvironmentSpecConfig.DCOSSpecConfig vspec)
         = DCOSSpecConfig.DcosClusterPackageListID (AzureEnvironmentSpecConfig.DCOSSpecConfig spec)
      /\ vlabs.DCOSSpecConfig.DcosProviderPackageID
           (vlabs.AzureEnvironmentSpecConfig.DCOSSpecConfig vspec)
         = DCOSSpecConfig.DcosProviderPackageID (AzureEnvironmentSpecConfig.DCOSSpecConfig spec)
      /\ vlabs.AzureEndpointConfig.ResourceManagerVMDNSSuffix
           (vlabs.AzureEnvironmentSpecConfig.EndpointConfig vspec)
         = AzureEndpointConfig.ResourceManagerVMDNSSuffix (AzureEnvironmentSpecConfig.EndpointConfig spec)
      /\ (forall (k : Distro) (v : AzureOSImageConfig.t),
             AzureEnvironmentSpecConfig.OSImageConfig spec !! k = Some v ->
             exists actualValue,
               vlabs.AzureEnvironmentSpecConfig.OSImageConfig vspec !! (k : vlabs.Distro)
               = Some actualValue
               /\ vlabs.AzureOSImageConfig.ImageOffer actualValue
                  = AzureOSImageConfig.ImageOffer v
               /\ vlabs.AzureOSImageConfig.ImageSku actualValue
                  = AzureOSImageConfig.ImageSku v
               /\ vlabs.AzureOSImageConfig.ImagePublisher actualValue
                  = AzureOSImageConfig.ImagePublisher v
               /\ vlabs.AzureOSImageConfig.ImageVersion actualValue
                  = AzureOSImageConfig.ImageVersion v)
      /\ dom (vlabs.AzureEnvironmentSpecConfig.OSImageConfig vspec)
         = dom (AzureEnvironmentSpecConfig.OSImageConfig spec).
Proof.
  intros cs p ccp spec Hp Hccp Hspec.
  exists (convertPropertiesToVLabs p), (convertCustomCloudProfileToVLabs ccp),
    (convertAzureEnvironmentSpecConfigToVLabs spec).
  split; [unfold ConvertContainerServiceToVLabs; simpl; now rewrite Hp|].
  split; [unfold convertPropertiesToVLabs; simpl; now rewrite Hccp|].
  split; [unfold convertCustomCloudProfileToVLabs; simpl; now rewrite Hspec|].
  do 28 (split; [reflexivity|]).
  split.
  - intros k v Hk. exists (convertAzureOSImageConfigToVLabs v). split.
    + simpl. rewrite convertOSImageConfigToVLabs_lookup, Hk. reflexivity.
    + repeat split.
  - simpl. rewrite convertOSImageConfigToVLabs_fmap. apply dom_fmap_L.
Qed.

Lemma ConvertContainerServiceToVLabs_keeps_environment_spec_witness :
  exists vspec,
    ((vlabs.ContainerService.Properties
        (ConvertContainerServiceToVLabs testContainerService)
        ≫= vlabs.Properties.CustomCloudProfile)
       ≫= vlabs.CustomCloudProfile.AzureEnvironmentSpecConfig)
    = Some vspec
    /\ vlabs.AzureEnvironmentSpecConfig.CloudName vspec = "AzureStackCloud"%string
    /\ dom (vlabs.AzureEnvironmentSpecConfig.OSImageConfig vspec)
       = dom (AzureEnvironmentSpecConfig.OSImageConfig testSpecConfig).
Proof.
  destruct (ConvertContainerServiceToVLabs_keeps_environment_spec
              testContainerService testProperties testCustomCloud testSpecConfig
              eq_refl eq_refl eq_refl)
    as (vp & vccp & vspec & Hp & Hccp & Hspec & H).
  exists vspec. split.
  - rewrite Hp. simpl. rewrite Hccp. simpl. now rewrite Hspec.
  - split.
    + destruct H as (_ & _ & Hname & _). exact Hname.
    + repeat match type of H with _ /\ _ => destruct H as [_ H] end. exact H.
Defined.

(** ** Round trip through a version converter *)

Section ConverterFacts.

Import Converter.

Variable dockerEngineEquivalent : Distro.


(** What [ToVersioned] accepts: every required field is set and every enum
    field holds a value of its closed set. *)
Lemma toVersionedFields_accepts (rules : list FieldRule) :
  forall (c out : gmap string string),
    (exists x, toVersionedFields rules c out = Converted x)
    <-> (forall r, r ∈ rules ->
           match c !! canonicalName r with
           | Some v => admits (kind r) v = true
           | None => required r = false
           end).
Proof.
  induction rules as [|r0 rest IH]; intros c out; simpl.
  - split; [|eauto]. intros _ r Hr. inversion Hr.
  - destruct (c !! canonicalName r0) as [v|] eqn:Ec.
    + destruct (admits (kind r0) v) eqn:Ea.
      * rewrite IH. split.
        -- intros H r Hr. apply elem_of_cons in Hr as [->|Hr]; [|now apply H].
           now rewrite Ec.
        -- intros H r Hr. apply H. now right.
      * split; [intros (x & Hx); discriminate|]. intros H.
        specialize (H r0 (list_elem_of_here _ _)). rewrite Ec in H. congruence.
    + destruct (required r0) eqn:Er.
      * split; [intros (x & Hx); discriminate|]. intros H.
        specialize (H r0 (list_elem_of_here _ _)). rewrite Ec in H. congruence.
      * rewrite IH. split.
        -- intros H r Hr. apply elem_of_cons in Hr as [->|Hr]; [|now apply H].
           now rewrite Ec.
        -- intros H r Hr. apply H. now right.
Qed.

(** The external document holds, under the external name of each rule, the
    value the canonical document has under its canonical name, and is
    otherwise as it was. *)
Lemma toVersionedFields_lookup (rules : list FieldRule) :
  forall (c out x : gmap string string),
    NoDup (externalName <$> rules) ->
    toVersionedFields rules c out = Converted x ->
    (forall r, r ∈ rules ->
       x !! externalName r
       = match c !! canonicalName r with
         | Some v => Some v
         | None => out !! externalName r
         end)
    /\ (forall e, e ∉ externalName <$> rules -> x !! e = out !! e).
Proof.
  induction rules as [|r0 rest IH]; intros c out x Hnd; simpl.
  - intros [= <-]. split; [|reflexivity]. intros r Hr. inversion Hr.
  - rewrite fmap_cons in Hnd. apply NoDup_cons in Hnd as [Hfresh Hnd].
    destruct (c !! canonicalName r0) as [v|] eqn:Ec.
    + destruct (admits (kind r0) v); [|discriminate]. intros Hx.
      destruct (IH c (<[externalName r0 := v]> out) x Hnd Hx) as (Hin & Hout).
      split.
      * intros r Hr. apply elem_of_cons in Hr as [->|Hr].
        -- rewrite Ec, Hout by assumption. apply lookup_insert_eq.
        -- rewrite Hin by assumption.
           destruct (c !! canonicalName r); [reflexivity|].
           apply lookup_insert_ne. intros E. apply Hfresh. rewrite E.
           now apply list_elem_of_fmap_2.
      * intros e He. apply not_elem_of_cons in He as [Hne He].
        rewrite Hout by assumption. now apply lookup_insert_ne.
    + destruct (required r0); [discriminate|]. intros Hx.
      destruct (IH c out x Hnd Hx) as (Hin & Hout).
      split.
      * intros r Hr. apply elem_of_cons in Hr as [->|Hr].
        -- rewrite Ec. now apply Hout.
        -- now apply Hin.
      * intros e He. apply not_elem_of_cons in He as [_ He]. now apply Hout.
Qed.

(** The same on the way back, with the inverse renames and the legacy
    distro aliases replaced. *)
Lemma toCanonicalFields_lookup (rules : list FieldRule) :
  forall (x out : gmap string string),
    NoDup (canonicalName <$> rules) ->
    (forall r, r ∈ rules ->
       match x !! externalName r with
       | Some v => admits (kind r) v = true
       | None => required r = false
       end) ->
    exists c',
      toCanonicalFields dockerEngineEquivalent rules x out = Converted c'
      /\ (forall r, r ∈ rules ->
            c' !! canonicalName r
            = match x !! externalName r with
              | Some v => Some (toCanonicalValue dockerEngineEquivalent (kind r) v)
              | None => out !! canonicalName r
              end)
      /\ (forall f, f ∉ canonicalName <$> rules -> c' !! f = out !! f).
Proof.
  induction rules as [|r0 rest IH]; intros x out Hnd Hok; simpl.
  - exists out. split; [reflexivity|]. split; [|reflexivity].
    intros r Hr. inversion Hr.
  - rewrite fmap_cons in Hnd. apply NoDup_cons in Hnd as [Hfresh Hnd].
    assert (Hok0 := Hok r0 (list_elem_of_here _ _)).
    assert (Hrest : forall r, r ∈ rest ->
              match x !! externalName r with
              | Some v => admits (kind r) v = true
              | None => required r = false
              end).
    { intros r Hr. apply Hok. now right. }
    destruct (x !! externalName r0) as [v|] eqn:Ex.
    + rewrite Hok0.
      destruct (IH x (<[canonicalName r0 :=
                          toCanonicalValue dockerEngineEquivalent (kind r0) v]> out)
                  Hnd Hrest) as (c' & Hc & Hin & Hout).
      exists c'. split; [exact Hc|]. split.
      * intros r Hr. apply elem_of_cons in Hr as [->|Hr].
        -- rewrite Ex, Hout by assumption. apply lookup_insert_eq.
        -- rewrite Hin by assumption.
           destruct (x !! externalName r); [reflexivity|].
           apply lookup_insert_ne. intros E. apply Hfresh. rewrite E.
           now apply list_elem_of_fmap_2.
      * intros f Hf. apply not_elem_of_cons in Hf as [Hne Hf].
        rewrite Hout by assumption. now apply lookup_insert_ne.
    + rewrite Hok0.
      destruct (IH x out Hnd Hrest) as (c' & Hc & Hin & Hout).
      exists c'. split; [exact Hc|]. split.
      * intros r Hr. apply elem_of_cons in Hr as [->|Hr].
        -- rewrite Ex. now apply Hout.
        -- now apply Hin.
      * intros f Hf. apply not_elem_of_cons in Hf as [_ Hf]. now apply Hout.
Qed.

Variable schema : Version -> list FieldRule.

(** The round trip, field by field: a field of the table comes back with
    the value it had, a distro field with the modern equivalent of the
    value it had; a field outside the table comes back as the zero value. *)
Lemma round_trip_lookup (V : Version) (c x : gmap string string) :
  wellFormed schema V ->
  ToVersioned schema V c = Converted x ->
  exists c',
    ToCanonical dockerEngineEquivalent schema V x = Converted c'
    /\ (forall r, r ∈ schema V ->
          c' !! canonicalName r
          = match kind r with
            | DistroField =>
                modernDistro dockerEngineEquivalent <$> c !! canonicalName r
            | _ => c !! canonicalName r
            end)
    /\ (forall f, f ∉ representable schema V -> c' !! f = None).
Proof.
  intros [Hcanon Hext] Hx. unfold ToVersioned in Hx.
  destruct (toVersionedFields_lookup (schema V) c ∅ x Hext Hx) as (Hxin & _).
  pose proof (proj1 (toVersionedFields_accepts (schema V) c ∅)
                (ex_intro _ x Hx)) as Hok.
  assert (Hfield : forall r, r ∈ schema V ->
            x !! externalName r = c !! canonicalName r).
  { intros r Hr. rewrite Hxin by assumption.
    destruct (c !! canonicalName r); [reflexivity|apply lookup_empty]. }
  destruct (toCanonicalFields_lookup (schema V) x ∅ Hcanon)
    as (c' & Hc' & Hcin & Hcout).
  { intros r Hin. rewrite Hfield by assumption. now apply Hok. }
  exists c'. split; [exact Hc'|]. split.
  - intros r Hr. rewrite Hcin, Hfield by assumption.
    destruct (c !! canonicalName r) as [v|].
    + unfold toCanonicalValue. now destruct (kind r).
    + rewrite lookup_empty. now destruct (kind r).
  - intros f Hf. rewrite Hcout by assumption. apply lookup_empty.
Qed.

(** The legacy alias does not survive the round trip in any version that
    has a distro field: whatever the table, a document the version accepts
    is still accepted with "aks" in that field, and comes back holding
    "aks-ubuntu-16.04" there. *)
Lemma round_trip_rewrites_legacy_alias (V : Version) (r : FieldRule)
    (c0 x0 : gmap string string) :
  wellFormed schema V ->
  r ∈ schema V -> kind r = DistroField ->
  ToVersioned schema V c0 = Converted x0 ->
  let c := <[canonicalName r := AKS1604Deprecated]> c0 in
  exists x c',
    ToVersioned schema V c = Converted x
    /\ ToCanonical dockerEngineEquivalent schema V x = Converted c'
    /\ c !! canonicalName r = Some AKS1604Deprecated
    /\ c' !! canonicalName r = Some AKSUbuntu1604.
Proof.
  intros Hwf Hr Hkind Hx0 c.
  assert (Hacc : exists x, toVersionedFields (schema V) c ∅ = Converted x).
  { apply toVersionedFields_accepts. intros r' Hr'.
    pose proof (proj1 (toVersionedFields_accepts (schema V) c0 ∅)
                  (ex_intro _ x0 Hx0) r' Hr') as Hok.
    subst c. destruct (decide (canonicalName r' = canonicalName r)) as [E|E].
    - rewrite E, lookup_insert_eq.
      assert (r' = r) as ->.
      { destruct Hwf as [Hnd _].
        apply list_elem_of_lookup in Hr' as (i & Hi).
        apply list_elem_of_lookup in Hr as (j & Hj).
        assert (i = j) as ->.
        { eapply NoDup_lookup; [exact Hnd| |].
          - rewrite list_lookup_fmap, Hi. reflexivity.
          - rewrite list_lookup_fmap, Hj. simpl. now rewrite E. }
        congruence. }
      now rewrite Hkind.
    - rewrite lookup_insert_ne by congruence. exact Hok. }
  destruct Hacc as (x & Hx).
  destruct (round_trip_lookup V c x Hwf Hx) as (c' & Hc' & Hback & _).
  exists x, c'. split; [exact Hx|]. split; [exact Hc'|].
  assert (Hc : c !! canonicalName r = Some AKS1604Deprecated)
    by (subst c; apply lookup_insert_eq).
  split; [exact Hc|].
  rewrite (Hback r Hr), Hkind. unfold Distro in *. now rewrite Hc.
Qed.


End ConverterFacts.




(** * Further properties *)

(** ** Agent pool scans *)

Lemma rangeAny_exists {A : Type} (f : A -> bool) (l : list A) :
  rangeAny f l = true <-> exists x, x ∈ l /\ f x = true.
Proof.
  induction l as [|a l IH]; simpl.
  - split; [discriminate|]. intros (x & Hx & _). inversion Hx.
  - destruct (f a) eqn:E.
    + split; [|reflexivity]. intros _. exists a. split; [left|exact E].
    + rewrite IH. split.
      * intros (x & Hx & Hf). exists x. split; [now right|exact Hf].
      * intros (x & Hx & Hf). apply elem_of_cons in Hx as [->|Hx].
        -- congruence.
        -- exists x. now split.
Qed.

Lemma indexOfName_first_match (name : string) (l : list AgentPoolProfile.t) :
  forall i0 : Z,
    ((forall a, a ∈ l -> AgentPoolProfile.Name a <> name)
     /\ indexOfName name l i0 = (-1)%Z)
    \/ (exists (k : nat) a,
           l !! k = Some a
           /\ AgentPoolProfile.Name a = name
           /\ indexOfName name l i0 = (i0 + Z.of_nat k)%Z
           /\ forall (j : nat) b, j < k -> l !! j = Some b ->
                                  AgentPoolProfile.Name b <> name).
Proof.
  induction l as [|a l IH]; intros i0; simpl.
  - left. split; [|reflexivity]. intros a Ha. inversion Ha.
  - destruct (String.eqb (AgentPoolProfile.Name a) name) eqn:E.
    + right. exists 0, a. apply string_eqb_true in E.
      repeat split; [exact E|lia|]. intros j b Hj. lia.
    + apply string_eqb_false in E.
      destruct (IH (i0 + 1)%Z) as [[Hnone Hr]|(k & b & Hk & Hb & Hr & Hbefore)].
      * left. split; [|exact Hr]. intros x Hx.
        apply elem_of_cons in Hx as [->|Hx]; [exact E|now apply Hnone].
      * right. exists (S k), b. repeat split; [exact Hk|exact Hb|lia|].
        intros j c Hj Hc. destruct j as [|j]; simpl in Hc.
        -- injection Hc as <-. exact E.
        -- apply (Hbefore j c); [lia|exact Hc].
Qed.

(** X1. [GetAgentPoolIndexByName] returns -1 exactly when no agent pool has
    the name; otherwise it returns the position of the first pool of that
    name, so indexing the pools with the result yields a pool of that name
    and every earlier pool has another name. *)
Theorem GetAgentPoolIndexByName_first_match :
  forall (p : Properties.t) (name : string),
    ((forall a, a ∈ pools p -> AgentPoolProfile.Name a <> name)
     /\ GetAgentPoolIndexByName p name = (-1)%Z
     /\ index (pools p) (GetAgentPoolIndexByName p name) = Panic IndexOutOfRange)
    \/ (exists (k : nat) a,
           GetAgentPoolIndexByName p name = Z.of_nat k
           /\ index (pools p) (GetAgentPoolIndexByName p name) = Ret a
           /\ AgentPoolProfile.Name a = name
           /\ forall (j : nat) b, j < k -> pools p !! j = Some b ->
                                  AgentPoolProfile.Name b <> name).
Proof.
  intros p name. unfold GetAgentPoolIndexByName.
  destruct (indexOfName_first_match name (pools p) 0)
    as [[Hnone Hr]|(k & a & Hk & Ha & Hr & Hbefore)].
  - left. rewrite Hr. repeat split; assumption.
  - right. exists k, a. rewrite Hr, Z.add_0_l. repeat split; try assumption.
    unfold index. destruct (Z.ltb_spec (Z.of_nat k) 0) as [Hlt|_]; [lia|].
    now rewrite Nat2Z.id, Hk.
Qed.

(** ** Names of the virtual network *)

Lemma index_elem_of {A : Type} (l : list A) (i : Z) (x : A) :
  index l i = Ret x -> x ∈ l.
Proof.
  unfold index. destruct (i <? 0)%Z; [discriminate|].
  destruct (l !! Z.to_nat i) eqn:E; [|discriminate].
  intros [= <-]. eapply list_elem_of_lookup_2. exact E.
Qed.

Lemma index_below {A : Type} (l : list A) (i j : Z) (x : A) :
  index l i = Ret x -> (0 <= j <= i)%Z -> exists y, index l j = Ret y.
Proof.
  unfold index. intros H Hj.
  destruct (Z.ltb_spec i 0) as [|_]; [discriminate|].
  destruct (l !! Z.to_nat i) eqn:E; [|discriminate].
  destruct (Z.ltb_spec j 0) as [|_]; [lia|].
  apply lookup_lt_Some in E.
  destruct (lookup_lt_is_Some_2 l (Z.to_nat j)) as [y Hy]; [lia|].
  exists y. now rewrite Hy.
Qed.

Lemma segment_noSlash (id : string) (i : Z) (s : string) :
  segment id i = Ret s -> noSlash s = true.
Proof.
  intros H. apply index_elem_of in H. now apply splitSlash_noSlash in H.
Qed.

Lemma K8sOrchestratorName_values (p : Properties.t) (name : string) :
  K8sOrchestratorName p = Ret name ->
  name = "aks"%string \/ name = "k8s"%string \/ name = EmptyString.
Proof.
  unfold K8sOrchestratorName.
  destruct (Properties.OrchestratorProfile p) as [o|]; [|discriminate].
  destruct (IsKubernetes o); [|intros [= <-]; auto].
  destruct (Properties.HostedMasterProfile p); intros [= <-]; auto.
Qed.

(** X2. The subnet name and the resource group name of the virtual network
    never contain a slash, whichever way they are derived: a segment of the
    subnet ID between two slashes, or the orchestrator code followed by
    "-subnet", or the empty string. *)
Theorem subnet_and_resource_group_names_have_no_slash :
  forall (p : Properties.t) (s : string),
    (GetSubnetName p = Ret s -> noSlash s = true)
    /\ (GetVNetResourceGroupName p = Ret s -> noSlash s = true).
Proof.
  intros p s. split.
  - unfold GetSubnetName.
    assert (Hdefault :
      (name <~ K8sOrchestratorName p ;; Ret (name +:+ "-subnet")%string) = Ret s ->
      noSlash s = true).
    { destruct (K8sOrchestratorName p) as [name|e] eqn:En; [|discriminate].
      simpl. intros [= <-].
      destruct (K8sOrchestratorName_values p name En) as [->|[->| ->]];
        reflexivity. }
    destruct (IsHostedMasterProfile p).
    + destruct (AreAgentProfilesCustomVNET p); [|exact Hdefault].
      destruct (firstAgentPool p) as [a|e]; [|discriminate].
      simpl. apply segment_noSlash.
    + destruct (masterIsCustomVNET p) as [[]|e]; simpl;
        [|exact Hdefault|discriminate].
      destruct (masterVnetSubnetID p) as [id|e]; [|discriminate].
      simpl. apply segment_noSlash.
  - unfold GetVNetResourceGroupName.
    destruct (IsHostedMasterProfile p && AreAgentProfilesCustomVNET p).
    + destruct (firstAgentPool p) as [a|e]; [|discriminate].
      simpl. apply segment_noSlash.
    + destruct (selfHostedOnCustomVNET p) as [[]|e]; simpl;
        [|intros [= <-]; reflexivity|discriminate].
      destruct (masterVnetSubnetID p) as [id|e]; [|discriminate].
      simpl. apply segment_noSlash.
Qed.

Lemma subnet_and_resource_group_names_have_no_slash_witness :
  GetSubnetName selfHostedCustomVNET = Ret "SUBNET"%string
  /\ noSlash "SUBNET" = true
  /\ GetVNetResourceGroupName hostedCustomVNET = Ret "RG"%string
  /\ noSlash "RG" = true.
Proof.
  split; [reflexivity|]. split.
  - apply (proj1 (subnet_and_resource_group_names_have_no_slash
                    selfHostedCustomVNET "SUBNET")). reflexivity.
  - split; [reflexivity|].
    apply (proj2 (subnet_and_resource_group_names_have_no_slash
                    hostedCustomVNET "RG")). reflexivity.
Defined.

(** X3. [GetSubnetName] is the most demanding of the three name queries:
    whenever it returns, [GetVNetResourceGroupName] and
    [GetVirtualNetworkName] return as well.  (It reads segment 10 of the
    subnet ID, they read segments 4 and 8.) *)
Theorem GetSubnetName_returns_then_the_others_return :
  forall (randUint32 : Z -> Z) (p : Properties.t) (subnet : string),
    GetSubnetName p = Ret subnet ->
    exists rg vnet p',
      GetVNetResourceGroupName p = Ret rg
      /\ GetVirtualNetworkName randUint32 p = Ret (vnet, p').
Proof.
  intros randUint32 p subnet.
  unfold GetSubnetName, GetVNetResourceGroupName, GetVirtualNetworkName,
    selfHostedOnCustomVNET, query, mbind, mret, clusterID.
  destruct (IsHostedMasterProfile p); simpl.
  - destruct (AreAgentProfilesCustomVNET p).
    + destruct (firstAgentPool p) as [a|e]; [|discriminate]. simpl.
      unfold segment. intros H.
      destruct (index_below _ _ DefaultVnetResourceGroupSegmentIndex _ H)
        as [rg Hrg]; [unfold DefaultVnetResourceGroupSegmentIndex,
                        DefaultSubnetNameResourceSegmentIndex; lia|].
      destruct (index_below _ _ DefaultVnetNameResourceSegmentIndex _ H)
        as [vnet Hvnet]; [unfold DefaultVnetNameResourceSegmentIndex,
                            DefaultSubnetNameResourceSegmentIndex; lia|].
      exists rg, vnet, p. now rewrite Hrg, Hvnet.
    + destruct (K8sOrchestratorName p) as [name|e]; [|discriminate].
      intros _. destruct (GetClusterID randUint32 p) as [id p'].
      eexists _, _, _. split; reflexivity.
  - destruct (masterIsCustomVNET p) as [[]|e]; simpl; [| |discriminate].
    + destruct (masterVnetSubnetID p) as [id|e]; [|discriminate]. simpl.
      unfold segment. intros H.
      destruct (index_below _ _ DefaultVnetResourceGroupSegmentIndex _ H)
        as [rg Hrg]; [unfold DefaultVnetResourceGroupSegmentIndex,
                        DefaultSubnetNameResourceSegmentIndex; lia|].
      destruct (index_below _ _ DefaultVnetNameResourceSegmentIndex _ H)
        as [vnet Hvnet]; [unfold DefaultVnetNameResourceSegmentIndex,
                            DefaultSubnetNameResourceSegmentIndex; lia|].
      exists rg, vnet, p. now rewrite Hrg, Hvnet.
    + destruct (K8sOrchestratorName p) as [name|e]; [|discriminate].
      intros _. destruct (GetClusterID randUint32 p) as [id p'].
      eexists _, _, _. split; reflexivity.
Qed.

Lemma GetSubnetName_returns_then_the_others_return_witness :
  GetSubnetName selfHostedCustomVNET = Ret "SUBNET"%string
  /\ exists rg vnet p',
      GetVNetResourceGroupName selfHostedCustomVNET = Ret rg
      /\ GetVirtualNetworkName sampleRand selfHostedCustomVNET = Ret (vnet, p').
Proof.
  split; [reflexivity|].
  apply (GetSubnetName_returns_then_the_others_return sampleRand
           selfHostedCustomVNET "SUBNET"). reflexivity.
Defined.



(** ** Names that carry the cluster ID *)

Lemma GetClusterID_cases (randUint32 : Z -> Z) (p p1 : Properties.t) (id : string) :
  GetClusterID randUint32 p = (id, p1) ->
  (Properties.ClusterID p <> EmptyString /\ id = Properties.ClusterID p /\ p1 = p)
  \/ (Properties.ClusterID p = EmptyString /\ id = newClusterID randUint32 p
      /\ p1 = Properties.setClusterID p id).
Proof.
  unfold GetClusterID.
  destruct (String.eqb (Properties.ClusterID p) EmptyString) eqn:E.
  - apply string_eqb_true in E. simpl. intros [= <- <-]. right. auto.
  - apply string_eqb_false in E. intros [= <- <-]. left. auto.
Qed.

Lemma GetClusterID_again (randUint32 : Z -> Z) (p p1 : Properties.t) (id : string) :
  GetClusterID randUint32 p = (id, p1) ->
  GetClusterID randUint32 p1 = (id, p1).
Proof.
  intros H. destruct (GetClusterID_cases _ _ _ _ H)
    as [(Hset & -> & ->)|(Hempty & Hid & ->)]; [exact H|].
  unfold GetClusterID. simpl.
  destruct (String.eqb id EmptyString) eqn:E; [|reflexivity].
  apply string_eqb_true in E. subst id.
  now destruct (newClusterID_not_empty randUint32 p).
Qed.

Lemma GetClusterID_keeps_topology (randUint32 : Z -> Z) (p p1 : Properties.t)
    (id : string) :
  GetClusterID randUint32 p = (id, p1) ->
  K8sOrchestratorName p1 = K8sOrchestratorName p
  /\ IsHostedMasterProfile p1 = IsHostedMasterProfile p
  /\ pools p1 = pools p.
Proof.
  intros H. destruct (GetClusterID_cases _ _ _ _ H)
    as [(_ & _ & ->)|(_ & _ & ->)]; repeat split.
Qed.

Lemma GetResourcePrefix_again (randUint32 : Z -> Z) (p p1 : Properties.t)
    (prefix : string) :
  GetResourcePrefix randUint32 p = Ret (prefix, p1) ->
  GetResourcePrefix randUint32 p1 = Ret (prefix, p1).
Proof.
  unfold GetResourcePrefix, mbind, query, clusterID, mret.
  destruct (K8sOrchestratorName p) as [name|e] eqn:En;
    [|destruct (IsHostedMasterProfile p); discriminate].
  destruct (GetClusterID randUint32 p) as [id q] eqn:Eid.
  destruct (GetClusterID_keeps_topology _ _ _ _ Eid) as (Hn & Hh & _).
  pose proof (GetClusterID_again _ _ _ _ Eid) as Hagain.
  destruct (IsHostedMasterProfile p) eqn:Ehosted; intros [= <- <-];
    rewrite Hh, Hn, En, Hagain; reflexivity.
Qed.

(** X5. The route table name and the NSG name are one resource prefix
    followed by "routetable" and by "nsg".  Asking for either computes the
    cluster ID at most once: the receiver left behind answers every later
    query with the same prefix and the same names, in whatever order the
    queries come. *)
Theorem route_table_and_NSG_names_share_the_prefix :
  forall (randUint32 : Z -> Z) (p p1 : Properties.t) (routeTable : string),
    GetRouteTableName randUint32 p = Ret (routeTable, p1) ->
    exists prefix,
      routeTable = (prefix +:+ "routetable")%string
      /\ GetResourcePrefix randUint32 p = Ret (prefix, p1)
      /\ GetNSGName randUint32 p = Ret ((prefix +:+ "nsg")%string, p1)
      /\ GetResourcePrefix randUint32 p1 = Ret (prefix, p1)
      /\ GetRouteTableName randUint32 p1 = Ret (routeTable, p1)
      /\ GetNSGName randUint32 p1 = Ret ((prefix +:+ "nsg")%string, p1).
Proof.
  intros randUint32 p p1 routeTable.
  unfold GetRouteTableName, GetNSGName, mbind, mret.
  destruct (GetResourcePrefix randUint32 p) as [[prefix q]|e] eqn:E;
    [|discriminate].
  intros [= <- <-]. exists prefix.
  rewrite (GetResourcePrefix_again _ _ _ _ E). repeat split.
Qed.

Lemma route_table_and_NSG_names_share_the_prefix_witness :
  exists p1 prefix,
    GetRouteTableName sampleRand selfHostedCluster
    = Ret ((prefix +:+ "routetable")%string, p1)
    /\ GetNSGName sampleRand p1 = Ret ((prefix +:+ "nsg")%string, p1).
Proof.
  destruct (GetRouteTableName sampleRand selfHostedCluster)
    as [[routeTable p1]|e] eqn:E; [|vm_compute in E; discriminate].
  destruct (route_table_and_NSG_names_share_the_prefix sampleRand
              selfHostedCluster p1 routeTable E)
    as (prefix & -> & _ & _ & _ & _ & Hnsg).
  exists p1, prefix. split; [reflexivity|exact Hnsg].
Defined.

Lemma append_not_empty (s t : string) :
  t <> EmptyString -> (s +:+ t)%string <> EmptyString.
Proof.
  intros Ht E. destruct s; simpl in E; [contradiction|discriminate].
Qed.

(** X6. [GetPrimaryAvailabilitySetName] never panics.  Its result is
    non-empty exactly when the first agent pool is an availability set;
    later pools are not looked at.  When the result is empty the receiver is
    left as it was, its cluster ID still to be computed. *)
Theorem GetPrimaryAvailabilitySetName_looks_at_the_first_pool :
  forall (randUint32 : Z -> Z) (p : Properties.t),
    exists name p',
      GetPrimaryAvailabilitySetName randUint32 p = Ret (name, p')
      /\ (name <> EmptyString <->
          exists first rest,
            pools p = first :: rest
            /\ AgentPoolProfile.AvailabilityProfile first = AvailabilitySet)
      /\ (name = EmptyString -> p' = p)
      /\ (name <> EmptyString ->
          exists first rest,
            pools p = first :: rest
            /\ name = (AgentPoolProfile.Name first +:+ "-availabilitySet-"
                       +:+ fst (GetClusterID randUint32 p))%string
            /\ p' = snd (GetClusterID randUint32 p)).
Proof.
  intros randUint32 p. unfold GetPrimaryAvailabilitySetName, mbind, mret, clusterID.
  destruct (pools p) as [|first rest] eqn:Epools.
  - exists EmptyString, p. split; [reflexivity|]. split; [|split].
    + split; [congruence|]. intros (f & r & H & _). discriminate.
    + reflexivity.
    + congruence.
  - destruct (String.eqb (AgentPoolProfile.AvailabilityProfile first) AvailabilitySet)
      eqn:E.
    + apply string_eqb_true in E.
      destruct (GetClusterID randUint32 p) as [id q].
      eexists _, _. split; [reflexivity|].
      assert (Hne : (AgentPoolProfile.Name first +:+ "-availabilitySet-" +:+ id)%string
                    <> EmptyString).
      { apply append_not_empty. discriminate. }
      split; [|split].
      * split; [|intros _; exact Hne]. intros _. now exists first, rest.
      * intros H. now destruct Hne.
      * intros _. now exists first, rest.
    + apply string_eqb_false in E.
      exists EmptyString, p. split; [reflexivity|]. split; [|split].
      * split; [congruence|]. intros (f & r & [= <- <-] & H). contradiction.
      * reflexivity.
      * congruence.
Qed.

(** ** First static IP address on IPv4 subnets *)

(** A field written with a leading zero makes the address unreadable as
    IPv4; the same address without it is read. *)
Lemma parseIPv4_refuses_leading_zero :
  parseIPv4 "010.0.0.1" = None /\ parseIPv4 "10.0.0.1" = Some [10; 0; 0; 1]%Z.
Proof. split; reflexivity. Qed.

Lemma parseIPv4_fields_length (k : nat) :
  forall (first : bool) (s : string) (l : list Z),
    parseIPv4_fields k first s = Some l -> length l = k.
Proof.
  induction k as [|k IH]; intros first s l; simpl.
  - destruct (String.eqb s EmptyString); [|discriminate]. now intros [= <-].
  - destruct s as [|c rest]; [discriminate|].
    destruct (if first then Some (String c rest)
              else if Ascii.eqb c "." then Some rest else None) as [s1|];
      [|discriminate].
    destruct (dtoi s1) as [[n s2] ok].
    destruct (negb ok || (255 <? n)%Z); [discriminate|].
    destruct (hasLeadingZero s1 s2); [discriminate|].
    destruct (parseIPv4_fields k false s2) as [l'|] eqn:E; [|discriminate].
    simpl. intros [= <-]. simpl. f_equal. now apply (IH false s2).
Qed.

Lemma CIDRMask_bytes_length (l : nat) :
  forall n : Z, length (CIDRMask_bytes l n) = l.
Proof.
  induction l as [|l IH]; intros n; simpl; [reflexivity|].
  destruct (8 <=? n)%Z; simpl; now rewrite IH.
Qed.

Lemma maskBytes_length (ip mask : list Z) :
  length ip = length mask -> length (maskBytes ip mask) = length ip.
Proof.
  revert mask. induction ip as [|b ip IH]; intros [|m mask] H; simpl in *;
    try reflexivity; try discriminate.
  f_equal. apply IH. lia.
Qed.

Lemma list_of_length_four {A : Type} (l : list A) :
  length l = 4 -> exists a b c d, l = [a; b; c; d].
Proof.
  destruct l as [|a [|b [|c [|d [|e l]]]]]; try discriminate.
  intros _. now exists a, b, c, d.
Qed.

Section StaticIPTotality.

Variable parseIPv6 : string -> option (list Z).
Variable ipv6String : list Z -> string.

Local Abbreviation parse := (ParseCIDR parseIPv6).
Local Abbreviation firstStaticIP :=
  (GetFirstConsecutiveStaticIPAddress parseIPv6 ipv6String).

(** What [net.ParseCIDR] makes of a string whose address part is dotted
    IPv4: an error unless the rest is a prefix length of at most 32, and
    otherwise a 4-byte network address with the mask of that length. *)
Lemma ParseCIDR_of_IPv4 (s addr bits : string) (ip4 : list Z) :
  cutSlash s = Some (addr, bits) ->
  parseIPv4 addr = Some ip4 ->
  (parse s = None /\ forall n, (0 <= n <= 32)%Z -> dtoi bits <> (n, EmptyString, true))
  \/ (exists n a b c d,
        (0 <= n <= 32)%Z
        /\ dtoi bits = (n, EmptyString, true)
        /\ parse s = Some {| IP := [a; b; c; d]; Mask := CIDRMask n 32 |}).
Proof.
  intros Hcut Hip. unfold ParseCIDR. rewrite Hcut, Hip.
  destruct (dtoi bits) as [[n rest] ok].
  destruct ok; simpl.
  - destruct (String.eqb rest EmptyString) eqn:Erest; simpl.
    + apply string_eqb_true in Erest. subst rest.
      destruct (Z.ltb_spec n 0) as [Hneg|Hpos]; simpl.
      * left. split; [reflexivity|]. intros k Hk [= ->]. lia.
      * unfold IPv4len. change (8 * 4)%Z with 32%Z.
        destruct (Z.ltb_spec 32 n) as [Hbig|Hsmall].
        -- left. split; [reflexivity|]. intros k Hk [= ->]. lia.
        -- right.
           assert (Hlen : length (maskBytes ip4 (CIDRMask n 32)) = 4).
           { rewrite maskBytes_length;
               [apply (parseIPv4_fields_length 4 true addr); exact Hip|].
             rewrite (parseIPv4_fields_length 4 true addr ip4 Hip).
             unfold CIDRMask. now rewrite CIDRMask_bytes_length. }
           destruct (list_of_length_four _ Hlen) as (a & b & c & d & ->).
           exists n, a, b, c, d. repeat split; lia.
    + left. split; [reflexivity|]. intros k Hk [= _ -> ]. discriminate.
  - left. split; [reflexivity|]. intros k Hk. congruence.
Qed.

(** X7. On a string whose address part is dotted IPv4 (four decimal fields
    of at most 255, none of several digits starting with a zero, so that
    every release of [net] reads it alike), a scale-set master always gets
    an address back, the default one if the prefix length is malformed.  A
    master of any other availability profile gets one back too, except for
    a prefix length of 32, where the method panics with an index out of
    range. *)
Theorem first_static_IP_on_IPv4_panics_only_on_full_prefix :
  forall (m : MasterProfile.t) (s addr bits : string) (ip4 : list Z),
    cutSlash s = Some (addr, bits) ->
    parseIPv4 addr = Some ip4 ->
    (IsVirtualMachineScaleSets m = true ->
       exists out, firstStaticIP m s = Ret out)
    /\ (IsVirtualMachineScaleSets m = false ->
        (dtoi bits = (32%Z, EmptyString, true)
         /\ firstStaticIP m s = Panic IndexOutOfRange)
        \/ (dtoi bits <> (32%Z, EmptyString, true)
            /\ exists out, firstStaticIP m s = Ret out)).
Proof.
  intros m s addr bits ip4 Hcut Hip.
  destruct (ParseCIDR_of_IPv4 s addr bits ip4 Hcut Hip)
    as [[Hnone Hbits]|(n & a & b & c & d & Hn & Hbits & Hparse)].
  - assert (Hdefault : firstStaticIP m s = Ret DefaultFirstConsecutiveKubernetesStaticIP).
    { unfold GetFirstConsecutiveStaticIPAddress. now rewrite Hnone. }
    split; intros _; [eauto|]. right. split; [apply Hbits; lia|eauto].
  - pose proof (first_static_IP_of_IPv4_subnet parseIPv6 ipv6String m s a b c d n
                  Hparse Hn) as Hres.
    split; intros Hm; rewrite Hm in Hres; [eauto|].
    assert (Hin : n ∈ seqZ 0 33) by (apply elem_of_seqZ; lia).
    vm_compute in Hin.
    repeat (apply elem_of_cons in Hin as [->|Hin];
            [first [ right; split;
                       [rewrite Hbits; intros [= ?]; lia|eexists; exact Hres]
                   | left; split; [exact Hbits|exact Hres] ]|]).
    inversion Hin.
Qed.

End StaticIPTotality.

Lemma first_static_IP_on_IPv4_panics_only_on_full_prefix_witness :
  cutSlash "10.0.0.1/32" = Some ("10.0.0.1", "32")%string
  /\ parseIPv4 "10.0.0.1" = Some [10; 0; 0; 1]%Z
  /\ (exists out,
        GetFirstConsecutiveStaticIPAddress noIPv6 blankIPv6 sampleMasterVMSS
          "10.0.0.1/32" = Ret out).
Proof.
  split; [reflexivity|]. split; [reflexivity|].
  apply (proj1 (first_static_IP_on_IPv4_panics_only_on_full_prefix
                  noIPv6 blankIPv6 sampleMasterVMSS "10.0.0.1/32" "10.0.0.1" "32"
                  [10; 0; 0; 1]%Z eq_refl eq_refl)).
  reflexivity.
Defined.

(** ** Addons *)

(** X9. What [GetAddonByName] returns is either an addon of the list that
    carries the requested name, or, when no addon of the list carries it,
    the zero value; so the script of an addon that is not listed is empty
    and such an addon is not enabled. *)
Theorem GetAddonByName_returns_a_named_addon_or_zero :
  forall (k : KubernetesConfig.t) (name : string),
    (GetAddonByName k name ∈ KubernetesConfig.Addons k
     /\ KubernetesAddon.Name (GetAddonByName k name) = name)
    \/ ((forall b, b ∈ KubernetesConfig.Addons k -> KubernetesAddon.Name b <> name)
        /\ GetAddonByName k name = KubernetesAddon.zero
        /\ GetAddonScript k name = EmptyString
        /\ IsAddonEnabled k name = false).
Proof.
  intros [addons] name. unfold GetAddonScript, IsAddonEnabled, GetAddonByName.
  simpl. induction addons as [|a l IH]; simpl.
  - right. split; [|repeat split]. intros b Hb. inversion Hb.
  - destruct (String.eqb (KubernetesAddon.Name a) name) eqn:E.
    + left. apply string_eqb_true in E. split; [left|exact E].
    + apply string_eqb_false in E.
      destruct IH as [[Hin Hname]|(Hnone & Hz & Hs & He)].
      * left. split; [now right|exact Hname].
      * right. split; [|repeat split; assumption].
        intros b Hb. apply elem_of_cons in Hb as [->|Hb]; [exact E|now apply Hnone].
Qed.

(** ** The digits of the cluster ID *)

Lemma decimalDigits_length_ge (fuel : nat) :
  forall (n : Z) (acc : string),
    String.length acc <= String.length (decimalDigits fuel n acc).
Proof.
  induction fuel as [|fuel IH]; intros n acc; simpl; [lia|].
  destruct (n <? 10)%Z; simpl; [lia|].
  specialize (IH (n / 10)%Z (String (digitChar (n mod 10)) acc)). simpl in IH. lia.
Qed.

Lemma decimalDigits_length_upper (fuel : nat) :
  forall (n : Z) (acc : string) (k : nat),
    (0 <= n < 10 ^ Z.of_nat (S k))%Z ->
    String.length (decimalDigits fuel n acc) <= String.length acc + S k.
Proof.
  induction fuel as [|fuel IH]; intros n acc k Hn; simpl; [lia|].
  destruct (Z.ltb_spec n 10) as [Hlt|Hge]; simpl; [lia|].
  destruct k as [|k]; [simpl in Hn; lia|].
  specialize (IH (n / 10)%Z (String (digitChar (n mod 10)) acc) k).
  simpl String.length in IH.
  assert (0 <= n / 10 < 10 ^ Z.of_nat (S k))%Z.
  { split; [apply Z.div_pos; lia|]. apply Z.div_lt_upper_bound; [lia|].
    rewrite (Nat2Z.inj_succ (S k)), Z.pow_succ_r in Hn by lia. lia. }
  specialize (IH H). lia.
Qed.

Lemma decimalDigits_length_lower (fuel : nat) :
  forall (n : Z) (acc : string) (k : nat),
    (10 ^ Z.of_nat k <= n < 2 ^ Z.of_nat fuel)%Z ->
    String.length acc + S k <= String.length (decimalDigits fuel n acc).
Proof.
  induction fuel as [|fuel IH]; intros n acc k Hn.
  - assert (0 < 10 ^ Z.of_nat k)%Z by (apply Z.pow_pos_nonneg; lia).
    simpl in Hn. lia.
  - simpl. destruct (Z.ltb_spec n 10) as [Hlt|Hge]; simpl.
    + destruct k as [|k]; [lia|].
      rewrite Nat2Z.inj_succ, Z.pow_succ_r in Hn by lia.
      assert (0 < 10 ^ Z.of_nat k)%Z by (apply Z.pow_pos_nonneg; lia). lia.
    + destruct k as [|k].
      * pose proof (decimalDigits_length_ge fuel (n / 10)%Z
                      (String (digitChar (n mod 10)) acc)) as H.
        simpl in H. lia.
      * specialize (IH (n / 10)%Z (String (digitChar (n mod 10)) acc) k).
        simpl String.length in IH.
        assert (10 ^ Z.of_nat k <= n / 10 < 2 ^ Z.of_nat fuel)%Z.
        { rewrite (Nat2Z.inj_succ k), Z.pow_succ_r in Hn by lia.
          rewrite (Nat2Z.inj_succ fuel), Z.pow_succ_r in Hn by lia.
          split; [apply Z.div_le_lower_bound; lia|].
          apply Z.div_lt_upper_bound; lia. }
        specialize (IH H). lia.
Qed.

Lemma formatDecimal_fuel (n : Z) :
  (0 <= n)%Z -> (n < 2 ^ Z.of_nat (S (Z.to_nat (Z.log2 n))))%Z.
Proof.
  intros Hn. rewrite Nat2Z.inj_succ, Z2Nat.id by apply Z.log2_nonneg.
  destruct (Z.eq_dec n 0%Z) as [->|Hnz]; [reflexivity|].
  apply Z.log2_spec. lia.
Qed.

(** The number of digits printed for a number of [k + 1] decimal digits. *)
Lemma formatDecimal_length (n : Z) (k : nat) :
  (10 ^ Z.of_nat k <= n < 10 ^ Z.of_nat (S k))%Z ->
  String.length (formatDecimal n) = S k.
Proof.
  intros Hn. unfold formatDecimal.
  assert (0 < 10 ^ Z.of_nat k)%Z by (apply Z.pow_pos_nonneg; lia).
  pose proof (decimalDigits_length_upper (S (Z.to_nat (Z.log2 n))) n EmptyString k)
    as Hup.
  pose proof (decimalDigits_length_lower (S (Z.to_nat (Z.log2 n))) n EmptyString k)
    as Hlow.
  pose proof (formatDecimal_fuel n). simpl String.length in *.
  assert (String.length (decimalDigits (S (Z.to_nat (Z.log2 n))) n "") <= S k)
    by (apply Hup; lia).
  assert (S k <= String.length (decimalDigits (S (Z.to_nat (Z.log2 n))) n ""))
    by (apply Hlow; lia).
  lia.
Qed.

Lemma formatDecimal_length_upper (n : Z) (k : nat) :
  (0 <= n < 10 ^ Z.of_nat (S k))%Z -> String.length (formatDecimal n) <= S k.
Proof.
  intros Hn. unfold formatDecimal.
  pose proof (decimalDigits_length_upper (S (Z.to_nat (Z.log2 n))) n EmptyString k Hn)
    as H. simpl in H. exact H.
Qed.

Lemma decimalValue_app (s t : string) :
  forall v : Z, decimalValue v (s +:+ t) = decimalValue (decimalValue v s) t.
Proof. induction s as [|c s IH]; intros v; simpl; [reflexivity|apply IH]. Qed.

Lemma decimalValue_zeros (k : nat) : decimalValue 0 (zeros k) = 0%Z.
Proof. induction k as [|k IH]; simpl; [reflexivity|exact IH]. Qed.

Lemma substring_prefix_app (s t : string) :
  substring 0 (String.length s) (s +:+ t) = s.
Proof.
  induction s as [|c s IH]; simpl; [now destruct t|]. now rewrite IH.
Qed.

Lemma substring_whole (s : string) : substring 0 (String.length s) s = s.
Proof. induction s as [|c s IH]; simpl; [reflexivity|now rewrite IH]. Qed.

Lemma string_app_assoc (s t u : string) :
  ((s +:+ t) +:+ u)%string = (s +:+ (t +:+ u))%string.
Proof.
  induction s as [|c s IH]; [reflexivity|].
  change (String c ((s +:+ t) +:+ u) = String c (s +:+ (t +:+ u)))%string.
  now rewrite IH.
Qed.

(** A number of at least ten is printed as its tenth followed by its last
    digit. *)
Lemma decimalDigits_acc (fuel : nat) :
  forall (n : Z) (acc : string),
    decimalDigits fuel n acc = (decimalDigits fuel n EmptyString +:+ acc)%string.
Proof.
  induction fuel as [|fuel IH]; intros n acc; simpl; [reflexivity|].
  destruct (n <? 10)%Z; [reflexivity|].
  rewrite (IH _ (String _ acc)), (IH _ (String _ EmptyString)).
  now rewrite string_app_assoc.
Qed.

Lemma decimalDigits_fuel (f1 : nat) :
  forall (f2 : nat) (n : Z) (acc : string),
    (0 <= n < 2 ^ Z.of_nat (S f1))%Z -> (n < 2 ^ Z.of_nat (S f2))%Z ->
    decimalDigits (S f1) n acc = decimalDigits (S f2) n acc.
Proof.
  induction f1 as [|f1 IH]; intros f2 n acc H1 H2;
    simpl decimalDigits; destruct (Z.ltb_spec n 10) as [Hlt|Hge];
    try reflexivity.
  - simpl in H1. lia.
  - destruct f2 as [|f2]; [simpl in H2; lia|].
    apply IH.
    + rewrite (Nat2Z.inj_succ (S f1)), Z.pow_succ_r in H1 by lia.
      split; [apply Z.div_pos; lia|]. apply Z.div_lt_upper_bound; lia.
    + rewrite (Nat2Z.inj_succ (S f2)), Z.pow_succ_r in H2 by lia.
      apply Z.div_lt_upper_bound; lia.
Qed.

Lemma formatDecimal_snoc (n : Z) :
  (10 <= n)%Z ->
  formatDecimal n
  = (formatDecimal (n / 10) +:+ String (digitChar (n mod 10)) EmptyString)%string.
Proof.
  intros Hn. unfold formatDecimal at 1. simpl decimalDigits.
  destruct (Z.ltb_spec n 10) as [Hlt|_]; [lia|].
  rewrite decimalDigits_acc. f_equal.
  assert (Hq : (0 <= n / 10)%Z) by (apply Z.div_pos; lia).
  pose proof (formatDecimal_fuel n ltac:(lia)) as Hf.
  pose proof (formatDecimal_fuel (n / 10)%Z Hq) as Hfq.
  unfold formatDecimal.
  destruct (Z.to_nat (Z.log2 n)) as [|f] eqn:Ef.
  - simpl in Hf. lia.
  - apply decimalDigits_fuel; [|exact Hfq].
    rewrite (Nat2Z.inj_succ (S f)), Z.pow_succ_r in Hf by lia.
    split; [exact Hq|]. apply Z.div_lt_upper_bound; lia.
Qed.

(** The first 8 bytes of ["%08d"]: the number itself below 10^8, and its
    leading 8 digits above. *)
Lemma first_eight_digits (r : Z) :
  (0 <= r < 2 ^ 32)%Z ->
  decimalValue 0 (substring 0 8 (Sprintf_08d r))
  = (if r <? 10 ^ 8 then r else if r <? 10 ^ 9 then r / 10 else r / 100)%Z.
Proof.
  intros Hr. unfold Sprintf_08d.
  destruct (Z.ltb_spec r (10 ^ 8)) as [H8|H8].
  - pose proof (formatDecimal_length_upper r 7 ltac:(simpl; lia)) as Hlen.
    assert (E : 8 = String.length (zeros (8 - String.length (formatDecimal r))
                                    +:+ formatDecimal r)%string).
    { rewrite length_append, length_zeros. lia. }
    rewrite E at 1. rewrite substring_whole, decimalValue_app, decimalValue_zeros.
    apply formatDecimal_value. lia.
  - destruct (Z.ltb_spec r (10 ^ 9)) as [H9|H9].
    + rewrite (formatDecimal_length r 8) by (simpl; lia). simpl zeros.
      change (EmptyString +:+ formatDecimal r)%string with (formatDecimal r).
      rewrite formatDecimal_snoc by lia.
      assert (Hq : (10 ^ 7 <= r / 10 < 10 ^ 8)%Z).
      { split; [apply Z.div_le_lower_bound; lia|apply Z.div_lt_upper_bound; lia]. }
      rewrite <- (formatDecimal_length (r / 10) 7) at 1 by (simpl; lia).
      rewrite substring_prefix_app. apply formatDecimal_value. lia.
    + rewrite (formatDecimal_length r 9) by (simpl; lia). simpl zeros.
      change (EmptyString +:+ formatDecimal r)%string with (formatDecimal r).
      assert (Hq : (10 ^ 8 <= r / 10 < 10 ^ 9)%Z).
      { split; [apply Z.div_le_lower_bound; lia|apply Z.div_lt_upper_bound; lia]. }
      assert (Hqq : (10 ^ 7 <= r / 10 / 10 < 10 ^ 8)%Z).
      { split; [apply Z.div_le_lower_bound; lia|apply Z.div_lt_upper_bound; lia]. }
      rewrite formatDecimal_snoc by lia.
      rewrite (formatDecimal_snoc (r / 10)) by lia.
      rewrite <- (formatDecimal_length (r / 10 / 10) 7) at 1 by (simpl; lia).
      rewrite string_app_assoc.
      rewrite substring_prefix_app, formatDecimal_value by lia.
      rewrite Z.div_div by lia. reflexivity.
Qed.

(** X10. On a receiver with no cluster ID yet, the ID read as a decimal
    number is the random number drawn when that number is below 10^8;
    for a larger number the ID is its leading 8 digits, the last one or two
    digits being cut off. *)
Theorem fresh_cluster_ID_is_the_leading_digits :
  forall (randUint32 : Z -> Z) (p : Properties.t),
    Properties.ClusterID p = EmptyString ->
    let r := randUint32 (raceSeed p) in
    (0 <= r < 2 ^ 32)%Z ->
    decimalValue 0 (fst (GetClusterID randUint32 p))
    = (if r <? 10 ^ 8 then r else if r <? 10 ^ 9 then r / 10 else r / 100)%Z.
Proof.
  intros randUint32 p Hempty r Hr. unfold GetClusterID.
  apply string_eqb_true in Hempty. rewrite Hempty. simpl.
  unfold newClusterID. now apply first_eight_digits.
Qed.

Lemma fresh_cluster_ID_is_the_leading_digits_witness :
  Properties.ClusterID selfHostedCluster = EmptyString
  /\ (0 <= sampleRand (raceSeed selfHostedCluster) < 2 ^ 32)%Z
  /\ decimalValue 0 (fst (GetClusterID sampleRand selfHostedCluster))
     = (if sampleRand (raceSeed selfHostedCluster) <? 10 ^ 8
        then sampleRand (raceSeed selfHostedCluster)
        else if sampleRand (raceSeed selfHostedCluster) <? 10 ^ 9
             then sampleRand (raceSeed selfHostedCluster) / 10
             else sampleRand (raceSeed selfHostedCluster) / 100)%Z.
Proof.
  assert (Hr : (0 <= sampleRand (raceSeed selfHostedCluster) < 2 ^ 32)%Z)
    by (vm_compute; split; [discriminate|reflexivity]).
  split; [reflexivity|]. split; [exact Hr|].
  apply (fresh_cluster_ID_is_the_leading_digits sampleRand selfHostedCluster
           eq_refl Hr).
Defined.

(** ** The ordered kubelet configuration *)

Lemma string_compare_trans_le (a b c : string) :
  String.compare a b <> Gt -> String.compare b c <> Gt -> String.compare a c <> Gt.
Proof.
  revert b c. induction a as [|x a IH]; intros [|y b] [|z c]; simpl; try congruence.
  unfold Ascii.compare.
  destruct (N.compare_spec (N_of_ascii x) (N_of_ascii y)) as [Hxy|Hxy|Hxy];
    destruct (N.compare_spec (N_of_ascii y) (N_of_ascii z)) as [Hyz|Hyz|Hyz];
    try congruence; intros H1 H2.
  - rewrite Hxy, Hyz, N.compare_refl. eauto.
  - rewrite Hxy. apply N.compare_lt_iff in Hyz. now rewrite Hyz.
  - rewrite <- Hyz. apply N.compare_lt_iff in Hxy. now rewrite Hxy.
  - assert (Hxz : (N_of_ascii x < N_of_ascii z)%N) by lia.
    apply N.compare_lt_iff in Hxz. now rewrite Hxz.
Qed.

Lemma stringLe_compare (a b : string) :
  FullKubernetesConfig.stringLe a b <-> String.compare a b <> Gt.
Proof.
  unfold FullKubernetesConfig.stringLe, String.leb.
  destruct (String.compare a b); split; congruence.
Qed.

#[local] Instance stringLe_trans : Transitive FullKubernetesConfig.stringLe.
Proof.
  intros a b c Hab Hbc. apply stringLe_compare in Hab, Hbc.
  apply stringLe_compare. eapply string_compare_trans_le; eauto.
Qed.

#[local] Instance stringLe_total : Total FullKubernetesConfig.stringLe.
Proof. intros a b. apply String.leb_total. Qed.

#[local] Instance stringLe_antisym : AntiSymm (=) FullKubernetesConfig.stringLe.
Proof. intros a b. apply String.leb_antisym. Qed.

Lemma sortStrings_Permutation (keys keys' : list string) :
  keys ≡ₚ keys' ->
  FullKubernetesConfig.sortStrings keys = FullKubernetesConfig.sortStrings keys'.
Proof.
  intros Hperm. unfold FullKubernetesConfig.sortStrings.
  apply (sorting.Sorted_unique FullKubernetesConfig.stringLe).
  - apply sorting.Sorted_merge_sort; apply _.
  - apply sorting.Sorted_merge_sort; apply _.
  - now rewrite !sorting.merge_sort_Permutation.
Qed.

(** X11.  The string of [GetOrderedKubeletConfigString] does not depend on
    the order in which the map is iterated: whatever enumeration of the
    keys of the map the first loop collects, sorting them and writing the
    entries gives the same string, and the keys are written in increasing
    order, each key of the map once. *)
Theorem GetOrderedKubeletConfigString_any_iteration_order
  (k : FullKubernetesConfig.t) (keys : list string) :
  keys ≡ₚ FullKubernetesConfig.rangeKeys (FullKubernetesConfig.KubeletConfig k) ->
  FullKubernetesConfig.writeKubeletConfig (FullKubernetesConfig.KubeletConfig k) keys
  = FullKubernetesConfig.GetOrderedKubeletConfigString k
  /\ Sorted.Sorted FullKubernetesConfig.stringLe (FullKubernetesConfig.sortStrings keys)
  /\ FullKubernetesConfig.sortStrings keys
     ≡ₚ FullKubernetesConfig.rangeKeys (FullKubernetesConfig.KubeletConfig k).
Proof.
  intros Hperm. repeat split.
  - unfold FullKubernetesConfig.GetOrderedKubeletConfigString,
           FullKubernetesConfig.writeKubeletConfig.
    now rewrite (sortStrings_Permutation _ _ Hperm).
  - apply sorting.Sorted_merge_sort; apply _.
  - unfold FullKubernetesConfig.sortStrings.
    now rewrite sorting.merge_sort_Permutation.
Qed.

Lemma GetOrderedKubeletConfigString_any_iteration_order_witness :
  FullKubernetesConfig.writeKubeletConfig
    (FullKubernetesConfig.KubeletConfig sampleKubeletConfig)
    ["--node-status-update-frequency"; "--image-gc-high-threshold"]%string
  = "--image-gc-high-threshold=85 --node-status-update-frequency=10s "%string.
Proof.
  destruct (GetOrderedKubeletConfigString_any_iteration_order sampleKubeletConfig
              ["--node-status-update-frequency"; "--image-gc-high-threshold"]%string)
    as (H & _).
  - vm_compute. apply perm_swap || reflexivity.
  - rewrite H. vm_compute. reflexivity.
Defined.

Lemma substring_skip_app (s t : string) :
  substring (String.length s) (String.length t) (s +:+ t) = t.
Proof.
  induction s as [|c s IH]; [apply substring_whole|].
  change (substring (String.length s) (String.length t) (s +:+ t) = t). exact IH.
Qed.

Lemma string_app_empty_r (s : string) : (s +:+ EmptyString)%string = s.
Proof.
  induction s as [|c s IH]; [reflexivity|].
  change (String c (s +:+ EmptyString) = String c s)%string. now rewrite IH.
Qed.

Lemma TrimSuffix_app (s suffix : string) :
  FullKubernetesConfig.TrimSuffix (s +:+ suffix) suffix = s.
Proof.
  unfold FullKubernetesConfig.TrimSuffix. rewrite length_append.
  replace (String.length s + String.length suffix - String.length suffix)
    with (String.length s) by lia.
  rewrite substring_skip_app, String.eqb_refl, substring_prefix_app.
  destruct (Nat.leb_spec (String.length suffix) (String.length s + String.length suffix));
    [reflexivity|lia].
Qed.

Lemma foldl_append_entries {A : Type} (f : A -> string) (l : list A) (acc : string) :
  foldl (fun buf key => (buf +:+ f key)%string) acc l
  = (acc +:+ foldr (fun key s => (f key +:+ s)%string) EmptyString l)%string.
Proof.
  revert acc. induction l as [|x l IH]; intros acc; simpl.
  - now rewrite string_app_empty_r.
  - rewrite IH. apply string_app_assoc.
Qed.

Lemma concat_with_trailing_separator (sep : string) (l : list string) :
  l <> [] ->
  foldr (fun e s => ((e +:+ sep) +:+ s)%string) EmptyString l
  = (String.concat sep l +:+ sep)%string.
Proof.
  induction l as [|e l IH]; [congruence|]. intros _.
  destruct l as [|e' l].
  - simpl. now rewrite string_app_empty_r.
  - change (String.concat sep (e :: e' :: l))
      with (e +:+ sep +:+ String.concat sep (e' :: l))%string.
    change (foldr (fun e s => ((e +:+ sep) +:+ s)%string) EmptyString (e :: e' :: l))
      with ((e +:+ sep) +:+
            foldr (fun e s => ((e +:+ sep) +:+ s)%string) EmptyString (e' :: l))%string.
    rewrite IH by congruence. now rewrite !string_app_assoc.
Qed.

Lemma powershell_entries_joined (m : gmap string string) (l : list string) :
  FullKubernetesConfig.TrimSuffix
    (foldl (fun buf key =>
              (buf +:+ (FullKubernetesConfig.doubleQuote +:+ key +:+ "=" +:+
                        FullKubernetesConfig.mapIndex m key +:+
                        FullKubernetesConfig.doubleQuote +:+ ", "))%string)
           EmptyString l) ", "
  = String.concat ", "
      (map (fun key => doubleQuoteOf key (FullKubernetesConfig.mapIndex m key)) l).
Proof.
  rewrite foldl_append_entries.
  change (EmptyString +:+ ?s)%string with s.
  destruct l as [|key keys]; [reflexivity|].
  rewrite <- (TrimSuffix_app (String.concat _ _) ", ").
  f_equal.
  rewrite <- concat_with_trailing_separator by discriminate.
  generalize (key :: keys). intros l.
  induction l as [|x l IH]; [reflexivity|].
  simpl foldr. simpl map. rewrite IH. f_equal.
  unfold doubleQuoteOf. now rewrite !string_app_assoc.
Qed.

(** X12.  [GetOrderedKubeletConfigStringForPowershell] returns the entries
    [key=value], each between double quotes, for the keys in sorted order,
    joined by a comma and a space: there is no separator after the last
    entry, and the string is empty for an empty map. *)
Theorem GetOrderedKubeletConfigStringForPowershell_joins_the_entries
  (k : FullKubernetesConfig.t) :
  let m := FullKubernetesConfig.KubeletConfig k in
  FullKubernetesConfig.GetOrderedKubeletConfigStringForPowershell k
  = String.concat ", "
      (map (fun key => doubleQuoteOf key (FullKubernetesConfig.mapIndex m key))
           (FullKubernetesConfig.sortStrings (FullKubernetesConfig.rangeKeys m))).
Proof.
  intros m.
  unfold FullKubernetesConfig.GetOrderedKubeletConfigStringForPowershell,
         FullKubernetesConfig.writeKubeletConfigForPowershell.
  apply powershell_entries_joined.
Qed.

(** ** Distros, zones and disks of the node profiles *)

Lemma rangeAny_orb {A : Type} (f g : A -> bool) (l : list A) :
  rangeAny (fun x => f x || g x) l = rangeAny f l || rangeAny g l.
Proof.
  induction l as [|x l IH]; simpl; [reflexivity|].
  rewrite IH. destruct (f x), (g x), (rangeAny f l); reflexivity.
Qed.

Lemma rangeAll_forall {A : Type} (f : A -> bool) (l : list A) :
  rangeAll f l = true <-> forall x, x ∈ l -> f x = true.
Proof.
  induction l as [|a l IH]; simpl.
  - split; [|reflexivity]. intros _ x Hx. inversion Hx.
  - destruct (f a) eqn:E; simpl.
    + rewrite IH. split.
      * intros H x Hx. apply elem_of_cons in Hx as [->|Hx]; auto.
      * intros H x Hx. apply H. now right.
    + split; [discriminate|]. intros H. rewrite <- E. apply H. left.
Qed.

Lemma rangeAny_false {A : Type} (f : A -> bool) (l : list A) :
  rangeAny f l = false <-> forall x, x ∈ l -> f x = false.
Proof.
  induction l as [|a l IH]; simpl.
  - split; [|reflexivity]. intros _ x Hx. inversion Hx.
  - destruct (f a) eqn:E.
    + split; [discriminate|]. intros H. rewrite <- E. apply H. left.
    + rewrite IH. split.
      * intros H x Hx. apply elem_of_cons in Hx as [->|Hx]; auto.
      * intros H x Hx. apply H. now right.
Qed.

(** X13.  A cluster has nodes on the base Ubuntu image exactly when it has
    nodes on the base 16.04 image or nodes on the base 18.04 image. *)
Theorem HasUbuntuDistroNodes_is_1604_or_1804 (p : FullProperties.t) :
  FullProperties.HasUbuntuDistroNodes p
  = FullProperties.HasUbuntu1604DistroNodes p
    || FullProperties.HasUbuntu1804DistroNodes p.
Proof.
  unfold FullProperties.HasUbuntuDistroNodes, FullProperties.HasUbuntu1604DistroNodes,
         FullProperties.HasUbuntu1804DistroNodes.
  rewrite rangeAny_orb.
  destruct (rangeAny _ (FullProperties.pools p)),
           (rangeAny _ (FullProperties.pools p)),
           (FullProperties.MasterProfile p) as [m|]; simpl;
    try reflexivity; now rewrite ?orb_true_r.
Qed.

Ltac distro_cases :=
  repeat match goal with
         | |- context [String.eqb ?a ?b] => destruct (String.eqb a b) eqn:?
         end;
  repeat match goal with
         | H : String.eqb _ _ = true |- _ => apply string_eqb_true in H
         | H : String.eqb _ _ = false |- _ => apply string_eqb_false in H
         end;
  subst; simpl in *; try congruence; try discriminate.

Lemma VHD_distro_is_not_base_Ubuntu (d : Distro) :
  String.eqb d AKSUbuntu1604 || String.eqb d AKSUbuntu1804 = true ->
  String.eqb d Ubuntu || String.eqb d Ubuntu1804 = false.
Proof.
  intros H.
  destruct (String.eqb d AKSUbuntu1604) eqn:E1;
    [apply string_eqb_true in E1; subst d; reflexivity|].
  destruct (String.eqb d AKSUbuntu1804) eqn:E2; [|discriminate].
  apply string_eqb_true in E2; subst d; reflexivity.
Qed.

(** X14.  When every node profile of a cluster runs a VHD image, no node
    runs the base Ubuntu image: [IsVHDDistroForAllNodes] excludes
    [HasUbuntuDistroNodes], and it excludes [IsUbuntuDistroForAllNodes]
    unless the cluster has neither agent pools nor a master profile. *)
Theorem VHD_for_all_nodes_excludes_base_Ubuntu (p : FullProperties.t) :
  FullProperties.IsVHDDistroForAllNodes p = true ->
  FullProperties.HasUbuntuDistroNodes p = false
  /\ (FullProperties.IsUbuntuDistroForAllNodes p = true ->
      FullProperties.pools p = [] /\ FullProperties.MasterProfile p = None).
Proof.
  unfold FullProperties.IsVHDDistroForAllNodes, FullProperties.HasUbuntuDistroNodes,
         FullProperties.IsUbuntuDistroForAllNodes.
  destruct (rangeAll FullAgentPoolProfile.IsVHDDistro (FullProperties.pools p)) eqn:Eall;
    [|discriminate].
  simpl. intros Hm.
  pose proof (proj1 (rangeAll_forall _ _) Eall) as Hall.
  assert (Hnone : rangeAny
            (fun ap => String.eqb (FullAgentPoolProfile.Distro ap) Ubuntu
                       || String.eqb (FullAgentPoolProfile.Distro ap) Ubuntu1804)
            (FullProperties.pools p) = false).
  { apply rangeAny_false. intros a Ha. apply VHD_distro_is_not_base_Ubuntu.
    apply (Hall a Ha). }
  rewrite Hnone. split.
  - destruct (FullProperties.MasterProfile p) as [m|]; [|reflexivity].
    now apply VHD_distro_is_not_base_Ubuntu.
  - destruct (FullProperties.pools p) as [|a l] eqn:El.
    + simpl. destruct (FullProperties.MasterProfile p) as [m|]; [|auto].
      intros Hu. apply VHD_distro_is_not_base_Ubuntu in Hm. congruence.
    + simpl. simpl in Hnone.
      destruct (String.eqb (FullAgentPoolProfile.Distro a) Ubuntu
                || String.eqb (FullAgentPoolProfile.Distro a) Ubuntu1804) eqn:Ea;
        [discriminate|].
      apply orb_false_elim in Ea as [-> ->]. simpl. discriminate.
Qed.

Lemma VHD_for_all_nodes_excludes_base_Ubuntu_witness :
  FullProperties.HasUbuntuDistroNodes (clusterWith "" [vhdAgent]) = false
  /\ (FullProperties.IsUbuntuDistroForAllNodes (clusterWith "" [vhdAgent]) = true ->
      FullProperties.pools (clusterWith "" [vhdAgent]) = []
      /\ FullProperties.MasterProfile (clusterWith "" [vhdAgent]) = None).
Proof.
  apply (VHD_for_all_nodes_excludes_base_Ubuntu (clusterWith "" [vhdAgent])).
  vm_compute. reflexivity.
Defined.

(** X15.  If [HasZonesForAllAgentPools] holds (every agent pool has
    availability zones, and there is at least one pool), then
    [HasAvailabilityZones] holds, whatever the master profile is. *)
Theorem zones_for_all_agent_pools_imply_zones (p : FullProperties.t) :
  FullProperties.HasZonesForAllAgentPools p = true ->
  FullProperties.HasAvailabilityZones p = true.
Proof.
  unfold FullProperties.HasZonesForAllAgentPools, FullProperties.HasAvailabilityZones,
         FullProperties.pools.
  destruct (FullProperties.AgentPoolProfiles p) as [[|a l]|]; simpl; try discriminate.
  destruct (FullAgentPoolProfile.HasAvailabilityZones a); simpl; [|discriminate].
  intros _.
  destruct (FullProperties.MasterProfile p) as [m|]; simpl; [|reflexivity].
  destruct (FullMasterProfile.HasAvailabilityZones m); reflexivity.
Qed.

Lemma zones_for_all_agent_pools_imply_zones_witness :
  FullProperties.HasAvailabilityZones (clusterWith "" [ubuntuAgent]) = true.
Proof.
  apply (zones_for_all_agent_pools_imply_zones (clusterWith "" [ubuntuAgent])).
  vm_compute. reflexivity.
Defined.

(** X16.  The distro predicates of an agent pool are mutually exclusive: a
    pool is at most one of Ubuntu 16.04, Ubuntu 18.04, RHEL and CoreOS.  A
    pool on a VHD image counts as Ubuntu unless its OS type is Windows, and
    a pool is Ubuntu without a VHD exactly on the three base images, again
    unless it is a Windows pool. *)
Theorem agent_pool_distro_predicates (a : FullAgentPoolProfile.t) :
  FullAgentPoolProfile.IsUbuntu1604 a && FullAgentPoolProfile.IsUbuntu1804 a = false
  /\ FullAgentPoolProfile.IsUbuntu a && FullAgentPoolProfile.IsRHEL a = false
  /\ FullAgentPoolProfile.IsUbuntu a && FullAgentPoolProfile.IsCoreOS a = false
  /\ FullAgentPoolProfile.IsRHEL a && FullAgentPoolProfile.IsCoreOS a = false
  /\ (FullAgentPoolProfile.IsVHDDistro a = true ->
      FullAgentPoolProfile.IsUbuntu a
      = negb (String.eqb (FullAgentPoolProfile.OSType a) Windows))
  /\ (FullAgentPoolProfile.IsUbuntuNonVHD a = true <->
      FullAgentPoolProfile.OSType a <> Windows
      /\ (FullAgentPoolProfile.Distro a = Ubuntu
          \/ FullAgentPoolProfile.Distro a = ACC1604
          \/ FullAgentPoolProfile.Distro a = Ubuntu1804)).
Proof.
  unfold FullAgentPoolProfile.IsUbuntuNonVHD, FullAgentPoolProfile.IsUbuntu,
         FullAgentPoolProfile.IsUbuntu1604, FullAgentPoolProfile.IsUbuntu1804,
         FullAgentPoolProfile.IsRHEL, FullAgentPoolProfile.IsCoreOS,
         FullAgentPoolProfile.IsVHDDistro.
  destruct a as [name count size os avail prio storage disks subnet distro zones ver].
  simpl.
  split; [|split; [|split; [|split; [|split; [|split]]]]].
  1-5: intros; distro_cases.
  - intros Hu. split.
    + intros E. subst os. simpl in Hu. discriminate.
    + revert Hu. distro_cases; auto.
  - intros (Hos & Hd). apply string_eqb_false in Hos. rewrite Hos. simpl.
    destruct Hd as [->|[->| ->]]; reflexivity.
Qed.

Lemma PrivateJumpboxProvision_panics (k : FullKubernetesConfig.t) :
  (exists e, FullKubernetesConfig.PrivateJumpboxProvision (Some k) = Panic e)
  <-> exists pc, FullKubernetesConfig.PrivateCluster k = Some pc
                 /\ PrivateCluster.Enabled pc = None.
Proof.
  unfold FullKubernetesConfig.PrivateJumpboxProvision.
  destruct (FullKubernetesConfig.PrivateCluster k) as [pc|].
  - destruct (PrivateCluster.Enabled pc) as [[|]|] eqn:E.
    + destruct (PrivateCluster.JumpboxProfile pc); split;
        try (intros (e & He); discriminate);
        intros (pc' & [= <-] & H); congruence.
    + split; [intros (e & He); discriminate|].
      intros (pc' & [= <-] & H); congruence.
    + split; eauto.
  - split; [intros (e & He); discriminate|]. intros (pc & H & _). discriminate.
Qed.

Lemma jumpboxStorageIs_panics (storage : string) (p : FullProperties.t) :
  (exists e, FullProperties.jumpboxStorageIs storage p = Panic e)
  <-> exists o k pc,
        FullProperties.OrchestratorProfile p = Some o
        /\ FullOrchestratorProfile.KubernetesConfig o = Some k
        /\ FullKubernetesConfig.PrivateCluster k = Some pc
        /\ PrivateCluster.Enabled pc = None.
Proof.
  unfold FullProperties.jumpboxStorageIs.
  destruct (FullProperties.OrchestratorProfile p) as [o|];
    [|split; [intros (e & He); discriminate|intros (o & k & pc & H & _); discriminate]].
  destruct (FullOrchestratorProfile.KubernetesConfig o) as [k|] eqn:Ek;
    [|split; [intros (e & He); discriminate
             |intros (o' & k & pc & [= <-] & H & _); congruence]].
  pose proof (PrivateJumpboxProvision_panics k) as Hp.
  unfold rbind.
  destruct (FullKubernetesConfig.PrivateJumpboxProvision (Some k)) as [b|e] eqn:Ej.
  - assert (Hno : ~ exists pc, FullKubernetesConfig.PrivateCluster k = Some pc
                               /\ PrivateCluster.Enabled pc = None).
    { intros H. apply Hp in H as (e & He). discriminate. }
    split.
    + intros (e & He). exfalso. destruct b; [|discriminate].
      unfold FullKubernetesConfig.PrivateJumpboxProvision in Ej.
      destruct (FullKubernetesConfig.PrivateCluster k) as [pc|]; [|discriminate].
      destruct (PrivateCluster.Enabled pc) as [[|]|]; try discriminate.
      destruct (PrivateCluster.JumpboxProfile pc); discriminate.
    + intros (o' & k' & pc & [= <-] & Hk & Hpc & Hen). exfalso. apply Hno.
      exists pc. split; congruence.
  - split; [|eauto]. intros _.
    destruct (proj1 Hp (ex_intro _ e eq_refl)) as (pc & Hpc & Hen).
    exists o, k, pc. auto.
Qed.

(** X17.  [HasManagedDisks] and [HasStorageAccountDisks] look at the
    jumpbox of a private cluster only when neither the master nor any agent
    pool uses the storage profile asked for.  Each of them panics in exactly
    one situation: that search found nothing and the Kubernetes
    configuration has a private-cluster section whose [Enabled] pointer is
    nil. *)
Theorem disk_queries_panic_only_on_unset_private_cluster_flag (p : FullProperties.t) :
  ((exists e, FullProperties.HasManagedDisks p = Panic e)
   <-> nobodyUses p ManagedDisks /\ unsetPrivateClusterFlag p)
  /\ ((exists e, FullProperties.HasStorageAccountDisks p = Panic e)
      <-> nobodyUses p StorageAccount /\ unsetPrivateClusterFlag p).
Proof.
  assert (Hgen : forall storage,
    (exists e,
       (if match FullProperties.MasterProfile p with
           | Some m => String.eqb (FullMasterProfile.StorageProfile m) storage
           | None => false
           end
        then Ret true
        else if rangeAny (fun a => String.eqb (FullAgentPoolProfile.StorageProfile a) storage)
                         (FullProperties.pools p)
        then Ret true
        else jumpbox <~ FullProperties.jumpboxStorageIs storage p ;;
             if jumpbox : bool then Ret true else Ret false) = Panic e)
    <-> nobodyUses p storage /\ unsetPrivateClusterFlag p).
  { intros storage. unfold nobodyUses, unsetPrivateClusterFlag.
    destruct (FullProperties.MasterProfile p) as [m|] eqn:Em.
    - destruct (String.eqb (FullMasterProfile.StorageProfile m) storage) eqn:Es.
      + apply string_eqb_true in Es. split; [intros (e & He); discriminate|].
        intros ((Hm & _) & _). exfalso. now apply (Hm m).
      + apply string_eqb_false in Es.
        destruct (rangeAny _ (FullProperties.pools p)) eqn:Er.
        * split; [intros (e & He); discriminate|].
          intros ((_ & Ha) & _). exfalso.
          apply rangeAny_exists in Er as (a & Hin & Hs).
          apply string_eqb_true in Hs. now apply (Ha a).
        * pose proof (proj1 (rangeAny_false _ _) Er) as Hnone.
          rewrite <- (jumpboxStorageIs_panics storage p). unfold rbind.
          destruct (FullProperties.jumpboxStorageIs storage p) as [[|]|e].
          -- split; [intros (e & He); discriminate|intros (_ & e & He); discriminate].
          -- split; [intros (e & He); discriminate|intros (_ & e & He); discriminate].
          -- split; [|eauto]. intros _. split; [split|eauto].
             ++ intros m' [= <-]. exact Es.
             ++ intros a Ha. apply string_eqb_false. now apply Hnone.
    - destruct (rangeAny _ (FullProperties.pools p)) eqn:Er.
      + split; [intros (e & He); discriminate|].
        intros ((_ & Ha) & _). exfalso.
        apply rangeAny_exists in Er as (a & Hin & Hs).
        apply string_eqb_true in Hs. now apply (Ha a).
      + pose proof (proj1 (rangeAny_false _ _) Er) as Hnone.
        rewrite <- (jumpboxStorageIs_panics storage p). unfold rbind.
        destruct (FullProperties.jumpboxStorageIs storage p) as [[|]|e].
        * split; [intros (e & He); discriminate|intros (_ & e & He); discriminate].
        * split; [intros (e & He); discriminate|intros (_ & e & He); discriminate].
        * split; [|eauto]. intros _. split; [split|eauto].
          -- intros m' [=].
          -- intros a Ha. apply string_eqb_false. now apply Hnone. }
  split.
  - apply (Hgen ManagedDisks).
  - apply (Hgen StorageAccount).
Qed.

(** ** Cluster networking *)

Lemma splitComma_head (s : string) :
  exists h t,
    FullProperties.splitComma s = h :: t
    /\ noComma h = true
    /\ (s = h \/ exists rest, s = (h +:+ "," +:+ rest)%string).
Proof.
  induction s as [|c s (h & t & Hs & Hh & Hrest)]; simpl.
  - exists EmptyString, []. auto.
  - destruct (Ascii.eqb c ",") eqn:Ec.
    + apply Ascii.eqb_eq in Ec as ->.
      exists EmptyString, (FullProperties.splitComma s). repeat split.
      right. exists s. reflexivity.
    + rewrite Hs. exists (String c h), t. repeat split.
      * simpl. now rewrite Ec.
      * destruct Hrest as [->|(rest & ->)]; [now left|].
        right. exists rest. reflexivity.
Qed.

(** X18.  On a self-hosted cluster that does not use Azure CNI and has the
    IPv6 dual-stack feature on, [GetNonMasqueradeCIDR] returns the part of
    the cluster subnet before its first comma: the result holds no comma,
    and the cluster subnet is the result itself or the result followed by a
    comma and the remaining CIDRs. *)
Theorem GetNonMasqueradeCIDR_dual_stack_takes_the_first_CIDR
  (p : FullProperties.t) (o : FullOrchestratorProfile.t) (k : FullKubernetesConfig.t) :
  FullProperties.HostedMasterProfile p = None ->
  FullProperties.OrchestratorProfile p = Some o ->
  FullOrchestratorProfile.KubernetesConfig o = Some k ->
  FullOrchestratorProfile.IsAzureCNI o = false ->
  FeatureFlags.IsFeatureEnabled (FullProperties.FeatureFlags p) "EnableIPv6DualStack" = true ->
  exists cidr,
    FullProperties.GetNonMasqueradeCIDR p = Ret cidr
    /\ noComma cidr = true
    /\ (FullKubernetesConfig.ClusterSubnet k = cidr
        \/ exists rest,
             FullKubernetesConfig.ClusterSubnet k = (cidr +:+ "," +:+ rest)%string).
Proof.
  intros Hh Ho Hk Hcni Hflag.
  unfold FullProperties.GetNonMasqueradeCIDR, IsHostedMasterProfile. simpl.
  rewrite Hh, Ho, Hcni, Hflag, Hk. simpl.
  destruct (splitComma_head (FullKubernetesConfig.ClusterSubnet k))
    as (h & t & Hs & Hno & Hrest).
  exists h. rewrite Hs. auto.
Qed.

Lemma GetNonMasqueradeCIDR_dual_stack_takes_the_first_CIDR_witness :
  exists cidr,
    FullProperties.GetNonMasqueradeCIDR (clusterWith "" [ubuntuAgent]) = Ret cidr
    /\ noComma cidr = true
    /\ (FullKubernetesConfig.ClusterSubnet sampleKubeletConfig = cidr
        \/ exists rest,
             FullKubernetesConfig.ClusterSubnet sampleKubeletConfig
             = (cidr +:+ "," +:+ rest)%string).
Proof.
  apply (GetNonMasqueradeCIDR_dual_stack_takes_the_first_CIDR
           (clusterWith "" [ubuntuAgent]) kubenetOrchestrator sampleKubeletConfig);
    reflexivity.
Defined.

(** X19.  [GetNonMasqueradeCIDR] and [IsIPMasqAgentEnabled] panic in the
    same situation and in no other: the cluster has no hosted master, and
    no Kubernetes configuration can be reached through its orchestrator
    profile (the profile is nil, or its configuration is). *)
Theorem masquerade_queries_panic_without_kubernetes_config (p : FullProperties.t) :
  ((exists e, FullProperties.GetNonMasqueradeCIDR p = Panic e) <-> noKubernetesConfig p)
  /\ ((exists e, FullProperties.IsIPMasqAgentEnabled p = Panic e)
      <-> noKubernetesConfig p).
Proof.
  unfold noKubernetesConfig, FullProperties.GetNonMasqueradeCIDR, FullProperties.IsIPMasqAgentEnabled,
         IsHostedMasterProfile, FullOrchestratorProfile.IsAzureCNI.
  simpl.
  destruct (FullProperties.HostedMasterProfile p) as [h|]; simpl.
  { split; (split; [intros (e & He); discriminate|intros (H & _); discriminate]). }
  destruct (FullProperties.OrchestratorProfile p) as [o|]; simpl.
  2: { split; (split; [intros _; split; [reflexivity|intros o [=]]|eauto]). }
  destruct (FullOrchestratorProfile.KubernetesConfig o) as [k|] eqn:Ek.
  2: { split; (split; [intros _; split; [reflexivity|now intros o' [= <-]]|]).
       - intros _. destruct (FeatureFlags.IsFeatureEnabled _ _); eauto.
       - eauto. }
  assert (Hno : ~ (None = None (A := FullHostedMasterProfile.t)
                   /\ forall o', Some o = Some o' ->
                                 FullOrchestratorProfile.KubernetesConfig o' = None)).
  { intros (_ & H). specialize (H o eq_refl). congruence. }
  split; (split; [|intros H; exfalso; apply Hno; exact H]).
  - intros (e & He). exfalso.
    destruct (String.eqb (FullKubernetesConfig.NetworkPlugin k) NetworkPluginAzure).
    + destruct (FullProperties.MasterProfile p) as [m|]; simpl in He;
        [destruct (MasterProfile.IsCustomVNET _)|]; discriminate.
    + destruct (FeatureFlags.IsFeatureEnabled _ _); [|discriminate].
      destruct (splitComma_head (FullKubernetesConfig.ClusterSubnet k))
        as (h & t & Hs & _). rewrite Hs in He. discriminate.
  - intros (e & He). discriminate.
Qed.

Ltac settle :=
  repeat split; intros;
  repeat match goal with
         | H : exists _, _ |- _ => destruct H
         | H : _ /\ _ |- _ => destruct H
         end;
  subst; try discriminate; try congruence; eauto 10.

(** X20.  [RequireRouteTable] panics exactly when the orchestrator is
    Kubernetes and the profile has no Kubernetes configuration.  It returns
    true exactly for a Kubernetes profile whose network plugin is neither
    Azure CNI nor flannel and whose network policy is not cilium; a profile
    that requires a route table therefore never uses Azure CNI. *)
Theorem RequireRouteTable_by_network_plugin (o : FullOrchestratorProfile.t) :
  ((exists e, FullOrchestratorProfile.RequireRouteTable o = Panic e)
   <-> FullOrchestratorProfile.OrchestratorType o = Kubernetes
       /\ FullOrchestratorProfile.KubernetesConfig o = None)
  /\ (FullOrchestratorProfile.RequireRouteTable o = Ret true
      <-> FullOrchestratorProfile.OrchestratorType o = Kubernetes
          /\ exists k,
               FullOrchestratorProfile.KubernetesConfig o = Some k
               /\ FullKubernetesConfig.NetworkPlugin k <> NetworkPluginAzure
               /\ FullKubernetesConfig.NetworkPlugin k <> "flannel"%string
               /\ FullKubernetesConfig.NetworkPolicy k <> NetworkPolicyCilium)
  /\ (FullOrchestratorProfile.RequireRouteTable o = Ret true ->
      FullOrchestratorProfile.IsAzureCNI o = false).
Proof.
  unfold FullOrchestratorProfile.RequireRouteTable, FullOrchestratorProfile.IsAzureCNI.
  destruct (String.eqb (FullOrchestratorProfile.OrchestratorType o) Kubernetes) eqn:Et;
    [apply string_eqb_true in Et|apply string_eqb_false in Et; settle].
  destruct (FullOrchestratorProfile.KubernetesConfig o) as [k|]; [|settle].
  destruct (String.eqb (FullKubernetesConfig.NetworkPlugin k) NetworkPluginAzure) eqn:Ea;
    [apply string_eqb_true in Ea; settle|apply string_eqb_false in Ea].
  destruct (String.eqb NetworkPolicyCilium (FullKubernetesConfig.NetworkPolicy k)) eqn:Ec;
    [apply string_eqb_true in Ec; simpl; settle|apply string_eqb_false in Ec].
  destruct (String.eqb "flannel" (FullKubernetesConfig.NetworkPlugin k)) eqn:Ef;
    [apply string_eqb_true in Ef; simpl; settle|apply string_eqb_false in Ef].
  simpl. settle.
Qed.

(** ** Methods that assign the cluster ID *)

Section Frames.

Variable randUint32 : Z -> Z.

Lemma onlySetsClusterID_trans (q q' q'' : Properties.t) :
  onlySetsClusterID randUint32 q q' ->
  onlySetsClusterID randUint32 q' q'' ->
  onlySetsClusterID randUint32 q q''.
Proof.
  intros [->|(He & ->)] [->|(He' & ->)]; try (now left); now right.
Qed.

Lemma frame_mret {A : Type} (a : A) : frame randUint32 (mret a).
Proof. intros q b q' [= <- <-]. now left. Qed.

Lemma frame_query {A : Type} (f : Properties.t -> result A) :
  frame randUint32 (query f).
Proof.
  intros q a q'. unfold query. destruct (f q); [|discriminate].
  intros [= <- <-]. now left.
Qed.

Lemma frame_clusterID : frame randUint32 (clusterID randUint32).
Proof.
  intros q a q'. unfold clusterID. intros [= H].
  destruct (GetClusterID_cases _ _ _ _ H) as [(_ & _ & ->)|(He & -> & ->)];
    [now left|right; auto].
Qed.

Lemma frame_mbind {A B : Type} (m : Method A) (k : A -> Method B) :
  frame randUint32 m -> (forall a, frame randUint32 (k a)) ->
  frame randUint32 (mbind m k).
Proof.
  intros Hm Hk q b q''. unfold mbind.
  destruct (m q) as [[a q']|e] eqn:Em; [|discriminate].
  intros H. eapply onlySetsClusterID_trans; [eapply Hm, Em|eapply Hk, H].
Qed.

Ltac frames :=
  repeat first [ apply frame_mbind; [|intros ?]
               | apply frame_mret | apply frame_query | apply frame_clusterID ].

Lemma frame_GetResourcePrefix : frame randUint32 (GetResourcePrefix randUint32).
Proof.
  intros q a q'. unfold GetResourcePrefix.
  destruct (IsHostedMasterProfile q); revert q a q'; frames.
Qed.

Lemma frame_GetNSGName : frame randUint32 (GetNSGName randUint32).
Proof. apply frame_mbind; [apply frame_GetResourcePrefix|intros ?; frames]. Qed.

Lemma frame_GetRouteTableName : frame randUint32 (GetRouteTableName randUint32).
Proof. apply frame_mbind; [apply frame_GetResourcePrefix|intros ?; frames]. Qed.

Lemma frame_GetVirtualNetworkName : frame randUint32 (GetVirtualNetworkName randUint32).
Proof.
  intros q a q'. unfold GetVirtualNetworkName.
  destruct (IsHostedMasterProfile q && AreAgentProfilesCustomVNET q).
  - revert q a q'. frames.
  - destruct (selfHostedOnCustomVNET q) as [[|]|e]; [| |discriminate];
      revert q a q'; frames.
Qed.

Lemma frame_GetPrimaryAvailabilitySetName :
  frame randUint32 (GetPrimaryAvailabilitySetName randUint32).
Proof.
  intros q a q'. unfold GetPrimaryAvailabilitySetName.
  destruct (pools q) as [|first rest]; [revert q a q'; frames|].
  destruct (String.eqb _ _); revert q a q'; frames.
Qed.

(** *** The same on the larger record *)

Lemma setClusterID_same (p : FullProperties.t) :
  FullProperties.setClusterID p (FullProperties.ClusterID p) = p.
Proof. now destruct p. Qed.

Lemma fullOnlySetsClusterID_trans (p p' p'' : FullProperties.t) :
  fullOnlySetsClusterID randUint32 p p' ->
  fullOnlySetsClusterID randUint32 p' p'' ->
  fullOnlySetsClusterID randUint32 p p''.
Proof.
  intros [->|(He & ->)] [->|(He' & ->)]; try (now left); now right.
Qed.

Lemma fullFrame_fret {A : Type} (a : A) : fullFrame randUint32 (fret a).
Proof. intros q b q' [= <- <-]. now left. Qed.

Lemma fullFrame_fbind {A B : Type} (m : FullMethod A) (k : A -> FullMethod B) :
  fullFrame randUint32 m -> (forall a, fullFrame randUint32 (k a)) ->
  fullFrame randUint32 (fbind m k).
Proof.
  intros Hm Hk q b q''. unfold fbind.
  destruct (m q) as [[a q']|e] eqn:Em; [|discriminate].
  intros H. eapply fullOnlySetsClusterID_trans; [eapply Hm, Em|eapply Hk, H].
Qed.

Lemma fullFrame_lift {A : Type} (m : Method A) :
  frame randUint32 m -> fullFrame randUint32 (lift m).
Proof.
  intros Hm p a p'. unfold lift.
  destruct (m (FullProperties.forget p)) as [[b q']|e] eqn:Em; [|discriminate].
  intros [= <- <-].
  destruct (Hm _ _ _ Em) as [->|(He & ->)].
  - left. apply setClusterID_same.
  - right. split; [exact He|reflexivity].
Qed.

(** What [lift] computes, given what the method computes on the smaller
    record. *)
Lemma lift_query {A : Type} (f : Properties.t -> result A) (p : FullProperties.t) :
  lift (query f) p
  = match f (FullProperties.forget p) with
    | Ret a => Ret (a, p)
    | Panic e => Panic e
    end.
Proof.
  unfold lift, query. destruct (f (FullProperties.forget p)); [|reflexivity].
  simpl. now rewrite setClusterID_same.
Qed.

Lemma lift_clusterID (p : FullProperties.t) :
  lift (clusterID randUint32) p
  = if String.eqb (FullProperties.ClusterID p) EmptyString
    then let id := newClusterID randUint32 (FullProperties.forget p) in
         Ret (id, FullProperties.setClusterID p id)
    else Ret (FullProperties.ClusterID p, p).
Proof.
  unfold lift, clusterID, GetClusterID. simpl.
  destruct (String.eqb (FullProperties.ClusterID p) EmptyString); simpl;
    [reflexivity|now rewrite setClusterID_same].
Qed.

Lemma fullFrame_GetAgentVMPrefix (a : FullAgentPoolProfile.t) (index : Z) :
  fullFrame randUint32 (GetAgentVMPrefix randUint32 a index).
Proof.
  unfold GetAgentVMPrefix.
  apply fullFrame_fbind; [apply fullFrame_lift, frame_clusterID|intros id].
  destruct (negb (index =? -1)%Z); [|apply fullFrame_fret].
  destruct (Agent.IsWindows _).
  - destruct (String.eqb _ _);
      repeat first [ apply fullFrame_fbind; [apply fullFrame_lift, frame_query|intros ?]
                   | apply fullFrame_fret ].
  - apply fullFrame_fbind; [apply fullFrame_lift, frame_query|intros name].
    destruct (Agent.IsVirtualMachineScaleSets _); apply fullFrame_fret.
Qed.

Lemma fullFrame_GetPrimaryScaleSetName :
  fullFrame randUint32 (GetPrimaryScaleSetName randUint32).
Proof.
  intros p a p'. unfold GetPrimaryScaleSetName.
  destruct (FullProperties.pools p) as [|first rest]; [apply fullFrame_fret|].
  destruct (String.eqb _ _); [apply fullFrame_GetAgentVMPrefix|apply fullFrame_fret].
Qed.

End Frames.

Lemma newClusterID_length (randUint32 : Z -> Z) (q : Properties.t) :
  String.length (newClusterID randUint32 q) = 8.
Proof. apply substring_prefix_length, Sprintf_08d_length. Qed.

Lemma K8sOrchestratorName_after_setClusterID (p : FullProperties.t) (id : string) :
  K8sOrchestratorName (FullProperties.forget (FullProperties.setClusterID p id))
  = K8sOrchestratorName (FullProperties.forget p).
Proof. reflexivity. Qed.

Lemma K8sOrchestratorName_panics (p : FullProperties.t) :
  (exists e, K8sOrchestratorName (FullProperties.forget p) = Panic e)
  <-> FullProperties.OrchestratorProfile p = None.
Proof.
  unfold K8sOrchestratorName. simpl.
  destruct (FullProperties.OrchestratorProfile p) as [o|]; simpl.
  - split; [|discriminate]. intros (e & He).
    destruct (IsKubernetes _); [destruct (option_map _ _)|]; discriminate.
  - split; eauto.
Qed.

(** X21.  [GetAgentVMPrefix] never panics for index -1.  For any other
    index it panics in two situations only: the cluster has no
    orchestrator profile, or the pool is a Windows pool whose name version
    is not v2 and the cluster ID was set beforehand to a string of fewer
    than four bytes, which [nameSuffix[:4]] cannot slice. *)
Theorem GetAgentVMPrefix_panics_without_orchestrator_or_on_short_cluster_ID
  (randUint32 : Z -> Z) (a : FullAgentPoolProfile.t) (index : Z)
  (p : FullProperties.t) :
  (exists e, GetAgentVMPrefix randUint32 a index p = Panic e)
  <-> index <> (-1)%Z
      /\ (FullProperties.OrchestratorProfile p = None
          \/ (FullAgentPoolProfile.OSType a = Windows
              /\ FullAgentPoolProfile.WindowsNameVersion a <> "v2"%string
              /\ 0 < String.length (FullProperties.ClusterID p) < 4)).
Proof.
  pose proof (K8sOrchestratorName_panics p) as Hk.
  unfold GetAgentVMPrefix, fbind. rewrite lift_clusterID.
  assert (Hid : exists id p1,
    (if String.eqb (FullProperties.ClusterID p) EmptyString
     then let id := newClusterID randUint32 (FullProperties.forget p) in
          Ret (id, FullProperties.setClusterID p id)
     else Ret (FullProperties.ClusterID p, p)) = Ret (id, p1)
    /\ K8sOrchestratorName (FullProperties.forget p1)
       = K8sOrchestratorName (FullProperties.forget p)
    /\ (0 < String.length (FullProperties.ClusterID p) < 4 <-> String.length id < 4)).
  { destruct (String.eqb (FullProperties.ClusterID p) EmptyString) eqn:Eid.
    - apply string_eqb_true in Eid. eexists _, _. split; [reflexivity|]. split.
      + apply K8sOrchestratorName_after_setClusterID.
      + rewrite newClusterID_length, Eid. simpl. lia.
    - apply string_eqb_false in Eid. eexists _, _. split; [reflexivity|].
      split; [reflexivity|].
      destruct (FullProperties.ClusterID p); [congruence|simpl; lia]. }
  destruct Hid as (id & p1 & -> & Hname & Hlen).
  destruct (Z.eqb_spec index (-1)) as [->|Hindex]; cbn [negb].
  { split; [intros (e & He); discriminate|intros (H & _); congruence]. }
  unfold Agent.IsWindows.
  change (AgentPoolProfile.OSType (FullAgentPoolProfile.forget a))
    with (FullAgentPoolProfile.OSType a).
  destruct (String.eqb (FullAgentPoolProfile.OSType a) Windows) eqn:Ew;
    [apply string_eqb_true in Ew|apply string_eqb_false in Ew].
  - destruct (String.eqb (FullAgentPoolProfile.WindowsNameVersion a) "v2") eqn:Ev;
      [apply string_eqb_true in Ev|apply string_eqb_false in Ev].
    + rewrite lift_query, Hname.
      destruct (K8sOrchestratorName (FullProperties.forget p)) as [name|e] eqn:En.
      * split; [intros (e & He); discriminate|].
        intros (_ & [Ho|(_ & Hv & _)]); [|congruence].
        apply Hk in Ho as (e & He). discriminate.
      * split; [|eauto]. intros _. split; [exact Hindex|left]. apply Hk. eauto.
    + rewrite lift_query. unfold slicePrefix.
      destruct (Nat.ltb_spec (String.length id) 4) as [Hshort|Hlong].
      * split; [|eauto]. intros _. split; [exact Hindex|right].
        split; [exact Ew|split; [exact Ev|now apply Hlen]].
      * rewrite lift_query, Hname.
        destruct (K8sOrchestratorName (FullProperties.forget p)) as [name|e] eqn:En.
        -- split; [intros (e & He); discriminate|].
           intros (_ & [Ho|(_ & _ & Hs)]); [|apply Hlen in Hs; lia].
           apply Hk in Ho as (e & He). discriminate.
        -- split; [|eauto]. intros _. split; [exact Hindex|left]. apply Hk. eauto.
  - rewrite lift_query, Hname.
    destruct (K8sOrchestratorName (FullProperties.forget p)) as [name|e] eqn:En.
    + split.
      * intros (e & He).
        destruct (Agent.IsVirtualMachineScaleSets _); discriminate.
      * intros (_ & [Ho|(Hw & _)]); [|congruence].
        apply Hk in Ho as (e & He). discriminate.
    + split; [|eauto]. intros _. split; [exact Hindex|left]. apply Hk. eauto.
Qed.

Lemma Sprintf_02d_length (n : Z) :
  (0 <= n < 100)%Z -> String.length (Sprintf_02d n) = 2.
Proof.
  intros Hn. unfold Sprintf_02d.
  destruct (Z.ltb_spec n 0) as [|_]; [lia|].
  destruct (Z_lt_le_dec n 10) as [Hlt|Hge].
  - replace (formatDecimal n) with (String (digitChar (n mod 10)) EmptyString);
      [reflexivity|].
    unfold formatDecimal. simpl.
    destruct (Z.ltb_spec n 10); [reflexivity|lia].
  - rewrite length_append, length_zeros.
    rewrite (formatDecimal_length n 1); [reflexivity|simpl; lia].
Qed.

(** X22.  The VM prefix of a Windows agent pool (name version other than
    v2) on a Kubernetes cluster is nine bytes long whenever the pool index
    is between 0 and 99 and the cluster ID is freshly derived or has at
    least four bytes: the first four bytes of the cluster ID, the
    three-letter orchestrator code, and the index on two digits.  The call
    leaves the cluster ID assigned. *)
Theorem GetAgentVMPrefix_of_a_Windows_pool_has_nine_bytes
  (randUint32 : Z -> Z) (a : FullAgentPoolProfile.t) (index : Z)
  (p : FullProperties.t) (o : FullOrchestratorProfile.t) :
  FullAgentPoolProfile.OSType a = Windows ->
  FullAgentPoolProfile.WindowsNameVersion a <> "v2"%string ->
  (0 <= index < 100)%Z ->
  FullProperties.ClusterID p = EmptyString
  \/ 4 <= String.length (FullProperties.ClusterID p) ->
  FullProperties.OrchestratorProfile p = Some o ->
  FullOrchestratorProfile.OrchestratorType o = Kubernetes ->
  let id := fst (GetClusterID randUint32 (FullProperties.forget p)) in
  let code := match FullProperties.HostedMasterProfile p with
              | Some _ => "aks"%string
              | None => "k8s"%string
              end in
  exists vmPrefix p',
    GetAgentVMPrefix randUint32 a index p = Ret (vmPrefix, p')
    /\ vmPrefix = (substring 0 4 id +:+ code +:+ Sprintf_02d index)%string
    /\ String.length vmPrefix = 9
    /\ FullProperties.ClusterID p' = id.
Proof.
  intros Hw Hv Hindex Hid Ho Ht id code.
  assert (Hlen : 4 <= String.length id).
  { subst id. unfold GetClusterID. simpl.
    destruct (String.eqb (FullProperties.ClusterID p) EmptyString) eqn:E; simpl.
    - rewrite newClusterID_length. lia.
    - destruct Hid as [Hid|Hid]; [|exact Hid].
      apply string_eqb_false in E. contradiction. }
  assert (Hname : forall s, K8sOrchestratorName
                              (FullProperties.forget (FullProperties.setClusterID p s))
                            = Ret code).
  { intros s. unfold K8sOrchestratorName, IsKubernetes. simpl. rewrite Ho. simpl.
    rewrite Ht. simpl. subst code.
    now destruct (FullProperties.HostedMasterProfile p). }
  assert (Hrun : exists p',
    lift (clusterID randUint32) p = Ret (id, p')
    /\ FullProperties.ClusterID p' = id
    /\ K8sOrchestratorName (FullProperties.forget p') = Ret code).
  { rewrite lift_clusterID. subst id. unfold GetClusterID. simpl.
    destruct (String.eqb (FullProperties.ClusterID p) EmptyString) eqn:E; simpl.
    - eexists. split; [reflexivity|]. split; [reflexivity|apply Hname].
    - exists p. split; [reflexivity|]. split; [reflexivity|].
      rewrite <- (setClusterID_same p). apply Hname. }
  destruct Hrun as (p' & Hrun & Hid' & Hcode).
  exists (substring 0 4 id +:+ code +:+ Sprintf_02d index)%string, p'.
  split; [|split; [reflexivity|split; [|exact Hid']]].
  - unfold GetAgentVMPrefix, fbind. rewrite Hrun.
    destruct (Z.eqb_spec index (-1)) as [->|_]; [lia|]. cbn [negb].
    unfold Agent.IsWindows.
    change (AgentPoolProfile.OSType (FullAgentPoolProfile.forget a))
      with (FullAgentPoolProfile.OSType a).
    rewrite Hw. change (String.eqb Windows Windows) with true. cbv iota.
    apply string_eqb_false in Hv. rewrite Hv.
    rewrite lift_query. unfold slicePrefix.
    destruct (Nat.ltb_spec (String.length id) 4) as [|_]; [lia|].
    rewrite lift_query, Hcode. reflexivity.
  - rewrite !length_append, substring_prefix_length by exact Hlen.
    rewrite Sprintf_02d_length by exact Hindex.
    subst code. now destruct (FullProperties.HostedMasterProfile p).
Qed.

Lemma GetAgentVMPrefix_of_a_Windows_pool_has_nine_bytes_witness :
  exists vmPrefix p',
    GetAgentVMPrefix sampleRand windowsAgent 1 (clusterWith "" [ubuntuAgent; windowsAgent])
    = Ret (vmPrefix, p')
    /\ vmPrefix
       = (substring 0 4
            (fst (GetClusterID sampleRand
                    (FullProperties.forget (clusterWith "" [ubuntuAgent; windowsAgent]))))
          +:+ "k8s" +:+ Sprintf_02d 1)%string
    /\ String.length vmPrefix = 9
    /\ FullProperties.ClusterID p'
       = fst (GetClusterID sampleRand
                (FullProperties.forget (clusterWith "" [ubuntuAgent; windowsAgent]))).
Proof.
  apply (GetAgentVMPrefix_of_a_Windows_pool_has_nine_bytes sampleRand windowsAgent 1
           (clusterWith "" [ubuntuAgent; windowsAgent]) kubenetOrchestrator).
  - reflexivity.
  - discriminate.
  - lia.
  - left. reflexivity.
  - reflexivity.
  - reflexivity.
Defined.

Section Metadata.

Variable randUint32 : Z -> Z.

Lemma lift_inv {A : Type} (m : Method A) (p p' : FullProperties.t) (a : A) :
  frame randUint32 m ->
  lift m p = Ret (a, p') ->
  m (FullProperties.forget p) = Ret (a, FullProperties.forget p').
Proof.
  intros Hm. unfold lift.
  destruct (m (FullProperties.forget p)) as [[b q']|e] eqn:Em; [|discriminate].
  intros [= <- <-]. f_equal. f_equal.
  destruct (Hm _ _ _ Em) as [->|(He & ->)].
  - simpl. now rewrite setClusterID_same.
  - reflexivity.
Qed.

Lemma fullFrame_stable {A : Type} (m : FullMethod A) (p p' : FullProperties.t) (a : A) :
  fullFrame randUint32 m ->
  FullProperties.ClusterID p <> EmptyString ->
  m p = Ret (a, p') -> p' = p.
Proof.
  intros Hm Hid H. destruct (Hm _ _ _ H) as [->|(He & _)]; [reflexivity|contradiction].
Qed.

Lemma fullOnlySetsClusterID_id (p p' : FullProperties.t) :
  fullOnlySetsClusterID randUint32 p p' ->
  FullProperties.ClusterID p' <> EmptyString ->
  FullProperties.ClusterID p' = fst (GetClusterID randUint32 (FullProperties.forget p)).
Proof.
  intros [->|(He & ->)] Hid; unfold GetClusterID; simpl.
  - apply string_eqb_false in Hid. now rewrite Hid.
  - now rewrite He.
Qed.

Lemma GetResourcePrefix_assigns (q q' : Properties.t) (prefix : string) :
  GetResourcePrefix randUint32 q = Ret (prefix, q') ->
  Properties.ClusterID q' <> EmptyString.
Proof.
  unfold GetResourcePrefix, mbind, query, clusterID, mret.
  destruct (K8sOrchestratorName q) as [name|e];
    [|destruct (IsHostedMasterProfile q); discriminate].
  destruct (GetClusterID randUint32 q) as [id q1] eqn:Eid.
  assert (Hq1 : Properties.ClusterID q1 <> EmptyString).
  { destruct (GetClusterID_cases _ _ _ _ Eid) as [(Hset & _ & ->)|(_ & -> & ->)];
      [exact Hset|apply newClusterID_not_empty]. }
  destruct (IsHostedMasterProfile q); intros [= _ <-]; exact Hq1.
Qed.

Lemma pools_forget (p : FullProperties.t) :
  pools (FullProperties.forget p)
  = map FullAgentPoolProfile.forget (FullProperties.pools p).
Proof.
  unfold pools, FullProperties.pools. simpl.
  now destruct (FullProperties.AgentPoolProfiles p).
Qed.

(** X23.  The record of [GetClusterMetadata] is consistent: the security
    group and the route table are named after the resource prefix it also
    reports, at most one of the primary availability set and the primary
    scale set has a name, and after the call the receiver holds the cluster
    ID that [GetClusterID] gives on the receiver before the call. *)
Theorem GetClusterMetadata_is_consistent
  (p p' : FullProperties.t) (md : ClusterMetadata.t) :
  GetClusterMetadata randUint32 p = Ret (md, p') ->
  ClusterMetadata.SecurityGroupName md
  = (ClusterMetadata.ResourcePrefix md +:+ "nsg")%string
  /\ ClusterMetadata.RouteTableName md
     = (ClusterMetadata.ResourcePrefix md +:+ "routetable")%string
  /\ (ClusterMetadata.PrimaryAvailabilitySetName md = EmptyString
      \/ ClusterMetadata.PrimaryScaleSetName md = EmptyString)
  /\ FullProperties.ClusterID p'
     = fst (GetClusterID randUint32 (FullProperties.forget p))
  /\ FullProperties.ClusterID p' <> EmptyString.
Proof.
  unfold GetClusterMetadata, fbind. rewrite lift_query.
  destruct (GetSubnetName (FullProperties.forget p)) as [subnet|e]; [|discriminate].
  rewrite lift_query.
  destruct (GetVNetResourceGroupName (FullProperties.forget p)) as [rg|e]; [|discriminate].
  destruct (lift (GetVirtualNetworkName randUint32) p) as [[vnet p3]|e] eqn:E3;
    [|discriminate].
  destruct (lift (GetNSGName randUint32) p3) as [[nsg p4]|e] eqn:E4; [|discriminate].
  destruct (lift (GetRouteTableName randUint32) p4) as [[rt p5]|e] eqn:E5; [|discriminate].
  destruct (lift (GetPrimaryAvailabilitySetName randUint32) p5) as [[pas p6]|e] eqn:E6;
    [|discriminate].
  destruct (GetPrimaryScaleSetName randUint32 p6) as [[pss p7]|e] eqn:E7; [|discriminate].
  destruct (lift (GetResourcePrefix randUint32) p7) as [[rp p8]|e] eqn:E8; [|discriminate].
  unfold fret. intros [= <- <-]. simpl.
  (* the state after the security group name has a cluster ID *)
  pose proof (fullFrame_lift randUint32 _ (frame_GetVirtualNetworkName randUint32) _ _ _ E3)
    as F3.
  pose proof (fullFrame_lift randUint32 _ (frame_GetNSGName randUint32) _ _ _ E4) as F4.
  pose proof (lift_inv _ _ _ _ (frame_GetNSGName randUint32) E4) as N4.
  unfold GetNSGName, mbind in N4.
  destruct (GetResourcePrefix randUint32 (FullProperties.forget p3))
    as [[prefix q4]|e] eqn:R4; [|discriminate].
  unfold mret in N4. injection N4 as <- ->.
  pose proof (GetResourcePrefix_assigns _ _ _ R4) as Hid4.
  pose proof (GetResourcePrefix_again _ _ _ _ R4) as A4.
  change (Properties.ClusterID (FullProperties.forget p4))
    with (FullProperties.ClusterID p4) in Hid4.
  (* from there on the receiver does not change *)
  assert (p5 = p4) as ->
    by (eapply fullFrame_stable;
        [apply fullFrame_lift, frame_GetRouteTableName|exact Hid4|exact E5]).
  assert (p6 = p4) as ->
    by (eapply fullFrame_stable;
        [apply fullFrame_lift, frame_GetPrimaryAvailabilitySetName|exact Hid4|exact E6]).
  assert (p7 = p4) as ->
    by (eapply fullFrame_stable;
        [apply fullFrame_GetPrimaryScaleSetName|exact Hid4|exact E7]).
  assert (p8 = p4) as ->
    by (eapply fullFrame_stable;
        [apply fullFrame_lift, frame_GetResourcePrefix|exact Hid4|exact E8]).
  pose proof (lift_inv _ _ _ _ (frame_GetResourcePrefix randUint32) E8) as N8.
  rewrite A4 in N8. injection N8 as <-.
  pose proof (lift_inv _ _ _ _ (frame_GetRouteTableName randUint32) E5) as N5.
  unfold GetRouteTableName, mbind in N5. rewrite A4 in N5.
  unfold mret in N5. injection N5 as <-.
  split; [reflexivity|]. split; [reflexivity|]. split; [|split; [|exact Hid4]].
  - pose proof (lift_inv _ _ _ _ (frame_GetPrimaryAvailabilitySetName randUint32) E6)
      as N6.
    unfold GetPrimaryAvailabilitySetName in N6. rewrite pools_forget in N6.
    unfold GetPrimaryScaleSetName in E7.
    destruct (FullProperties.pools p4) as [|first rest]; simpl in N6.
    + left. unfold mret in N6. now injection N6 as <-.
    + change (AgentPoolProfile.AvailabilityProfile (FullAgentPoolProfile.forget first))
        with (FullAgentPoolProfile.AvailabilityProfile first) in N6.
      destruct (String.eqb (FullAgentPoolProfile.AvailabilityProfile first)
                           AvailabilitySet) eqn:Ea.
      * apply string_eqb_true in Ea. rewrite Ea in E7.
        change (String.eqb AvailabilitySet VirtualMachineScaleSets) with false in E7.
        right. unfold fret in E7. now injection E7 as <-.
      * left. unfold mret in N6. now injection N6 as <-.
  - apply fullOnlySetsClusterID_id; [|exact Hid4].
    eapply fullOnlySetsClusterID_trans; [exact F3|exact F4].
Qed.

End Metadata.

Lemma GetClusterMetadata_is_consistent_witness :
  exists md p',
    GetClusterMetadata sampleRand (clusterWith "" [ubuntuAgent; windowsAgent])
    = Ret (md, p')
    /\ ClusterMetadata.SecurityGroupName md
       = (ClusterMetadata.ResourcePrefix md +:+ "nsg")%string
    /\ ClusterMetadata.PrimaryAvailabilitySetName md = EmptyString
    /\ FullProperties.ClusterID p' <> EmptyString.
Proof.
  destruct (GetClusterMetadata sampleRand (clusterWith "" [ubuntuAgent; windowsAgent]))
    as [[md p']|e] eqn:E; [|vm_compute in E; discriminate E].
  exists md, p'. split; [reflexivity|].
  destruct (GetClusterMetadata_is_consistent sampleRand _ _ _ E)
    as (Hnsg & _ & _ & _ & Hid).
  split; [exact Hnsg|]. split; [|exact Hid].
  vm_compute in E. injection E as <- _. reflexivity.
Defined.

(** ** Private clusters *)

(** X24.  A jumpbox is provisioned only for a private cluster: when
    [PrivateJumpboxProvision] returns true on the Kubernetes configuration
    of a Kubernetes orchestrator profile, [IsPrivateCluster] holds for the
    profile and the jumpbox profile that the disk queries read is there. *)
Theorem jumpbox_is_provisioned_only_for_a_private_cluster
  (o : FullOrchestratorProfile.t) (k : FullKubernetesConfig.t) :
  FullOrchestratorProfile.OrchestratorType o = Kubernetes ->
  FullOrchestratorProfile.KubernetesConfig o = Some k ->
  FullKubernetesConfig.PrivateJumpboxProvision (Some k) = Ret true ->
  FullOrchestratorProfile.IsPrivateCluster o = true
  /\ exists pc jumpbox,
       FullKubernetesConfig.PrivateCluster k = Some pc
       /\ PrivateCluster.JumpboxProfile pc = Some jumpbox.
Proof.
  intros Ht Hk.
  unfold FullKubernetesConfig.PrivateJumpboxProvision,
         FullOrchestratorProfile.IsPrivateCluster, IsKubernetes.
  simpl. rewrite Ht, Hk. change (String.eqb Kubernetes Kubernetes) with true. simpl.
  destruct (FullKubernetesConfig.PrivateCluster k) as [pc|]; [|discriminate].
  destruct (PrivateCluster.Enabled pc) as [[|]|]; try discriminate.
  destruct (PrivateCluster.JumpboxProfile pc) as [j|] eqn:Ej; [|discriminate].
  intros _. split; [reflexivity|]. exists pc, j. auto.
Qed.

Lemma jumpbox_is_provisioned_only_for_a_private_cluster_witness :
  FullOrchestratorProfile.IsPrivateCluster privateOrchestrator = true
  /\ exists pc jumpbox,
       FullKubernetesConfig.PrivateCluster privateKubernetesConfig = Some pc
       /\ PrivateCluster.JumpboxProfile pc = Some jumpbox.
Proof.
  apply (jumpbox_is_provisioned_only_for_a_private_cluster
           privateOrchestrator privateKubernetesConfig); reflexivity.
Defined.

(** ** Distro of the master *)

(** X25.  The distro predicates of the master profile: at most one of
    Ubuntu 16.04, Ubuntu 18.04, RHEL and CoreOS holds, a master on a VHD
    image is an Ubuntu master, and a master is Ubuntu without a VHD exactly
    on the three base images. *)
Theorem master_distro_predicates (m : FullMasterProfile.t) :
  FullMasterProfile.IsUbuntu1604 m && FullMasterProfile.IsUbuntu1804 m = false
  /\ FullMasterProfile.IsUbuntu m && FullMasterProfile.IsRHEL m = false
  /\ FullMasterProfile.IsUbuntu m && FullMasterProfile.IsCoreOS m = false
  /\ FullMasterProfile.IsRHEL m && FullMasterProfile.IsCoreOS m = false
  /\ (FullMasterProfile.IsVHDDistro m = true -> FullMasterProfile.IsUbuntu m = true)
  /\ (FullMasterProfile.IsUbuntuNonVHD m = true <->
      FullMasterProfile.Distro m = Ubuntu
      \/ FullMasterProfile.Distro m = ACC1604
      \/ FullMasterProfile.Distro m = Ubuntu1804).
Proof.
  unfold FullMasterProfile.IsUbuntuNonVHD, FullMasterProfile.IsUbuntu,
         FullMasterProfile.IsUbuntu1604, FullMasterProfile.IsUbuntu1804,
         FullMasterProfile.IsRHEL, FullMasterProfile.IsCoreOS,
         FullMasterProfile.IsVHDDistro.
  destruct m as [count dns subnet cidr storage distro avail zones fqdn]. simpl.
  split; [|split; [|split; [|split; [|split; [|split]]]]].
  1-5: intros; distro_cases.
  - intros Hu. revert Hu. distro_cases; auto.
  - intros [->|[->| ->]]; reflexivity.
Qed.
